(** * Crowd analytics and alerting core: a shallow embedding

    The development follows [crowd_analyzer.py] (class [CrowdAnalyzer]) and
    [alert_manager.py] (class [AlertManager]).

    Numbers.  Python [int] is [Z].  Python [float] is modelled by the exact
    rationals [Q]: comparisons, sums, products and quotients are the exact
    ones and IEEE-754 rounding is not part of the model.  Equality of floats
    is [Qeq] ([==]).  The one irrational primitive the code calls, the square
    root of numpy/scipy, is a parameter of the sections that need it.  The
    closing module [Binary64] replays the smoother on binary64 numbers.

    State.  The two classes are records; a method that mutates [self] returns
    the new record next to its result.  Wall-clock readings ([time.time()])
    and the outcome of input/output are arguments. *)

From Stdlib Require Import ZArith QArith Qabs Qround Lqa Lia Bool Ascii String List.
From Stdlib Require Import Uint63 Floats.
From stdpp Require Import gmap strings list pretty.

Set Default Proof Using "Type".

(** ** Python built-ins on numbers and strings *)

Module Py.

Local Open Scope Q_scope.

(** [x < y] on floats. *)
Definition Qltb (x y : Q) : bool := negb (Qle_bool y x).

(** [min(a, b)] and [max(a, b)]: the first argument unless the second is
    strictly smaller (larger). *)
Definition min (a b : Q) : Q := if Qltb b a then b else a.
Definition max (a b : Q) : Q := if Qltb a b then b else a.

(** [int(x)]: truncation towards zero. *)
Definition int (x : Q) : Z := Z.quot (Qnum x) (Zpos (Qden x)).

(** The exceptions the modelled code can raise. *)
Inductive exn := ValueError | ZeroDivisionError | TypeError.

Inductive result (A : Type) :=
  | Ok (a : A)
  | Raise (e : exn).
Arguments Ok {A} a.
Arguments Raise {A} e.

Definition bind {A B} (r : result A) (k : A -> result B) : result B :=
  match r with
  | Ok a => k a
  | Raise e => Raise e
  end.

(** [a / b] on two ints (true division). *)
Definition truediv (a b : Z) : result Q :=
  if (b =? 0)%Z then Raise ZeroDivisionError else Ok (inject_Z a / inject_Z b).

(** Truth value of an attribute that is [None] or an int. *)
Definition truthy (v : option Z) : bool :=
  match v with
  | Some n => negb (n =? 0)%Z
  | None => false
  end.

(** Reading a number out of an attribute that may still be [None]. *)
Definition number (v : option Z) : result Z :=
  match v with
  | Some n => Ok n
  | None => Raise TypeError
  end.

(** [l[-n:]] *)
Definition last_n {A} (n : nat) (l : list A) : list A :=
  skipn (length l - n) l.

(** The one-character string holding a double quote. *)
Definition dquote : string := String (ascii_of_nat 34) EmptyString.

(** [sep.join(l)] *)
Fixpoint join (sep : string) (l : list string) : string :=
  match l with
  | [] => EmptyString
  | [s] => s
  | s :: rest => s +:+ sep +:+ join sep rest
  end.

(** [s.replace(old, new)] for one-character [old] and [new]. *)
Fixpoint replace_char (old new : ascii) (s : string) : string :=
  match s with
  | EmptyString => EmptyString
  | String c s' =>
      String (if Ascii.eqb c old then new else c) (replace_char old new s')
  end.

Definition is_lower (c : ascii) : bool :=
  ((97 <=? nat_of_ascii c) && (nat_of_ascii c <=? 122))%nat.
Definition is_upper (c : ascii) : bool :=
  ((65 <=? nat_of_ascii c) && (nat_of_ascii c <=? 90))%nat.
Definition upper (c : ascii) : ascii :=
  if is_lower c then ascii_of_nat (nat_of_ascii c - 32) else c.
Definition lower (c : ascii) : ascii :=
  if is_upper c then ascii_of_nat (nat_of_ascii c + 32) else c.

(** [s.title()] on ASCII text: a cased character is upper-cased after an
    uncased one and lower-cased after a cased one. *)
Fixpoint title_from (prev_cased : bool) (s : string) : string :=
  match s with
  | EmptyString => EmptyString
  | String c s' =>
      let cased := is_lower c || is_upper c in
      String (if prev_cased then lower c else upper c) (title_from cased s')
  end.
Definition title (s : string) : string := title_from false s.

(** Nearest integer, ties to even. *)
Definition round_half_even (x : Q) : Z :=
  let f := Qfloor x in
  let r := x - inject_Z f in
  if Qltb r (1#2) then f
  else if Qltb (1#2) r then (f + 1)%Z
  else if Z.even f then f else (f + 1)%Z.

(** [f"{x:.1f}"] *)
Definition format_1f (x : Q) : string :=
  let t := round_half_even (Qabs x * 10) in
  (if Qltb x 0 then "-" else "")
    +:+ pretty (t / 10)%Z +:+ "." +:+ pretty (t mod 10)%Z.

End Py.

#[global] Instance result_mbind : MBind Py.result :=
  fun A B k r => Py.bind r k.

(** ** crowd_analyzer.py *)

Module CrowdAnalyzer.

Local Open Scope Q_scope.

(** A bounding box [[x1, y1, x2, y2]]. *)
Record box := Box { x1 : Z; y1 : Z; x2 : Z; y2 : Z }.

(** [alert_thresholds]: the dict with keys ['low'], ['medium'], ['high']. *)
Record thresholds := Thresholds { low : Q; medium : Q; high : Q }.

(** The four return values of [classify_crowd_level]. *)
Inductive crowd_level := Low | Medium | High | Critical.

Definition level_name (l : crowd_level) : string :=
  match l with
  | Low => "low"
  | Medium => "medium"
  | High => "high"
  | Critical => "critical"
  end.

(** Severity order [low < medium < high < critical]. *)
Definition severity (l : crowd_level) : nat :=
  match l with
  | Low => 0
  | Medium => 1
  | High => 2
  | Critical => 3
  end.

(** The instance attributes set by [__init__]. *)
Record analyzer := Analyzer {
  density_method : string;
  smoothing_factor : Q;
  grid_size : Z * Z;
  alert_thresholds : thresholds;
  count_history : list Z;
  density_history : list Q;
  time_history : list Q;
  smoothed_count : Q;
  smoothed_density : Q;
  frame_width : option Z;
  frame_height : option Z
}.

(** [__init__] with the defaults of [config.get]. *)
Definition init : analyzer :=
  {| density_method := "bbox_coverage";
     smoothing_factor := 3 # 10;
     grid_size := (10, 10)%Z;
     alert_thresholds := Thresholds 20 50 100;
     count_history := [];
     density_history := [];
     time_history := [];
     smoothed_count := 0;
     smoothed_density := 0;
     frame_width := None;
     frame_height := None |}.

Definition update_frame_dimensions (self : analyzer) (width height : Z)
  : analyzer :=
  {| density_method := density_method self;
     smoothing_factor := smoothing_factor self;
     grid_size := grid_size self;
     alert_thresholds := alert_thresholds self;
     count_history := count_history self;
     density_history := density_history self;
     time_history := time_history self;
     smoothed_count := smoothed_count self;
     smoothed_density := smoothed_density self;
     frame_width := Some width;
     frame_height := Some height |}.

(** Assignment to the two smoothed attributes. *)
Definition set_smoothed (self : analyzer) (c d : Q) : analyzer :=
  {| density_method := density_method self;
     smoothing_factor := smoothing_factor self;
     grid_size := grid_size self;
     alert_thresholds := alert_thresholds self;
     count_history := count_history self;
     density_history := density_history self;
     time_history := time_history self;
     smoothed_count := c;
     smoothed_density := d;
     frame_width := frame_width self;
     frame_height := frame_height self |}.

(** *** CrowdClassifier *)

Definition classify_crowd_level (self : analyzer) (person_count : Q)
  : crowd_level :=
  let thresholds := alert_thresholds self in
  if Py.Qltb person_count (low thresholds) then Low
  else if Py.Qltb person_count (medium thresholds) then Medium
  else if Py.Qltb person_count (high thresholds) then High
  else Critical.

(** *** Smoother *)

Definition _update_smoothed_values (self : analyzer)
    (current_count : Z) (current_density : Q) : analyzer :=
  if Qeq_bool (smoothed_count self) 0 then
    set_smoothed self (inject_Z current_count) current_density
  else
    let alpha := smoothing_factor self in
    set_smoothed self
      (alpha * inject_Z current_count + (1 - alpha) * smoothed_count self)
      (alpha * current_density + (1 - alpha) * smoothed_density self).

(** One call per frame, in order. *)
Definition smooth_frames (self : analyzer) (frames : list (Z * Q))
  : analyzer :=
  fold_left (fun s f => _update_smoothed_values s (fst f) (snd f)) frames self.


(** *** numpy and scipy kernels

    Arrays are lists (rows of a matrix are lists of lists).  [np.inf], which
    the code writes on the diagonal of a distance matrix, is [Inf]. *)

Inductive ext := Fin (q : Q) | Inf.

Definition np_zeros (rows cols : Z) : Py.result (list (list Q)) :=
  if (rows <? 0)%Z || (cols <? 0)%Z then Py.Raise Py.ValueError
  else Py.Ok (replicate (Z.to_nat rows) (replicate (Z.to_nat cols) 0)).

(** [np.zeros((rows, cols), dtype=np.uint8)] *)
Definition np_zeros_uint8 (rows cols : Z) : Py.result (list (list Z)) :=
  if (rows <? 0)%Z || (cols <? 0)%Z then Py.Raise Py.ValueError
  else Py.Ok (replicate (Z.to_nat rows) (replicate (Z.to_nat cols) 0%Z)).

(** [np.sum] of an integer matrix. *)
Definition np_sum (m : list (list Z)) : Z :=
  foldr Z.add 0%Z (concat m).

(** Sum of a float array (a matrix is summed over all its cells). *)
Definition Qsum (l : list Q) : Q := foldr Qplus 0 l.
Definition grid_sum (m : list (list Q)) : Q := Qsum (concat m).

(** [np.mean] of a non-empty one-dimensional array. *)
Definition np_mean (l : list Q) : Q :=
  Qsum l / inject_Z (Z.of_nat (length l)).

(** [np.max] over all cells; an empty array has no maximum. *)
Definition np_max (m : list (list Q)) : Py.result Q :=
  match concat m with
  | [] => Py.Raise Py.ValueError
  | c :: cs => Py.Ok (fold_left Py.max cs c)
  end.

(** [m[ya:yb, xa:xb] = 1] for in-range, non-negative slice bounds. *)
Definition set_slice (m : list (list Z)) (ya yb xa xb : Z) : list (list Z) :=
  imap (fun i row =>
          if (ya <=? Z.of_nat i)%Z && (Z.of_nat i <? yb)%Z then
            imap (fun j v =>
                    if (xa <=? Z.of_nat j)%Z && (Z.of_nat j <? xb)%Z
                    then 1%Z else v) row
          else row) m.

(** [m[i, j] += 1] for in-range, non-negative indices. *)
Definition increment (m : list (list Q)) (i j : Z) : list (list Q) :=
  alter (alter (fun c => c + 1) (Z.to_nat j)) (Z.to_nat i) m.

(** [np.fill_diagonal(m, np.inf)] *)
Definition fill_diagonal_inf (m : list (list Q)) : list (list ext) :=
  imap (fun i row =>
          imap (fun j d => if (i =? j)%nat then Inf else Fin d) row) m.

Definition ext_min (a b : ext) : ext :=
  match a, b with
  | Inf, _ => b
  | _, Inf => a
  | Fin x, Fin y => Fin (Py.min x y)
  end.

(** [np.min(m, axis=1)] *)
Definition np_min_axis1 (m : list (list ext)) : list ext :=
  map (foldr ext_min Inf) m.

Definition ext_add (a b : ext) : ext :=
  match a, b with
  | Fin x, Fin y => Fin (x + y)
  | _, _ => Inf
  end.

Definition ext_div (a : ext) (d : Q) : ext :=
  match a with
  | Fin x => Fin (x / d)
  | Inf => Inf
  end.

(** [np.mean] of a non-empty array that may hold [np.inf]. *)
Definition np_mean_ext (l : list ext) : ext :=
  ext_div (foldr ext_add (Fin 0) l) (inject_Z (Z.of_nat (length l))).

(** [min(a, 1.0)] *)
Definition min_one (a : ext) : Q :=
  match a with
  | Fin x => Py.min x 1
  | Inf => 1
  end.

Section Sqrt.

(** [np.sqrt]; scipy's Euclidean [cdist] and [np.std] are built on it. *)
Variable sqrt : Q -> Q.

Definition euclidean (a b : Q * Q) : Q :=
  sqrt ((fst a - fst b) ^ 2 + (snd a - snd b) ^ 2).

(** [cdist(a, b)] *)
Definition cdist (a b : list (Q * Q)) : list (list Q) :=
  map (fun p => map (euclidean p) b) a.

(** [np.std]: population standard deviation. *)
Definition np_std (l : list Q) : Q :=
  let m := np_mean l in
  sqrt (np_mean (map (fun x => Qabs (x - m) ^ 2) l)).

(** *** DensityEngine *)

Definition clamp (v hi : Z) : Z := Z.max 0 (Z.min v hi).

(** The centre [[center_x, center_y]] of a box. *)
Definition center (b : box) : Q * Q :=
  (inject_Z (x1 b + x2 b) / 2, inject_Z (y1 b + y2 b) / 2).

(** Body of the loop that paints one box on the mask. *)
Definition paint (width height : Z) (mask : list (list Z)) (b : box)
  : list (list Z) :=
  let xa := clamp (x1 b) (width - 1) in
  let ya := clamp (y1 b) (height - 1) in
  let xb := clamp (x2 b) (width - 1) in
  let yb := clamp (y2 b) (height - 1) in
  if (xa <? xb)%Z && (ya <? yb)%Z then set_slice mask ya yb xa xb else mask.

(** The quotient [covered_area / total_area] is the exact one; for
    [total_area = 0], which [calculate_density_score] never lets through,
    numpy would give [nan]. *)
Definition _calculate_bbox_coverage_density (self : analyzer)
    (boxes : list box) : Py.result Q :=
  match boxes with
  | [] => Py.Ok 0
  | _ =>
      width ← Py.number (frame_width self);
      height ← Py.number (frame_height self);
      let total_area := (width * height)%Z in
      mask ← np_zeros_uint8 height width;
      let mask := fold_left (paint width height) boxes mask in
      let covered_area := np_sum mask in
      let density := inject_Z covered_area / inject_Z total_area in
      Py.Ok (Py.min density 1)
  end.

Definition _calculate_spatial_distribution_density (self : analyzer)
    (boxes : list box) : Py.result Q :=
  if (length boxes <? 2)%nat then
    Py.Ok (inject_Z (Z.of_nat (length boxes)) / 100)
  else
    let centers := map center boxes in
    let distances := fill_diagonal_inf (cdist centers centers) in
    let min_distances := np_min_axis1 distances in
    let avg_min_distance := np_mean_ext min_distances in
    width ← Py.number (frame_width self);
    height ← Py.number (frame_height self);
    let frame_diagonal := sqrt (inject_Z (width ^ 2 + height ^ 2)) in
    let normalized_distance := ext_div avg_min_distance frame_diagonal in
    let density := 1 - min_one normalized_distance in
    Py.Ok density.

Definition calculate_density_score (self : analyzer) (boxes : list box)
  : Py.result Q :=
  if match boxes with [] => true | _ => false end
     || negb (Py.truthy (frame_width self))
     || negb (Py.truthy (frame_height self))
  then Py.Ok 0
  else if String.eqb (density_method self) "bbox_coverage" then
    _calculate_bbox_coverage_density self boxes
  else if String.eqb (density_method self) "spatial_distribution" then
    _calculate_spatial_distribution_density self boxes
  else
    _calculate_bbox_coverage_density self boxes.

(** Body of the loop that counts one box in its grid cell. *)
Definition count_box (grid_h grid_w : Z) (cell_width cell_height : Q)
    (heatmap : list (list Q)) (b : box) : list (list Q) :=
  let '(center_x, center_y) := center b in
  let grid_x := Py.int (center_x / cell_width) in
  let grid_y := Py.int (center_y / cell_height) in
  let grid_x := clamp grid_x (grid_w - 1) in
  let grid_y := clamp grid_y (grid_h - 1) in
  increment heatmap grid_y grid_x.

Definition generate_density_heatmap (self : analyzer) (boxes : list box)
  : Py.result (list (list Q)) :=
  let '(grid_h, grid_w) := grid_size self in
  if negb (Py.truthy (frame_width self))
     || negb (Py.truthy (frame_height self))
  then np_zeros grid_h grid_w
  else
    heatmap ← np_zeros grid_h grid_w;
    match boxes with
    | [] => Py.Ok heatmap
    | _ =>
        width ← Py.number (frame_width self);
        height ← Py.number (frame_height self);
        cell_width ← Py.truediv width grid_w;
        cell_height ← Py.truediv height grid_h;
        let heatmap :=
          fold_left (count_box grid_h grid_w cell_width cell_height)
            boxes heatmap in
        top ← np_max heatmap;
        if Py.Qltb 0 top then Py.Ok (map (map (fun c => c / top)) heatmap)
        else Py.Ok heatmap
    end.

(** The value of [heatmap] in [generate_density_heatmap] when the loop over
    the boxes has ended and the grid is not yet normalised: the same
    statements without the two early returns and the final division. *)
Definition heatmap_counts (self : analyzer) (boxes : list box)
  : Py.result (list (list Q)) :=
  let '(grid_h, grid_w) := grid_size self in
  heatmap ← np_zeros grid_h grid_w;
  width ← Py.number (frame_width self);
  height ← Py.number (frame_height self);
  cell_width ← Py.truediv width grid_w;
  cell_height ← Py.truediv height grid_h;
  Py.Ok (fold_left (count_box grid_h grid_w cell_width cell_height)
           boxes heatmap).

(** *** AnomalyDetector *)

Record anomalies := Anomalies {
  count_anomaly : bool;
  density_anomaly : bool;
  sudden_change : bool
}.

Definition detect_anomalies (self : analyzer)
    (current_count : Z) (current_density : Q) : anomalies :=
  if (length (count_history self) <? 20)%nat then
    Anomalies false false false
  else
    let recent_counts := map inject_Z (Py.last_n 20 (count_history self)) in
    let recent_densities := Py.last_n 20 (density_history self) in
    let count_mean := np_mean recent_counts in
    let count_std := np_std recent_counts in
    let density_mean := np_mean recent_densities in
    let density_std := np_std recent_densities in
    let count_flag :=
      if Py.Qltb 0 count_std then
        Py.Qltb 2 (Qabs (inject_Z current_count - count_mean) / count_std)
      else false in
    let density_flag :=
      if Py.Qltb 0 density_std then
        Py.Qltb 2 (Qabs (current_density - density_mean) / density_std)
      else false in
    let sudden_flag :=
      if (1 <? length (count_history self))%nat then
        let prev_count :=
          nth (length (count_history self) - 2) (count_history self) 0%Z in
        let count_change := Z.abs (current_count - prev_count) in
        Py.Qltb (Py.max 10 (count_mean * (3 # 10))) (inject_Z count_change)
      else false in
    Anomalies count_flag density_flag sudden_flag.

End Sqrt.

(** A computable stand-in for [np.sqrt]: the square root rounded up to three
    decimal places. *)
Definition sqrt_milli (x : Q) : Q :=
  inject_Z (Z.sqrt_up (Qceiling (x * 1000000))) / 1000.

(** *** Vocabulary of the properties *)

(** A mask whose rows have [w] cells, each 0 or 1. *)
Definition binary (w : nat) (m : list (list Z)) : Prop :=
  Forall (fun row => length row = w
                     /\ Forall (fun v => (0 <= v <= 1)%Z) row) m.

(** A grid whose rows have [w] cells. *)
Definition rows_of (w : nat) (m : list (list Q)) : Prop :=
  Forall (fun row => length row = w) m.

(** A distance that is not negative; [np.inf] is one. *)
Definition ext_nonneg (e : ext) : Prop :=
  match e with
  | Fin q => 0 <= q
  | Inf => True
  end.

(** The frame dimensions, once known, are sizes. *)
Definition frame_sized (self : analyzer) : Prop :=
  (forall w, frame_width self = Some w -> (0 <= w)%Z)
  /\ (forall h, frame_height self = Some h -> (0 <= h)%Z).

(** *** Test data

    [test_boxes] and the 640 x 480 frame are those of [test_crowd_analyzer];
    [with_history n] is an analyzer that has seen [n] frames of 5 persons. *)

Definition test_boxes : list box :=
  [Box 100 100 150 200; Box 200 150 250 250; Box 300 100 350 200].

(** A fresh analyzer that has been told the frame size. *)
Definition framed : analyzer := update_frame_dimensions init 640 480.

(** The same with the other density method configured. *)
Definition framed_spatial : analyzer :=
  {| density_method := "spatial_distribution";
     smoothing_factor := 3 # 10;
     grid_size := (10, 10)%Z;
     alert_thresholds := Thresholds 20 50 100;
     count_history := [];
     density_history := [];
     time_history := [];
     smoothed_count := 0;
     smoothed_density := 0;
     frame_width := Some 640%Z;
     frame_height := Some 480%Z |}.

Definition with_history (n : nat) : analyzer :=
  {| density_method := "bbox_coverage";
     smoothing_factor := 3 # 10;
     grid_size := (10, 10)%Z;
     alert_thresholds := Thresholds 20 50 100;
     count_history := replicate n 5%Z;
     density_history := replicate n (1 # 10);
     time_history := map (fun i => inject_Z (Z.of_nat i)) (seq 0 n);
     smoothed_count := 5;
     smoothed_density := 1 # 10;
     frame_width := Some 640%Z;
     frame_height := Some 480%Z |}.

(** *** HistoryStore *)

(** [maxlen] of the three history deques. *)
Definition history_maxlen : nat := 100.

(** [d.append(x)] on a [deque(maxlen=100)]: a full deque drops its oldest
    item. *)
Definition deque_append {A} (d : list A) (x : A) : list A :=
  if (history_maxlen <=? length d)%nat then drop 1 d ++ [x] else d ++ [x].

(** Assignment to the three history attributes. *)
Definition set_history (self : analyzer) (counts : list Z)
    (densities times : list Q) : analyzer :=
  {| density_method := density_method self;
     smoothing_factor := smoothing_factor self;
     grid_size := grid_size self;
     alert_thresholds := alert_thresholds self;
     count_history := counts;
     density_history := densities;
     time_history := times;
     smoothed_count := smoothed_count self;
     smoothed_density := smoothed_density self;
     frame_width := frame_width self;
     frame_height := frame_height self |}.

(** *** Outcomes of the remaining methods

    Besides the exceptions of [Py.exn] the trend code can raise
    [IndexError]. *)

Inductive error := Builtin (e : Py.exn) | IndexError.

Inductive outcome (A : Type) :=
  | Done (a : A)
  | Failed (e : error).
Arguments Done {A} a.
Arguments Failed {A} e.

#[global] Instance outcome_mbind : MBind outcome :=
  fun A B k r =>
    match r with
    | Done a => k a
    | Failed e => Failed e
    end.

Definition lift {A} (r : Py.result A) : outcome A :=
  match r with
  | Py.Ok a => Done a
  | Py.Raise e => Failed (Builtin e)
  end.

(** *** TrendEngine *)

(** A float that may be [nan]: [None] is [nan]. *)
Definition rate := option Q.

(** The quotient of a float that may be infinite by a finite one, with
    numpy's outcomes for a zero divisor. *)
Inductive wide := Finite (q : Q) | PlusInf | MinusInf | NotANumber.

Definition wide_div (a : wide) (b : Q) : wide :=
  match a with
  | Finite x =>
      if Qeq_bool b 0 then
        if Qeq_bool x 0 then NotANumber
        else if Py.Qltb 0 x then PlusInf else MinusInf
      else Finite (x / b)
  | PlusInf => if Py.Qltb b 0 then MinusInf else PlusInf
  | MinusInf => if Py.Qltb b 0 then PlusInf else MinusInf
  | NotANumber => NotANumber
  end.

(** [np.clip(a, -1, 1)] *)
Definition clip_unit (a : wide) : rate :=
  match a with
  | Finite x => Some (Py.min (Py.max x (-1)) 1)
  | PlusInf => Some 1
  | MinusInf => Some (-1)
  | NotANumber => None
  end.

Definition _classify_trend (r : rate) : string :=
  match r with
  | Some r =>
      if Py.Qltb (1 # 2) r then "increasing"
      else if Py.Qltb r (- (1 # 2)) then "decreasing"
      else "stable"
  | None => "stable"
  end.

Record trends := Trends {
  count_trend : string;
  count_rate : rate;
  density_trend : string;
  density_rate : rate
}.

(** *** Spatial analysis *)

Record spatial := Spatial {
  center_of_mass : Q * Q;
  spread : Q;
  clustering_score : Q;
  edge_density : Q
}.

(** [m[~np.eye(n, dtype=bool)]]: the cells off the diagonal, row by row. *)
Definition off_diagonal (m : list (list Q)) : list Q :=
  concat
    (imap (fun i row =>
             omap id
               (imap (fun j d => if (i =? j)%nat then None else Some d) row))
       m).

(** The test of [_calculate_edge_density] on one centre. *)
Definition near_edge (width height : Z) (c : Q * Q) : bool :=
  let edge_x := inject_Z width * (1 # 10) in
  let edge_y := inject_Z height * (1 # 10) in
  Py.Qltb (fst c) edge_x || Py.Qltb (inject_Z width - edge_x) (fst c)
  || Py.Qltb (snd c) edge_y || Py.Qltb (inject_Z height - edge_y) (snd c).

Definition _calculate_edge_density (self : analyzer) (centers : list (Q * Q))
  : Q :=
  if match centers with [] => true | _ => false end
     || negb (Py.truthy (frame_width self))
     || negb (Py.truthy (frame_height self))
  then 0
  else
    let width := default 0%Z (frame_width self) in
    let height := default 0%Z (frame_height self) in
    let near_edge_count := length (filter (near_edge width height) centers) in
    inject_Z (Z.of_nat near_edge_count) / inject_Z (Z.of_nat (length centers)).

(** *** Statistics *)




(** *** The methods built on the square root *)

(** The detector's dict: keys ['boxes'], ['scores'], ['person_count']. *)
Record detections := Detections {
  boxes : list box;
  scores : list Q;
  person_count : Z
}.

(** The dict returned by [analyze_crowd]. *)
Record analysis := Analysis {
  a_person_count : Z;
  a_smoothed_count : Q;
  a_density_score : Q;
  a_smoothed_density : Q;
  a_crowd_level : crowd_level;
  a_density_heatmap : list (list Q);
  a_spatial_analysis : spatial;
  a_trends : trends;
  a_anomalies : anomalies;
  a_timestamp : Q
}.

Section Analysis.

Variable sqrt : Q -> Q.

(** [np.corrcoef(x, y)[0, 1]]: the covariance with divisor [n - 1], divided
    by the square roots of the two variances and clipped to [-1, 1], for
    arrays of at least two items.  Arrays of different lengths cannot be
    stacked. *)
Definition np_corrcoef (x y : list Q) : Py.result rate :=
  if negb (length x =? length y)%nat then Py.Raise Py.ValueError
  else
    let fact := inject_Z (Z.of_nat (length x) - 1) in
    let mx := np_mean x in
    let my := np_mean y in
    let dx := map (fun v => v - mx) x in
    let dy := map (fun v => v - my) y in
    let c00 := Qsum (map (fun v => v * v) dx) * (1 / fact) in
    let c11 := Qsum (map (fun v => v * v) dy) * (1 / fact) in
    let c01 := Qsum (zip_with Qmult dx dy) * (1 / fact) in
    Py.Ok (clip_unit
             (wide_div (wide_div (Finite c01) (sqrt c00)) (sqrt c11))).

Definition _calculate_rate_of_change (values times : list Q) : outcome rate :=
  if (length values <? 2)%nat then Done (Some 0)
  else
    match times with
    | [] => Failed IndexError
    | t0 :: _ =>
        let x := map (fun t => t - t0) times in
        let y := values in
        if (1 <? length x)%nat && Py.Qltb 0 (np_std sqrt x) then
          corr ← lift (np_corrcoef x y);
          Done (option_map
                  (fun c => c * (np_std sqrt y / np_std sqrt x)) corr)
        else Done (Some 0)
    end.

Definition calculate_trends (self : analyzer) : outcome trends :=
  if (length (count_history self) <? 10)%nat then
    Done (Trends "stable" (Some 0) "stable" (Some 0))
  else
    let recent_counts := map inject_Z (Py.last_n 10 (count_history self)) in
    let recent_densities := Py.last_n 10 (density_history self) in
    let recent_times := Py.last_n 10 (time_history self) in
    count_rate ← _calculate_rate_of_change recent_counts recent_times;
    density_rate ← _calculate_rate_of_change recent_densities recent_times;
    let count_trend := _classify_trend count_rate in
    let density_trend := _classify_trend density_rate in
    Done (Trends count_trend count_rate density_trend density_rate).

(** The quotient by the frame diagonal is the exact one; the diagonal is not
    0 for a square root that is positive on positive numbers. *)
Definition _calculate_clustering_score (self : analyzer)
    (centers : list (Q * Q)) : Q :=
  if (length centers <? 2)%nat then 0
  else
    let distances := off_diagonal (cdist sqrt centers centers) in
    let avg_distance := np_mean distances in
    if Py.truthy (frame_width self) && Py.truthy (frame_height self) then
      let width := default 0%Z (frame_width self) in
      let height := default 0%Z (frame_height self) in
      let frame_diagonal := sqrt (inject_Z (width ^ 2 + height ^ 2)) in
      let normalized_distance := avg_distance / frame_diagonal in
      1 - Py.min normalized_distance 1
    else 0.

Definition analyze_spatial_distribution (self : analyzer) (boxes : list box)
  : spatial :=
  match boxes with
  | [] => Spatial (0, 0) 0 0 0
  | _ =>
      let centers := map center boxes in
      let center_of_mass :=
        (np_mean (map fst centers), np_mean (map snd centers)) in
      let spread :=
        if (1 <? length centers)%nat then
          np_mean [np_std sqrt (map fst centers);
                   np_std sqrt (map snd centers)]
        else 0 in
      let clustering_score := _calculate_clustering_score self centers in
      let edge_density := _calculate_edge_density self centers in
      Spatial center_of_mass spread clustering_score edge_density
  end.

(** [frame_shape] is [(height, width, channels)] or [None]; [current_time]
    is the reading of [time.time()].  The analyzer returned is the object as
    the call leaves it, also when the call raises. *)
Definition analyze_crowd (self : analyzer) (dets : detections)
    (frame_shape : option (Z * Z * Z)) (current_time : Q)
  : analyzer * outcome analysis :=
  let self :=
    match frame_shape with
    | Some (height, width, _) => update_frame_dimensions self width height
    | None => self
    end in
  let person_count := person_count dets in
  let boxes := boxes dets in
  match calculate_density_score sqrt self boxes with
  | Py.Raise e => (self, Failed (Builtin e))
  | Py.Ok density_score =>
      let self :=
        set_history self
          (deque_append (count_history self) person_count)
          (deque_append (density_history self) density_score)
          (deque_append (time_history self) current_time) in
      let self := _update_smoothed_values self person_count density_score in
      match generate_density_heatmap self boxes with
      | Py.Raise e => (self, Failed (Builtin e))
      | Py.Ok density_heatmap =>
          let spatial_analysis := analyze_spatial_distribution self boxes in
          let crowd_level := classify_crowd_level self (smoothed_count self) in
          match calculate_trends self with
          | Failed e => (self, Failed e)
          | Done trends =>
              let anomalies :=
                detect_anomalies sqrt self person_count density_score in
              (self,
               Done
                 {| a_person_count := person_count;
                    a_smoothed_count := smoothed_count self;
                    a_density_score := density_score;
                    a_smoothed_density := smoothed_density self;
                    a_crowd_level := crowd_level;
                    a_density_heatmap := density_heatmap;
                    a_spatial_analysis := spatial_analysis;
                    a_trends := trends;
                    a_anomalies := anomalies;
                    a_timestamp := current_time |})
          end
      end
  end.

(** Successive frames, each with its detections, shape and clock reading;
    the run stops at the first call that raises. *)
Fixpoint analyze_run (self : analyzer)
    (frames : list (detections * option (Z * Z * Z) * Q))
  : analyzer * outcome (list analysis) :=
  match frames with
  | [] => (self, Done [])
  | (dets, shape, now) :: frames =>
      match analyze_crowd self dets shape now with
      | (self, Failed e) => (self, Failed e)
      | (self, Done a) =>
          match analyze_run self frames with
          | (self, Failed e) => (self, Failed e)
          | (self, Done rest) => (self, Done (a :: rest))
          end
      end
  end.

End Analysis.

(** The detections of [test_crowd_analyzer] with a given count. *)
Definition test_detections (n : Z) : detections :=
  Detections test_boxes [9 # 10; 8 # 10; 85 # 100] n.

(** The three histories are index-aligned and within the deque bound. *)
Definition history_ok (self : analyzer) : Prop :=
  length (density_history self) = length (count_history self)
  /\ length (time_history self) = length (count_history self)
  /\ (length (count_history self) <= history_maxlen)%nat.

(** A frame shape that is absent or holds sizes. *)
Definition shape_sized (shape : option (Z * Z * Z)) : Prop :=
  match shape with
  | Some (height, width, _) => (0 <= height)%Z /\ (0 <= width)%Z
  | None => True
  end.

(** A grid of at least one row and one column. *)
Definition grid_positive (self : analyzer) : Prop :=
  (0 < (grid_size self).1)%Z /\ (0 < (grid_size self).2)%Z.

(** The frames of a run with their detections and clock readings. *)
Definition frame_of (f : detections * option (Z * Z * Z) * Q) (a : analysis)
  : Prop :=
  a_person_count a = person_count f.1.1 /\ a_timestamp a = f.2.

(** A box whose corners lie in a frame of the given width and height. *)
Definition box_inside (width height : Z) (b : box) : Prop :=
  (0 <= x1 b <= width)%Z /\ (0 <= x2 b <= width)%Z
  /\ (0 <= y1 b <= height)%Z /\ (0 <= y2 b <= height)%Z.

(** [np.array(times) - times[0]] of [_calculate_rate_of_change]. *)
Definition elapsed (times : list Q) : list Q :=
  map (fun t => t - hd 0 times) times.

(** Whether painting box [b] on the mask of a [width] by [height] frame sets
    the cell of row [i] and column [j]. *)
Definition covers (width height : Z) (b : box) (i j : nat) : bool :=
  let xa := clamp (x1 b) (width - 1) in
  let ya := clamp (y1 b) (height - 1) in
  let xb := clamp (x2 b) (width - 1) in
  let yb := clamp (y2 b) (height - 1) in
  (xa <? xb)%Z && (ya <? yb)%Z
  && ((ya <=? Z.of_nat i)%Z && (Z.of_nat i <? yb)%Z)
  && ((xa <=? Z.of_nat j)%Z && (Z.of_nat j <? xb)%Z).

(** The mask in which a cell is 1 when one of the boxes covers it and keeps
    its value otherwise. *)
Definition covered (width height : Z) (boxes : list box)
    (mask : list (list Z)) : list (list Z) :=
  imap (fun i row =>
          imap (fun j v =>
                  if existsb (fun b => covers width height b i j) boxes
                  then 1%Z else v) row) mask.

End CrowdAnalyzer.

(** ** alert_manager.py *)

Module AlertManager.

Local Open Scope Q_scope.

(** The alert dict: keys ['alert_triggered'], ['alert_level'],
    ['alert_type'], ['message'], ['actions_taken']. *)
Record alert_info := AlertInfo {
  alert_triggered : bool;
  alert_level : string;
  alert_type : string;
  message : string;
  actions_taken : list string
}.

Record spatial_analysis := SpatialAnalysis {
  center_of_mass : Q * Q;
  spread : Q;
  clustering_score : Q;
  edge_density : Q
}.

Record trends := Trends {
  count_trend : string;
  density_trend : string
}.

(** The analysis dict as the manager reads it: every key is read with
    [.get(key, default)], so a key may be absent.  The [anomalies] dict keeps
    its insertion order. *)
Record analysis_results := AnalysisResults {
  person_count : option Z;
  smoothed_count : option Q;
  density_score : option Q;
  smoothed_density : option Q;
  crowd_level : option string;
  spatial : option spatial_analysis;
  trend : option trends;
  anomalies : option (list (string * bool))
}.

(** A record of the log artifact: a CSV row or an entry of the JSON array. *)
Inductive log_record :=
  | CsvRow (timestamp : Q) (datetime : string) (count : Z)
      (smoothed density smoothed_dens : Q) (level alert : string)
      (com_x com_y sprd clustering edge : Q)
      (count_tr density_tr : string) (anomaly_json : string)
  | JsonEntry (timestamp : Q) (datetime : string)
      (analysis : analysis_results) (alert : option alert_info).

(** The attributes of [AlertManager] that alerting and logging read or write;
    [log_file] stands for the contents of the file at [self.log_file]. *)
Record manager := Manager {
  current_alert_level : string;
  last_alert_time : gmap string Q;
  alert_cooldown : Q;
  log_enabled : bool;
  log_format : string;
  log_interval : Q;
  last_log_time : Q;
  email_enabled : bool;
  smtp_server : option string;
  recipients : list string;
  console_output : bool;
  sound_alerts : bool;
  log_file : list log_record
}.

(** [__init__] with the defaults of [config.get]. *)
Definition init : manager :=
  {| current_alert_level := "none";
     last_alert_time := ∅;
     alert_cooldown := 60;
     log_enabled := true;
     log_format := "csv";
     log_interval := 5;
     last_log_time := 0;
     email_enabled := false;
     smtp_server := None;
     recipients := [];
     console_output := true;
     sound_alerts := false;
     log_file := [] |}.

Definition set_last_alert_time (self : manager) (m : gmap string Q) : manager :=
  {| current_alert_level := current_alert_level self;
     last_alert_time := m;
     alert_cooldown := alert_cooldown self;
     log_enabled := log_enabled self;
     log_format := log_format self;
     log_interval := log_interval self;
     last_log_time := last_log_time self;
     email_enabled := email_enabled self;
     smtp_server := smtp_server self;
     recipients := recipients self;
     console_output := console_output self;
     sound_alerts := sound_alerts self;
     log_file := log_file self |}.

Definition set_current_alert_level (self : manager) (l : string) : manager :=
  {| current_alert_level := l;
     last_alert_time := last_alert_time self;
     alert_cooldown := alert_cooldown self;
     log_enabled := log_enabled self;
     log_format := log_format self;
     log_interval := log_interval self;
     last_log_time := last_log_time self;
     email_enabled := email_enabled self;
     smtp_server := smtp_server self;
     recipients := recipients self;
     console_output := console_output self;
     sound_alerts := sound_alerts self;
     log_file := log_file self |}.

Definition set_last_log_time (self : manager) (t : Q) : manager :=
  {| current_alert_level := current_alert_level self;
     last_alert_time := last_alert_time self;
     alert_cooldown := alert_cooldown self;
     log_enabled := log_enabled self;
     log_format := log_format self;
     log_interval := log_interval self;
     last_log_time := t;
     email_enabled := email_enabled self;
     smtp_server := smtp_server self;
     recipients := recipients self;
     console_output := console_output self;
     sound_alerts := sound_alerts self;
     log_file := log_file self |}.

Definition set_log_file (self : manager) (f : list log_record) : manager :=
  {| current_alert_level := current_alert_level self;
     last_alert_time := last_alert_time self;
     alert_cooldown := alert_cooldown self;
     log_enabled := log_enabled self;
     log_format := log_format self;
     log_interval := log_interval self;
     last_log_time := last_log_time self;
     email_enabled := email_enabled self;
     smtp_server := smtp_server self;
     recipients := recipients self;
     console_output := console_output self;
     sound_alerts := sound_alerts self;
     log_file := f |}.

(** *** AlertEngine *)

Definition _check_alert_cooldown (self : manager) (alert_level : string)
    (current_time : Q) : bool :=
  match last_alert_time self !! alert_level with
  | None => true
  | Some last =>
      let time_since_last := current_time - last in
      Qle_bool (alert_cooldown self) time_since_last
  end.

Definition _check_threshold_alerts (self : manager) (person_count : Q)
    (crowd_level : string) (current_time : Q) : alert_info * manager :=
  let alert_info := AlertInfo false "none" "threshold" "" [] in
  if bool_decide (crowd_level ∈ ["high"; "critical"]) then
    let alert_level := crowd_level in
    if _check_alert_cooldown self alert_level current_time then
      (AlertInfo true alert_level "threshold"
         (Py.title alert_level +:+ " crowd density detected: "
            +:+ Py.format_1f person_count +:+ " people") [],
       set_last_alert_time self
         (<[alert_level := current_time]> (last_alert_time self)))
    else (alert_info, self)
  else (alert_info, self).

Definition _check_anomaly_alerts (self : manager)
    (anomalies : list (string * bool)) (current_time : Q)
  : alert_info * manager :=
  let alert_info := AlertInfo false "anomaly" "anomaly" "" [] in
  let detected_anomalies :=
    map (fun a => Py.replace_char "_" " " (fst a))
      (filter (fun a => snd a = true) anomalies) in
  if negb (bool_decide (detected_anomalies = []))
     && _check_alert_cooldown self "anomaly" current_time then
    (AlertInfo true "anomaly" "anomaly"
       ("Anomaly detected: " +:+ Py.join ", " detected_anomalies) [],
     set_last_alert_time self
       (<["anomaly" := current_time]> (last_alert_time self)))
  else (alert_info, self).

(** [smtp_ok] tells whether building and sending the message went through
    without an exception. *)
Definition _send_email_alert (self : manager) (smtp_ok : bool) : bool :=
  if bool_decide (default "" (smtp_server self) = "")
     || bool_decide (recipients self = [])
  then false
  else smtp_ok.

Definition _execute_alert_actions (self : manager) (smtp_ok : bool)
    (info : alert_info) : alert_info :=
  let actions_taken := [] in
  let actions_taken :=
    if console_output self then actions_taken ++ ["console_output"]
    else actions_taken in
  let actions_taken :=
    if email_enabled self then
      if _send_email_alert self smtp_ok then actions_taken ++ ["email_sent"]
      else actions_taken ++ ["email_failed"]
    else actions_taken in
  let actions_taken :=
    if sound_alerts self then actions_taken ++ ["sound_alert"]
    else actions_taken in
  AlertInfo (alert_triggered info) (alert_level info) (alert_type info)
    (message info) actions_taken.

(** [current_time] is the reading of [time.time()] at the start of the call. *)
Definition check_alerts (self : manager) (current_time : Q) (smtp_ok : bool)
    (results : analysis_results) : alert_info * manager :=
  let person_count := default 0 (smoothed_count results) in
  let crowd_level := default "low" (crowd_level results) in
  let anomalies := default [] (anomalies results) in
  let alert_info := AlertInfo false "none" "none" "" [] in
  let '(threshold_alert, self) :=
    _check_threshold_alerts self person_count crowd_level current_time in
  let '(anomaly_alert, self) :=
    _check_anomaly_alerts self anomalies current_time in
  let alert_info :=
    if alert_triggered threshold_alert || alert_triggered anomaly_alert then
      let alert_info :=
        if alert_triggered threshold_alert then threshold_alert
        else anomaly_alert in
      _execute_alert_actions self smtp_ok alert_info
    else alert_info in
  (alert_info, set_current_alert_level self (alert_level alert_info)).

(** *** Logger *)

(** [json.dumps] of a dict of bools. *)
Definition json_dumps (d : list (string * bool)) : string :=
  "{" +:+ Py.join ", "
            (map (fun a : string * bool =>
                    Py.dquote +:+ fst a +:+ Py.dquote +:+ ": "
                      +:+ (if snd a then "true" else "false")) d)
      +:+ "}".

Section Formatting.

(** [datetime.fromtimestamp(t).strftime(...)] and [.isoformat()], which
    depend on the local time zone. *)
Variables strftime isoformat : Q -> string.

(** [io_ok] tells whether the file operations went through; a failure is
    caught and logged, and leaves the file as it was. *)
Definition _log_csv (self : manager) (io_ok : bool)
    (results : analysis_results) (info : option alert_info) (timestamp : Q)
  : manager :=
  let anomalies := default [] (anomalies results) in
  let com := from_option center_of_mass (0, 0) (spatial results) in
  if io_ok then
    set_log_file self
      (log_file self ++
       [CsvRow timestamp (strftime timestamp)
          (default 0%Z (person_count results))
          (default 0 (smoothed_count results))
          (default 0 (density_score results))
          (default 0 (smoothed_density results))
          (default "unknown" (crowd_level results))
          (from_option alert_level "none" info)
          (fst com) (snd com)
          (from_option spread 0 (spatial results))
          (from_option clustering_score 0 (spatial results))
          (from_option edge_density 0 (spatial results))
          (from_option count_trend "unknown" (trend results))
          (from_option density_trend "unknown" (trend results))
          (json_dumps anomalies)])
  else self.

Definition _log_json (self : manager) (io_ok : bool)
    (results : analysis_results) (info : option alert_info) (timestamp : Q)
  : manager :=
  if io_ok then
    let data := log_file self in
    let entry := JsonEntry timestamp (isoformat timestamp) results info in
    set_log_file self (data ++ [entry])
  else self.

Definition log_data (self : manager) (current_time : Q) (io_ok : bool)
    (results : analysis_results) (info : option alert_info) : manager :=
  if negb (log_enabled self) then self
  else if Py.Qltb (current_time - last_log_time self) (log_interval self)
  then self
  else
    let self := set_last_log_time self current_time in
    if String.eqb (log_format self) "csv" then
      _log_csv self io_ok results info current_time
    else if String.eqb (log_format self) "json" then
      _log_json self io_ok results info current_time
    else self.

End Formatting.

(** A time-zone-free stand-in for the two datetime formats: the whole
    seconds of the timestamp. *)
Definition epoch_seconds (t : Q) : string := pretty (Qfloor t).

(** *** Test data of the repository

    [test_analysis] is the dict of [test_alert_manager];
    [create_test_analysis] is the helper of [TestAlertManager]. *)

Definition test_analysis : analysis_results :=
  {| person_count := Some 75%Z;
     smoothed_count := Some (725 # 10);
     density_score := Some (65 # 100);
     smoothed_density := Some (63 # 100);
     crowd_level := Some "high";
     spatial := Some (SpatialAnalysis (320, 240) (452 # 10) (7 # 10) (2 # 10));
     trend := Some (Trends "increasing" "stable");
     anomalies := Some [("count_anomaly", false); ("density_anomaly", true);
                        ("sudden_change", false)] |}.

Definition create_test_analysis (count : Z) (level : string)
  : analysis_results :=
  {| person_count := Some count;
     smoothed_count := Some (inject_Z count);
     density_score := Some (1 # 2);
     smoothed_density := None;
     crowd_level := Some level;
     spatial := Some (SpatialAnalysis (320, 240) 50 (6 # 10) (3 # 10));
     trend := Some (Trends "stable" "stable");
     anomalies := Some [("count_anomaly", false); ("density_anomaly", false);
                        ("sudden_change", false)] |}.

(** A manager whose last anomaly alert was stamped at time 0. *)
Definition after_anomaly : manager :=
  set_last_alert_time init {["anomaly" := 0]}.

(** *** Vocabulary of the properties *)

(** The cooldown of an alert kind has elapsed at [now]: no alert of that kind
    was stamped yet, or the last one is at least [alert_cooldown] old. *)
Definition cooldown_elapsed (self : manager) (kind : string) (now : Q) : Prop :=
  match last_alert_time self !! kind with
  | None => True
  | Some last => alert_cooldown self <= now - last
  end.

(** At least one anomaly flag is set. *)
Definition some_flag (results : analysis_results) : Prop :=
  Exists (fun a => snd a = true) (default [] (anomalies results)).

(** No anomaly flag is set. *)
Definition no_flag (results : analysis_results) : Prop :=
  Forall (fun a => snd a = false) (default [] (anomalies results)).

(** *** The per-frame loop on the manager

    [process_frame] calls [check_alerts] and then [log_data] once per frame,
    each call reading the clock anew. *)

(** One call of [check_alerts]: the clock reading, the outcome of the mail
    transport and the analysis dict. *)
Record cycle := Cycle {
  cycle_time : Q;
  cycle_smtp_ok : bool;
  cycle_results : analysis_results
}.

(** Successive calls of [check_alerts]; the alert dicts are returned in call
    order. *)
Fixpoint check_alerts_run (self : manager) (cycles : list cycle)
  : list alert_info * manager :=
  match cycles with
  | [] => ([], self)
  | c :: cycles =>
      let '(info, self) :=
        check_alerts self (cycle_time c) (cycle_smtp_ok c) (cycle_results c) in
      let '(infos, self) := check_alerts_run self cycles in
      (info :: infos, self)
  end.

(** [reset_alert_state]; [active_alerts], which no other method reads, is not
    among the modelled attributes. *)
Definition reset_alert_state (self : manager) : manager :=
  set_last_alert_time (set_current_alert_level self "none") ∅.

(** The timestamp column of a record. *)
Definition record_time (r : log_record) : Q :=
  match r with
  | CsvRow t _ _ _ _ _ _ _ _ _ _ _ _ _ _ _ => t
  | JsonEntry t _ _ _ => t
  end.

(** *** Alert images

    The attributes [save_alert_image] reads or writes; [images] stands for
    the file names written under [log_path / 'images']. *)
Record imaging := Imaging {
  save_images : bool;
  image_interval : Q;
  last_image_save : Q;
  images : list string
}.

(** [__init__] with the defaults of [config.get]. *)
Definition imaging_init : imaging :=
  {| save_images := false;
     image_interval := 30;
     last_image_save := 0;
     images := [] |}.

(** [current_time] is the reading of [time.time()], [stamp] the text of
    [datetime.now().strftime('%Y%m%d_%H%M%S')]; [imwrite_ok] tells whether
    [cv2.imwrite] returned true without raising.  [info] is the alert dict,
    of which only ['alert_level'] is read. *)
Definition save_alert_image (self : imaging) (current_time : Q)
    (stamp : string) (imwrite_ok : bool) (info : option alert_info)
  : imaging :=
  if negb (save_images self) then self
  else if Py.Qltb (current_time - last_image_save self) (image_interval self)
  then self
  else
    let alert_level := from_option alert_level "unknown" info in
    let filename := "alert_" +:+ alert_level +:+ "_" +:+ stamp +:+ ".jpg" in
    if imwrite_ok then
      {| save_images := save_images self;
         image_interval := image_interval self;
         last_image_save := current_time;
         images := images self ++ [filename] |}
    else self.

(** One call of [log_data]. *)
Record log_call := LogCall {
  call_time : Q;
  call_io_ok : bool;
  call_results : analysis_results;
  call_info : option alert_info
}.

(** Successive calls of [log_data]. *)
Definition log_data_run (strftime isoformat : Q -> string) (self : manager)
    (calls : list log_call) : manager :=
  fold_left
    (fun s c =>
       log_data strftime isoformat s (call_time c) (call_io_ok c)
         (call_results c) (call_info c))
    calls self.

(** A manager with mail notifications configured. *)
Definition mailing : manager :=
  {| current_alert_level := "none";
     last_alert_time := ∅;
     alert_cooldown := 60;
     log_enabled := true;
     log_format := "csv";
     log_interval := 5;
     last_log_time := 0;
     email_enabled := true;
     smtp_server := Some "smtp.example.org";
     recipients := ["ops@example.org"];
     console_output := true;
     sound_alerts := false;
     log_file := [] |}.

(** An imaging state with image saving switched on. *)
Definition imaging_on : imaging :=
  {| save_images := true;
     image_interval := 30;
     last_image_save := 0;
     images := [] |}.

(** The dict of [test_anomaly_alerts] with two flags set: level 'medium',
    count anomaly and sudden change flagged. *)
Definition flagged_analysis : analysis_results :=
  {| person_count := Some 30%Z;
     smoothed_count := Some 30;
     density_score := Some (1 # 2);
     smoothed_density := None;
     crowd_level := Some "medium";
     spatial := Some (SpatialAnalysis (320, 240) 50 (6 # 10) (3 # 10));
     trend := Some (Trends "stable" "stable");
     anomalies := Some [("count_anomaly", true); ("density_anomaly", false);
                        ("sudden_change", true)] |}.

End AlertManager.

(** ** The smoother on binary64 numbers

    The same update with Python's own float arithmetic: [float] is IEEE-754
    binary64, [+], [-], [*] round to nearest, ties to even.  Counts are
    non-negative and below [2^63]. *)

Module Binary64.

Local Open Scope float_scope.

Record smoothed := Smoothed {
  smoothed_count : float;
  smoothed_density : float
}.

Definition float_of_count (n : Z) : float :=
  PrimFloat.of_uint63 (Uint63.of_Z n).

(** The float that the literal [0.3] of the default configuration denotes. *)
Definition default_smoothing_factor : float := 0x1.3333333333333p-2.

Definition _update_smoothed_values (smoothing_factor : float) (self : smoothed)
    (current_count : Z) (current_density : float) : smoothed :=
  if smoothed_count self =? 0 then
    Smoothed (float_of_count current_count) current_density
  else
    let alpha := smoothing_factor in
    Smoothed
      (alpha * float_of_count current_count + (1 - alpha) * smoothed_count self)
      (alpha * current_density + (1 - alpha) * smoothed_density self).

End Binary64.

(** ** model_utils.py *)

Module ModelUtils.

Import CrowdAnalyzer.
Local Open Scope Q_scope.

(** One item of [result.boxes]: the four floats of [box.xyxy[0]] and the
    confidence [box.conf[0]]. *)
Record raw_box := RawBox {
  raw_x1 : Q;
  raw_y1 : Q;
  raw_x2 : Q;
  raw_y2 : Q;
  conf : Q
}.

(** The dict returned by [_process_results].  A crop [frame[y1:y2, x1:x2]]
    is given by the box it is cut along. *)
Record processed := Processed {
  boxes : list box;
  scores : list Q;
  person_count : Z;
  crops : option (list box)
}.

(** Body of the loop over [result.boxes]; the accumulator holds [boxes],
    [scores] and [crops]. *)
Definition process_box (w h : Z) (return_crops : bool)
    (acc : list box * list Q * option (list box)) (rb : raw_box)
  : list box * list Q * option (list box) :=
  let '(boxes, scores, crops) := acc in
  let x1 := Py.int (raw_x1 rb) in
  let y1 := Py.int (raw_y1 rb) in
  let x2 := Py.int (raw_x2 rb) in
  let y2 := Py.int (raw_y2 rb) in
  let x1 := Z.max 0 (Z.min x1 (w - 1)) in
  let y1 := Z.max 0 (Z.min y1 (h - 1)) in
  let x2 := Z.max 0 (Z.min x2 (w - 1)) in
  let y2 := Z.max 0 (Z.min y2 (h - 1)) in
  if (x2 <=? x1)%Z || (y2 <=? y1)%Z then acc
  else
    (boxes ++ [Box x1 y1 x2 y2],
     scores ++ [conf rb],
     if return_crops then option_map (fun c => c ++ [Box x1 y1 x2 y2]) crops
     else crops).

(** [result_boxes] is [result.boxes], which may be [None]; [h] and [w] are
    [frame.shape[:2]]. *)
Definition _process_results (result_boxes : option (list raw_box))
    (h w : Z) (return_crops : bool) : processed :=
  let crops := if return_crops then Some [] else None in
  let '(boxes, scores, crops) :=
    match result_boxes with
    | Some (rb :: rbs) =>
        fold_left (process_box w h return_crops) (rb :: rbs) ([], [], crops)
    | _ => ([], [], crops)
    end in
  Processed boxes scores (Z.of_nat (length boxes)) crops.

(** The keys of the dict that [analyze_crowd] reads. *)
Definition to_detections (p : processed) : detections :=
  Detections (boxes p) (scores p) (person_count p).

(** A box with a positive width and height whose corners are pixel indices
    of a [w] by [h] frame. *)
Definition box_valid (w h : Z) (b : box) : Prop :=
  (0 <= x1 b < x2 b)%Z /\ (x2 b <= w - 1)%Z
  /\ (0 <= y1 b < y2 b)%Z /\ (y2 b <= h - 1)%Z.

(** What the loop of [_process_results] keeps true of its accumulator after
    at most [n] raw detections. *)
Definition kept (w h : Z) (rc : bool) (n : nat)
    (acc : list box * list Q * option (list box)) : Prop :=
  Forall (box_valid w h) acc.1.1
  /\ length acc.1.2 = length acc.1.1
  /\ (length acc.1.1 <= n)%nat
  /\ acc.2 = (if rc then Some acc.1.1 else None).

(** Two raw detections on a 640 by 480 frame, the second reaching out of
    it, and one that is empty after truncation. *)
Definition test_raw : list raw_box :=
  [RawBox (1005 # 10) (1002 # 10) (1509 # 10) (2007 # 10) (9 # 10);
   RawBox (600 # 1) (-(5 # 1)) (700 # 1) (100 # 1) (8 # 10);
   RawBox (3001 # 10) (50 # 1) (3009 # 10) (90 # 1) (7 # 10)].

End ModelUtils.

(** ** config.py *)

Module Config.

(** A value of the configuration: what [yaml.safe_load] gives, with a dict
    as a finite map from its keys. *)
#[local] Unset Elimination Schemes.
Inductive value :=
  | NoneV
  | Bool (b : bool)
  | Num (q : Q)
  | Str (s : string)
  | Seq (l : list value)
  | Dict (d : gmap string value).
#[local] Set Elimination Schemes.

(** The two exceptions that [get] catches. *)
Inductive lookup_error := KeyError | TypeError.

(** [s.split(sep)] for a one-character separator. *)
Fixpoint split (sep : ascii) (s : string) : list string :=
  match s with
  | EmptyString => [EmptyString]
  | String c s' =>
      if Ascii.eqb c sep then EmptyString :: split sep s'
      else
        match split sep s' with
        | [] => [String c EmptyString]
        | k :: ks => String c k :: ks
        end
  end.

(** The loop [for key in keys: value = value[key]] of [get]: a dict without
    the key raises [KeyError], a value that is not a dict [TypeError]. *)
Fixpoint descend (v : value) (keys : list string) : lookup_error + value :=
  match keys with
  | [] => inr v
  | key :: keys =>
      match v with
      | Dict d =>
          match d !! key with
          | Some v' => descend v' keys
          | None => inl KeyError
          end
      | _ => inl TypeError
      end
  end.

(** [config] is the dict [self.config]. *)
Definition get (config : gmap string value) (key_path : string)
    (default : value) : value :=
  let keys := split "." key_path in
  match descend (Dict config) keys with
  | inr v => v
  | inl _ => default
  end.

(** The loop of [set] over [keys[:-1]] followed by the assignment to
    [keys[-1]].  A key that leads to a value that is not a dict ends the
    call with [TypeError]; no dict has been changed by then, since a dict
    created on the way has dicts only below it. *)
Fixpoint assign (config : gmap string value) (keys : list string)
    (last : string) (v : value) : Py.result (gmap string value) :=
  match keys with
  | [] => Py.Ok (<[last := v]> config)
  | key :: keys =>
      match config !! key with
      | None =>
          sub ← assign ∅ keys last v;
          Py.Ok (<[key := Dict sub]> config)
      | Some (Dict d) =>
          sub ← assign d keys last v;
          Py.Ok (<[key := Dict sub]> config)
      | Some _ => Py.Raise Py.TypeError
      end
  end.

(** The dict [self.config] after the call. *)
Definition set (config : gmap string value) (key_path : string) (v : value)
  : Py.result (gmap string value) :=
  let keys := split "." key_path in
  assign config (removelast keys) (List.last keys EmptyString) v.

(** Part of [_get_default_config]. *)
Definition default_config : gmap string value :=
  {[ "model" := Dict {[ "confidence_threshold" := Num (1 # 2);
                        "device" := Str "auto" ]};
     "logging" := Dict {[ "enable" := Bool true;
                          "log_interval" := Num 5 ]} ]}.

End Config.

(** ** crowd_detector.py *)

Module CrowdDetector.

Local Open Scope Q_scope.

(** The analysis dict as [AlertManager] reads it: the keys
    ['density_heatmap'] and ['timestamp'] and the two rates, which no method
    of the manager reads, are left out. *)
Definition to_results (a : CrowdAnalyzer.analysis)
  : AlertManager.analysis_results :=
  let s := CrowdAnalyzer.a_spatial_analysis a in
  let t := CrowdAnalyzer.a_trends a in
  let an := CrowdAnalyzer.a_anomalies a in
  {| AlertManager.person_count := Some (CrowdAnalyzer.a_person_count a);
     AlertManager.smoothed_count := Some (CrowdAnalyzer.a_smoothed_count a);
     AlertManager.density_score := Some (CrowdAnalyzer.a_density_score a);
     AlertManager.smoothed_density :=
       Some (CrowdAnalyzer.a_smoothed_density a);
     AlertManager.crowd_level :=
       Some (CrowdAnalyzer.level_name (CrowdAnalyzer.a_crowd_level a));
     AlertManager.spatial :=
       Some (AlertManager.SpatialAnalysis
               (CrowdAnalyzer.center_of_mass s) (CrowdAnalyzer.spread s)
               (CrowdAnalyzer.clustering_score s)
               (CrowdAnalyzer.edge_density s));
     AlertManager.trend :=
       Some (AlertManager.Trends (CrowdAnalyzer.count_trend t)
               (CrowdAnalyzer.density_trend t));
     AlertManager.anomalies :=
       Some [("count_anomaly", CrowdAnalyzer.count_anomaly an);
             ("density_anomaly", CrowdAnalyzer.density_anomaly an);
             ("sudden_change", CrowdAnalyzer.sudden_change an)] |}.

(** The components of [CrowdDetector] that [process_frame] drives,
    and [processing_times]. *)
Record system := System {
  crowd_analyzer : CrowdAnalyzer.analyzer;
  alert_manager : AlertManager.manager;
  alert_images : AlertManager.imaging;
  processing_times : list Q
}.

(** What one call of [process_frame] takes from outside: the dict that
    [detect_persons] returns and [frame.shape], the clock readings in call
    order, and the outcomes of the mail transport, the log write and
    [cv2.imwrite]. *)
Record frame_io := FrameIO {
  io_detections : CrowdAnalyzer.detections;
  io_shape : Z * Z * Z;
  frame_start_time : Q;
  analysis_time : Q;
  alert_time : Q;
  io_smtp_ok : bool;
  log_time : Q;
  io_log_ok : bool;
  image_time : Q;
  image_stamp : string;
  io_imwrite_ok : bool;
  frame_end_time : Q
}.

(** The dict returned by [process_frame], without the frame. *)
Record frame_result := FrameResult {
  detections : CrowdAnalyzer.detections;
  analysis : CrowdAnalyzer.analysis;
  alerts : AlertManager.alert_info;
  processing_time : Q
}.

Section Pipeline.

Variable sqrt : Q -> Q.
Variables strftime isoformat : Q -> string.

(** An exception of [analyze_crowd] leaves [process_frame] at once; the
    system returned is the one the call leaves behind. *)
Definition process_frame (self : system) (io : frame_io)
  : system * CrowdAnalyzer.outcome frame_result :=
  let detections := io_detections io in
  match
    CrowdAnalyzer.analyze_crowd sqrt (crowd_analyzer self) detections
      (Some (io_shape io)) (analysis_time io)
  with
  | (analyzer, CrowdAnalyzer.Failed e) =>
      (System analyzer (alert_manager self) (alert_images self)
         (processing_times self),
       CrowdAnalyzer.Failed e)
  | (analyzer, CrowdAnalyzer.Done analysis_results) =>
      let '(alert_info, manager) :=
        AlertManager.check_alerts (alert_manager self) (alert_time io)
          (io_smtp_ok io) (to_results analysis_results) in
      let manager :=
        AlertManager.log_data strftime isoformat manager (log_time io)
          (io_log_ok io) (to_results analysis_results) (Some alert_info) in
      let images :=
        if AlertManager.alert_triggered alert_info then
          AlertManager.save_alert_image (alert_images self) (image_time io)
            (image_stamp io) (io_imwrite_ok io) (Some alert_info)
        else alert_images self in
      let processing_time := frame_end_time io - frame_start_time io in
      let times := processing_times self ++ [processing_time] in
      let times :=
        if (100 <? length times)%nat then Py.last_n 100 times else times in
      (System analyzer manager images times,
       CrowdAnalyzer.Done
         (FrameResult detections analysis_results alert_info
            processing_time))
  end.

(** Successive frames; the run stops at the first call that raises. *)
Fixpoint process_frames (self : system) (frames : list frame_io)
  : system * CrowdAnalyzer.outcome (list frame_result) :=
  match frames with
  | [] => (self, CrowdAnalyzer.Done [])
  | io :: frames =>
      match process_frame self io with
      | (self, CrowdAnalyzer.Failed e) => (self, CrowdAnalyzer.Failed e)
      | (self, CrowdAnalyzer.Done r) =>
          match process_frames self frames with
          | (self, CrowdAnalyzer.Failed e) => (self, CrowdAnalyzer.Failed e)
          | (self, CrowdAnalyzer.Done rest) =>
              (self, CrowdAnalyzer.Done (r :: rest))
          end
      end
  end.

End Pipeline.

(** The system of [__init__] with the default configuration. *)
Definition init : system :=
  System CrowdAnalyzer.init AlertManager.init AlertManager.imaging_init [].

(** A frame of 160 by 120 pixels with the three test boxes and a reported
    count of [n], all clock readings at [t]. *)
Definition test_frame (n : Z) (t : Q) : frame_io :=
  {| io_detections := CrowdAnalyzer.test_detections n;
     io_shape := (120, 160, 3)%Z;
     frame_start_time := t;
     analysis_time := t;
     alert_time := t;
     io_smtp_ok := true;
     log_time := t;
     io_log_ok := true;
     image_time := t;
     image_stamp := "20240101_000000";
     io_imwrite_ok := true;
     frame_end_time := t |}.

End CrowdDetector.

(** * Properties *)

(** ** Facts on the Python built-ins *)

Module PyFacts.

Local Open Scope Q_scope.

Lemma Qltb_lt (x y : Q) : Py.Qltb x y = true <-> x < y.
Proof.
  unfold Py.Qltb. rewrite negb_true_iff, <- not_true_iff_false, Qle_bool_iff.
  split; [apply Qnot_le_lt | apply Qlt_not_le].
Qed.

Lemma Qltb_ge (x y : Q) : Py.Qltb x y = false <-> y <= x.
Proof. unfold Py.Qltb. rewrite negb_false_iff. apply Qle_bool_iff. Qed.

Lemma Qltb_reflect (x y : Q) : reflect (x < y) (Py.Qltb x y).
Proof.
  destruct (Py.Qltb x y) eqn:E; constructor.
  - now apply Qltb_lt.
  - apply Qltb_ge in E. now apply Qle_not_lt.
Qed.

Lemma min_spec (a b : Q) :
  (b < a /\ Py.min a b = b) \/ (a <= b /\ Py.min a b = a).
Proof.
  unfold Py.min. destruct (Qltb_reflect b a) as [H|H]; [left | right]; split;
    trivial. now apply Qnot_lt_le.
Qed.

Lemma max_spec (a b : Q) :
  (a < b /\ Py.max a b = b) \/ (b <= a /\ Py.max a b = a).
Proof.
  unfold Py.max. destruct (Qltb_reflect a b) as [H|H]; [left | right]; split;
    trivial. now apply Qnot_lt_le.
Qed.

Lemma max_l (a b : Q) : a <= Py.max a b.
Proof. destruct (max_spec a b) as [[H ->]|[H ->]]; lra. Qed.

Lemma max_r (a b : Q) : b <= Py.max a b.
Proof. destruct (max_spec a b) as [[H ->]|[H ->]]; lra. Qed.

End PyFacts.

(** ** CrowdClassifier and Smoother *)

Module AnalyzerProofs.

Import CrowdAnalyzer.
Local Open Scope Q_scope.

(** Case analysis on a [Py.Qltb] test, leaving the order fact in context. *)
Ltac case_ltb :=
  match goal with
  | |- context [Py.Qltb ?x ?y] =>
      let H := fresh "Hlt" in
      destruct (PyFacts.Qltb_reflect x y) as [H|H];
      [| apply Qnot_lt_le in H]
  end.

Lemma classify_low (self : analyzer) (c : Q) :
  c < low (alert_thresholds self) -> classify_crowd_level self c = Low.
Proof.
  intros H. unfold classify_crowd_level. case_ltb; [reflexivity | lra].
Qed.

Lemma classify_medium (self : analyzer) (c : Q) :
  low (alert_thresholds self) <= c -> c < medium (alert_thresholds self) ->
  classify_crowd_level self c = Medium.
Proof.
  intros H1 H2. unfold classify_crowd_level.
  case_ltb; [lra |]. case_ltb; [reflexivity | lra].
Qed.

(** Whatever the thresholds, a larger count never gets a lower level: the
    level is the index of the first threshold the count is below. *)
Lemma classify_monotone (self : analyzer) (c1 c2 : Q) :
  c1 <= c2 ->
  (severity (classify_crowd_level self c1)
   <= severity (classify_crowd_level self c2))%nat.
Proof.
  intros Hle. unfold classify_crowd_level.
  repeat case_ltb; simpl; try lia; lra.
Qed.

(** C6: for thresholds [low < medium < high], [classify_crowd_level] is
    non-decreasing in the count for the order low < medium < high < critical,
    its buckets are the half-open intervals cut by the thresholds, and with
    thresholds (20, 50, 100) the counts 10, 30, 60, 150 are low, medium, high
    and critical. *)
Theorem classify_monotone_buckets (self : analyzer) :
  low (alert_thresholds self) < medium (alert_thresholds self) ->
  medium (alert_thresholds self) < high (alert_thresholds self) ->
  (forall c1 c2, c1 <= c2 ->
     (severity (classify_crowd_level self c1)
      <= severity (classify_crowd_level self c2))%nat)
  /\ (forall c, c < low (alert_thresholds self) ->
        level_name (classify_crowd_level self c) = "low")
  /\ (forall c, low (alert_thresholds self) <= c ->
        c < medium (alert_thresholds self) ->
        level_name (classify_crowd_level self c) = "medium")
  /\ (forall c, medium (alert_thresholds self) <= c ->
        c < high (alert_thresholds self) ->
        level_name (classify_crowd_level self c) = "high")
  /\ (forall c, high (alert_thresholds self) <= c ->
        level_name (classify_crowd_level self c) = "critical")
  /\ (alert_thresholds self = Thresholds 20 50 100 ->
      level_name (classify_crowd_level self 10) = "low"
      /\ level_name (classify_crowd_level self 30) = "medium"
      /\ level_name (classify_crowd_level self 60) = "high"
      /\ level_name (classify_crowd_level self 150) = "critical").
Proof.
  intros Hlm Hmh. split; [| split; [| split; [| split; [| split]]]].
  - intros c1 c2. apply classify_monotone.
  - intros c Hc. now rewrite classify_low.
  - intros c H1 H2. now rewrite classify_medium.
  - intros c H1 H2. unfold classify_crowd_level.
    repeat case_ltb; try reflexivity; lra.
  - intros c H1. unfold classify_crowd_level.
    repeat case_ltb; try reflexivity; lra.
  - intros Hth. unfold classify_crowd_level. rewrite Hth. simpl.
    repeat split.
Qed.

Lemma classify_monotone_buckets_witness :
  (low (alert_thresholds init) < medium (alert_thresholds init)
   /\ medium (alert_thresholds init) < high (alert_thresholds init))
  /\ level_name (classify_crowd_level init 60) = "high"
  /\ (severity (classify_crowd_level init 30)
      <= severity (classify_crowd_level init 150))%nat.
Proof.
  assert (H1 : low (alert_thresholds init) < medium (alert_thresholds init))
    by reflexivity.
  assert (H2 : medium (alert_thresholds init) < high (alert_thresholds init))
    by reflexivity.
  split; [split; assumption |].
  destruct (classify_monotone_buckets init H1 H2)
    as (Hmono & _ & _ & Hhigh & _).
  split.
  - apply Hhigh; [discriminate | reflexivity].
  - apply Hmono. discriminate.
Defined.

(** *** Smoother *)

Lemma update_seed (self : analyzer) (c : Z) (d : Q) :
  smoothed_count self == 0 ->
  _update_smoothed_values self c d = set_smoothed self (inject_Z c) d.
Proof.
  intros H. unfold _update_smoothed_values.
  apply Qeq_bool_iff in H. now rewrite H.
Qed.

Lemma update_ema (self : analyzer) (c : Z) (d : Q) :
  ~ smoothed_count self == 0 ->
  _update_smoothed_values self c d =
  set_smoothed self
    (smoothing_factor self * inject_Z c
     + (1 - smoothing_factor self) * smoothed_count self)
    (smoothing_factor self * d
     + (1 - smoothing_factor self) * smoothed_density self).
Proof.
  intros H. unfold _update_smoothed_values.
  destruct (Qeq_bool (smoothed_count self) 0) eqn:E; [| reflexivity].
  apply Qeq_bool_iff in E. contradiction.
Qed.

(** While every frame so far had a raw count of 0 the smoothed count is still
    the sentinel 0. *)
Lemma smooth_zero_frames (frames : list (Z * Q)) (self : analyzer) :
  smoothed_count self == 0 ->
  Forall (fun f => fst f = 0%Z) frames ->
  smoothed_count (smooth_frames self frames) == 0.
Proof.
  revert self. induction frames as [|[c d] frames IH]; intros self H0 Hall.
  - exact H0.
  - inversion Hall as [|? ? Hc Hrest]; subst. simpl in Hc. subst c.
    unfold smooth_frames. simpl. apply IH; [| exact Hrest].
    rewrite update_seed by exact H0. reflexivity.
Qed.

(** C4, as the code has it: an update of a freshly constructed analyzer
    (smoothed count 0.0) stores the raw count and the raw density unchanged,
    so a first raw count of 10 gives exactly 10.0; an update that finds a
    nonzero smoothed count applies
    [smoothed = alpha * raw + (1 - alpha) * smoothed_prev] to the count and to
    the density separately, so with alpha = 0.3 a second raw count of 20
    gives 13.0. *)
Theorem smoother_seed_then_ema :
  (forall self c d,
     smoothed_count self = 0 ->
     smoothed_count (_update_smoothed_values self c d) = inject_Z c
     /\ smoothed_density (_update_smoothed_values self c d) = d)
  /\ (forall self c d,
        ~ smoothed_count self == 0 ->
        smoothed_count (_update_smoothed_values self c d)
        = smoothing_factor self * inject_Z c
          + (1 - smoothing_factor self) * smoothed_count self
        /\ smoothed_density (_update_smoothed_values self c d)
           = smoothing_factor self * d
             + (1 - smoothing_factor self) * smoothed_density self)
  /\ (forall self d1 d2,
        smoothed_count self = 0 ->
        smoothing_factor self = 3 # 10 ->
        smoothed_count (_update_smoothed_values self 10 d1) = 10
        /\ smoothed_count
             (_update_smoothed_values (_update_smoothed_values self 10 d1) 20 d2)
           == 13).
Proof.
  split; [| split].
  - intros self c d H0. rewrite update_seed by (rewrite H0; reflexivity).
    split; reflexivity.
  - intros self c d Hnz. rewrite (update_ema _ _ _ Hnz). split; reflexivity.
  - intros self d1 d2 H0 Ha.
    rewrite (update_seed self) by (rewrite H0; reflexivity).
    split; [reflexivity |].
    rewrite update_ema by (simpl; discriminate).
    simpl. rewrite Ha. reflexivity.
Qed.

Lemma smoother_seed_then_ema_witness :
  ~ smoothed_count (set_smoothed init 10 (1 # 2)) == 0
  /\ smoothed_count
       (_update_smoothed_values (set_smoothed init 10 (1 # 2)) 20 (1 # 4))
     == 13
  /\ smoothed_density
       (_update_smoothed_values (set_smoothed init 10 (1 # 2)) 20 (1 # 4))
     == 17 # 40.
Proof.
  assert (Hnz : ~ smoothed_count (set_smoothed init 10 (1 # 2)) == 0)
    by discriminate.
  split; [exact Hnz |].
  destruct smoother_seed_then_ema as (_ & Hema & _).
  destruct (Hema (set_smoothed init 10 (1 # 2)) 20%Z (1 # 4) Hnz) as [-> ->].
  split; reflexivity.
Defined.

(** C4 as stated fails when the first frame is empty: after a first raw count
    of 0 the second update, with raw count 20, stores 20.0 and not the moving
    average 0.3 * 20 + 0.7 * 0 = 6.0. *)
Lemma ema_skipped_after_zero_count :
  smoothed_count
    (_update_smoothed_values
       (_update_smoothed_values init 0 (1 # 2)) 20 (1 # 4))
  == 20
  /\ ~ smoothed_count
         (_update_smoothed_values
            (_update_smoothed_values init 0 (1 # 2)) 20 (1 # 4))
       == smoothing_factor init * 20
          + (1 - smoothing_factor init)
            * smoothed_count (_update_smoothed_values init 0 (1 # 2)).
Proof. split; [reflexivity | discriminate]. Qed.

(** C5: an update that finds the stored smoothed count equal to 0 overwrites
    the smoothed count and the smoothed density with the raw inputs, whatever
    smoothed density was stored; this is so after any run of frames that all
    had raw count 0, not only on the first frame; the moving average is
    applied exactly when the stored smoothed count is nonzero. *)
Theorem zero_sentinel_reseeds (self : analyzer) (c : Z) (d : Q) :
  (smoothed_count self == 0 ->
   smoothed_count (_update_smoothed_values self c d) = inject_Z c
   /\ smoothed_density (_update_smoothed_values self c d) = d)
  /\ (forall frames,
        smoothed_count self == 0 ->
        Forall (fun f => fst f = 0%Z) frames ->
        smoothed_count
          (_update_smoothed_values (smooth_frames self frames) c d)
        = inject_Z c
        /\ smoothed_density
             (_update_smoothed_values (smooth_frames self frames) c d)
           = d)
  /\ (~ smoothed_count self == 0 ->
      smoothed_count (_update_smoothed_values self c d)
      = smoothing_factor self * inject_Z c
        + (1 - smoothing_factor self) * smoothed_count self
      /\ smoothed_density (_update_smoothed_values self c d)
         = smoothing_factor self * d
           + (1 - smoothing_factor self) * smoothed_density self).
Proof.
  split; [| split].
  - intros H0. rewrite (update_seed _ _ _ H0). split; reflexivity.
  - intros frames H0 Hall.
    rewrite update_seed by (apply smooth_zero_frames; assumption).
    split; reflexivity.
  - intros Hnz. rewrite (update_ema _ _ _ Hnz). split; reflexivity.
Qed.

Lemma zero_sentinel_reseeds_witness :
  (smoothed_count init == 0
   /\ Forall (fun f => fst f = 0%Z) [(0%Z, 1 # 5); (0%Z, 3 # 5)])
  /\ smoothed_density (smooth_frames init [(0%Z, 1 # 5); (0%Z, 3 # 5)])
     = 3 # 5
  /\ smoothed_density
       (_update_smoothed_values
          (smooth_frames init [(0%Z, 1 # 5); (0%Z, 3 # 5)]) 7 (1 # 10))
     = 1 # 10.
Proof.
  assert (H0 : smoothed_count init == 0) by reflexivity.
  assert (Hall : Forall (fun f : Z * Q => fst f = 0%Z)
                   [(0%Z, 1 # 5); (0%Z, 3 # 5)])
    by (repeat constructor).
  split; [split; assumption |].
  split; [reflexivity |].
  destruct (zero_sentinel_reseeds init 7 (1 # 10)) as (_ & Hrun & _).
  exact (proj2 (Hrun _ H0 Hall)).
Defined.

(** *** AnomalyDetector *)

(** C7: with fewer than 20 samples in the history the detector returns the
    three flags false, whatever the current count and density are. *)
Theorem detect_anomalies_short_history (sqrt : Q -> Q) (self : analyzer)
    (current_count : Z) (current_density : Q) :
  (length (count_history self) < 20)%nat ->
  detect_anomalies sqrt self current_count current_density
  = Anomalies false false false.
Proof.
  intros Hlen. unfold detect_anomalies.
  destruct (Nat.ltb_spec (length (count_history self)) 20) as [_|Hge].
  - reflexivity.
  - lia.
Qed.

Lemma detect_anomalies_short_history_witness :
  (length (count_history (with_history 19)) < 20)%nat
  /\ detect_anomalies sqrt_milli (with_history 19) 1000000 1
     = Anomalies false false false.
Proof.
  assert (H : (length (count_history (with_history 19)) < 20)%nat)
    by (vm_compute; lia).
  split; [exact H |].
  exact (detect_anomalies_short_history sqrt_milli (with_history 19)
           1000000 1 H).
Defined.

(** With one more sample the same input is flagged as a sudden change. *)
Example detect_anomalies_full_history :
  detect_anomalies sqrt_milli (with_history 20) 1000000 1
  = Anomalies false false true.
Proof. vm_compute. reflexivity. Qed.

End AnalyzerProofs.

(** ** AlertEngine and Logger *)

Module AlertProofs.

Import AlertManager.
Local Open Scope Q_scope.

Lemma cooldown_check (self : manager) (kind : string) (now : Q) :
  _check_alert_cooldown self kind now = true <-> cooldown_elapsed self kind now.
Proof.
  unfold _check_alert_cooldown, cooldown_elapsed.
  destruct (last_alert_time self !! kind); [apply Qle_bool_iff | tauto].
Qed.

Lemma threshold_fires (self : manager) (n : Q) (level : string) (now : Q) :
  level = "high" \/ level = "critical" ->
  cooldown_elapsed self level now ->
  exists msg,
    _check_threshold_alerts self n level now
    = (AlertInfo true level "threshold" msg [],
       set_last_alert_time self (<[level := now]> (last_alert_time self))).
Proof.
  intros Hlevel Hcool. unfold _check_threshold_alerts.
  rewrite bool_decide_eq_true_2 by (destruct Hlevel; subst; set_solver).
  apply cooldown_check in Hcool. rewrite Hcool. eauto.
Qed.

Lemma threshold_holds (self : manager) (n : Q) (level : string) (now : Q) :
  ~ cooldown_elapsed self level now ->
  _check_threshold_alerts self n level now
  = (AlertInfo false "none" "threshold" "" [], self).
Proof.
  intros Hcool. unfold _check_threshold_alerts.
  destruct (_check_alert_cooldown self level now) eqn:E.
  - apply cooldown_check in E. contradiction.
  - now destruct (bool_decide _).
Qed.

Lemma detected_nil (l : list (string * bool)) :
  Forall (fun a => snd a = false) l ->
  filter (fun a => snd a = true) l = [].
Proof.
  induction 1 as [|a l Ha _ IH]; [reflexivity |].
  rewrite filter_cons_False by congruence. exact IH.
Qed.

Lemma detected_cons (l : list (string * bool)) :
  Exists (fun a => snd a = true) l ->
  filter (fun a => snd a = true) l <> [].
Proof.
  induction 1 as [a l Ha | a l _ IH].
  - now rewrite filter_cons_True.
  - destruct (decide (snd a = true)) as [Ha|Ha].
    + now rewrite filter_cons_True.
    + now rewrite filter_cons_False.
Qed.

Lemma anomaly_quiet (self : manager) (l : list (string * bool)) (now : Q) :
  Forall (fun a => snd a = false) l ->
  _check_anomaly_alerts self l now
  = (AlertInfo false "anomaly" "anomaly" "" [], self).
Proof.
  intros Hl. unfold _check_anomaly_alerts. now rewrite detected_nil.
Qed.

Lemma anomaly_fires (self : manager) (l : list (string * bool)) (now : Q) :
  Exists (fun a => snd a = true) l ->
  cooldown_elapsed self "anomaly" now ->
  exists msg,
    _check_anomaly_alerts self l now
    = (AlertInfo true "anomaly" "anomaly" msg [],
       set_last_alert_time self (<["anomaly" := now]> (last_alert_time self))).
Proof.
  intros Hl Hcool. unfold _check_anomaly_alerts.
  apply detected_cons in Hl. apply cooldown_check in Hcool. rewrite Hcool.
  rewrite bool_decide_eq_false_2; [simpl; eauto |].
  intros Hnil. apply Hl. now destruct (filter _ l).
Qed.

Lemma level_not_anomaly (level : string) :
  level = "high" \/ level = "critical" -> level <> "anomaly".
Proof. intros [-> | ->]; discriminate. Qed.

(** C2: when the threshold candidate and the anomaly candidate both qualify
    in one cycle, [check_alerts] returns an alert with [alert_triggered] true
    and [alert_type] 'threshold'. *)
Theorem threshold_alert_has_priority (self : manager) (now : Q)
    (smtp_ok : bool) (results : analysis_results) (level : string) :
  crowd_level results = Some level ->
  level = "high" \/ level = "critical" ->
  cooldown_elapsed self level now ->
  some_flag results ->
  cooldown_elapsed self "anomaly" now ->
  alert_triggered (check_alerts self now smtp_ok results).1 = true
  /\ alert_type (check_alerts self now smtp_ok results).1 = "threshold"
  /\ alert_level (check_alerts self now smtp_ok results).1 = level.
Proof.
  intros Hres Hlevel Hcool Hflag Hacool. unfold check_alerts.
  rewrite Hres. simpl default.
  destruct (threshold_fires self (default 0 (smoothed_count results))
              level now Hlevel Hcool) as [msg ->].
  destruct (_check_anomaly_alerts _ _ _) as [anomaly_alert self2].
  simpl. repeat split.
Qed.

(** C1, as the code has it: when both candidates qualify in one cycle the
    threshold alert is the one reported, and the cycle stamps the current time
    on the 'anomaly' entry of [last_alert_time] as well as on the entry of the
    reported level. *)
Theorem suppressed_anomaly_is_stamped (self : manager) (now : Q)
    (smtp_ok : bool) (results : analysis_results) (level : string) :
  crowd_level results = Some level ->
  level = "high" \/ level = "critical" ->
  cooldown_elapsed self level now ->
  some_flag results ->
  cooldown_elapsed self "anomaly" now ->
  alert_type (check_alerts self now smtp_ok results).1 = "threshold"
  /\ alert_level (check_alerts self now smtp_ok results).1 = level
  /\ last_alert_time (check_alerts self now smtp_ok results).2 !! "anomaly"
     = Some now
  /\ last_alert_time (check_alerts self now smtp_ok results).2 !! level
     = Some now.
Proof.
  intros Hres Hlevel Hcool Hflag Hacool. unfold check_alerts.
  rewrite Hres. simpl default.
  destruct (threshold_fires self (default 0 (smoothed_count results))
              level now Hlevel Hcool) as [msg ->].
  assert (Hacool' : cooldown_elapsed
            (set_last_alert_time self (<[level := now]> (last_alert_time self)))
            "anomaly" now).
  { unfold cooldown_elapsed in *. simpl.
    rewrite lookup_insert_ne by now apply level_not_anomaly. exact Hacool. }
  destruct (anomaly_fires _ _ now Hflag Hacool') as [amsg ->].
  simpl. split; [reflexivity |]. split; [reflexivity |]. split.
  - apply lookup_insert_eq.
  - rewrite lookup_insert_ne
      by (apply not_eq_sym; now apply level_not_anomaly).
    apply lookup_insert_eq.
Qed.

(** The dict of [test_alert_manager] is such a cycle: level 'high', the
    density anomaly flagged, no alert stamped yet. *)
Lemma threshold_alert_has_priority_witness :
  (crowd_level test_analysis = Some "high"
   /\ cooldown_elapsed init "high" 100
   /\ some_flag test_analysis
   /\ cooldown_elapsed init "anomaly" 100)
  /\ alert_triggered (check_alerts init 100 true test_analysis).1 = true
  /\ alert_type (check_alerts init 100 true test_analysis).1 = "threshold"
  /\ alert_level (check_alerts init 100 true test_analysis).1 = "high".
Proof.
  assert (H1 : cooldown_elapsed init "high" 100) by exact I.
  assert (H2 : some_flag test_analysis)
    by (apply Exists_cons_tl, Exists_cons_hd; reflexivity).
  assert (H3 : cooldown_elapsed init "anomaly" 100) by exact I.
  split; [repeat split; assumption |].
  exact (threshold_alert_has_priority init 100 true test_analysis "high"
           eq_refl (or_introl eq_refl) H1 H2 H3).
Defined.

Lemma suppressed_anomaly_is_stamped_witness :
  (crowd_level test_analysis = Some "high"
   /\ cooldown_elapsed after_anomaly "high" 100
   /\ some_flag test_analysis
   /\ cooldown_elapsed after_anomaly "anomaly" 100)
  /\ alert_type (check_alerts after_anomaly 100 true test_analysis).1
     = "threshold"
  /\ alert_level (check_alerts after_anomaly 100 true test_analysis).1
     = "high"
  /\ last_alert_time (check_alerts after_anomaly 100 true test_analysis).2
       !! "anomaly" = Some 100
  /\ last_alert_time (check_alerts after_anomaly 100 true test_analysis).2
       !! "high" = Some 100.
Proof.
  assert (H1 : cooldown_elapsed after_anomaly "high" 100) by exact I.
  assert (H2 : some_flag test_analysis)
    by (apply Exists_cons_tl, Exists_cons_hd; reflexivity).
  assert (H3 : cooldown_elapsed after_anomaly "anomaly" 100)
    by (vm_compute; discriminate).
  split; [repeat split; assumption |].
  exact (suppressed_anomaly_is_stamped after_anomaly 100 true test_analysis
           "high" eq_refl (or_introl eq_refl) H1 H2 H3).
Defined.

(** C1 as stated fails.  The last anomaly alert was stamped at time 0; at
    time 100 both candidates qualify and the threshold alert is reported, yet
    the 'anomaly' entry of [last_alert_time] moves from 0 to 100.  The
    anomaly alone at time 130 is therefore still cooling down and is not
    reported. *)
Lemma anomaly_timer_reset_when_suppressed :
  (cooldown_elapsed after_anomaly "high" 100
   /\ some_flag test_analysis
   /\ cooldown_elapsed after_anomaly "anomaly" 100)
  /\ alert_type (check_alerts after_anomaly 100 true test_analysis).1
     = "threshold"
  /\ last_alert_time after_anomaly !! "anomaly" = Some 0
  /\ last_alert_time (check_alerts after_anomaly 100 true test_analysis).2
       !! "anomaly" = Some 100
  /\ last_alert_time (check_alerts after_anomaly 100 true test_analysis).2
       !! "anomaly" <> last_alert_time after_anomaly !! "anomaly"
  /\ alert_triggered
       (check_alerts (check_alerts after_anomaly 100 true test_analysis).2
          130 true
          {| person_count := Some 30%Z;
             smoothed_count := Some 30;
             density_score := None;
             smoothed_density := None;
             crowd_level := Some "medium";
             spatial := None;
             trend := None;
             anomalies := Some [("count_anomaly", true)] |}).1 = false.
Proof.
  split.
  { repeat split.
    - apply Exists_cons_tl, Exists_cons_hd; reflexivity.
    - vm_compute; discriminate. }
  vm_compute. repeat split. discriminate.
Qed.

(** *** Cooldown *)

(** A cycle without anomaly flags at level high or critical whose cooldown has
    elapsed: the alert fires and only the entry of that level is stamped. *)
Lemma check_alerts_fires (self : manager) (now : Q) (smtp_ok : bool)
    (results : analysis_results) (level : string) :
  crowd_level results = Some level ->
  level = "high" \/ level = "critical" ->
  no_flag results ->
  cooldown_elapsed self level now ->
  alert_triggered (check_alerts self now smtp_ok results).1 = true
  /\ last_alert_time (check_alerts self now smtp_ok results).2
     = <[level := now]> (last_alert_time self)
  /\ alert_cooldown (check_alerts self now smtp_ok results).2
     = alert_cooldown self.
Proof.
  intros Hres Hlevel Hquiet Hcool. unfold check_alerts.
  rewrite Hres. simpl default.
  destruct (threshold_fires self (default 0 (smoothed_count results))
              level now Hlevel Hcool) as [msg ->].
  rewrite anomaly_quiet by exact Hquiet. simpl. repeat split.
Qed.

(** The same cycle inside the cooldown: no alert, no entry stamped. *)
Lemma check_alerts_holds (self : manager) (now : Q) (smtp_ok : bool)
    (results : analysis_results) (level : string) :
  crowd_level results = Some level ->
  no_flag results ->
  ~ cooldown_elapsed self level now ->
  alert_triggered (check_alerts self now smtp_ok results).1 = false
  /\ last_alert_time (check_alerts self now smtp_ok results).2
     = last_alert_time self
  /\ alert_cooldown (check_alerts self now smtp_ok results).2
     = alert_cooldown self.
Proof.
  intros Hres Hquiet Hcool. unfold check_alerts.
  rewrite Hres. simpl default.
  rewrite threshold_holds by exact Hcool.
  rewrite anomaly_quiet by exact Hquiet. simpl. repeat split.
Qed.

(** C3: with no anomaly flag set, at a level that is high or critical and has
    no earlier alert, the first evaluation triggers; a second evaluation at
    that level less than [alert_cooldown] later does not; a third one at
    least [alert_cooldown] after the first does.  The cooldown is per level:
    the first alert leaves the entries of all other kinds as they were, so an
    evaluation at the other level inside the cooldown still triggers. *)
Theorem cooldown_per_level (self : manager) (level : string) (t1 t2 t3 : Q)
    (ok1 ok2 ok3 : bool) (r1 r2 r3 : analysis_results) :
  level = "high" \/ level = "critical" ->
  crowd_level r1 = Some level -> no_flag r1 ->
  crowd_level r2 = Some level -> no_flag r2 ->
  crowd_level r3 = Some level -> no_flag r3 ->
  last_alert_time self !! level = None ->
  t2 - t1 < alert_cooldown self ->
  alert_cooldown self <= t3 - t1 ->
  let c1 := check_alerts self t1 ok1 r1 in
  let c2 := check_alerts c1.2 t2 ok2 r2 in
  let c3 := check_alerts c2.2 t3 ok3 r3 in
  alert_triggered c1.1 = true
  /\ alert_triggered c2.1 = false
  /\ alert_triggered c3.1 = true
  /\ (forall kind, kind <> level ->
        last_alert_time c1.2 !! kind = last_alert_time self !! kind)
  /\ (forall other ok r,
        other = "high" \/ other = "critical" -> other <> level ->
        crowd_level r = Some other -> no_flag r ->
        last_alert_time self !! other = None ->
        alert_triggered (check_alerts c1.2 t2 ok r).1 = true).
Proof.
  intros Hlevel Hr1 Hq1 Hr2 Hq2 Hr3 Hq3 Hnone H12 H13 c1 c2 c3.
  assert (Hc1 : cooldown_elapsed self level t1)
    by (unfold cooldown_elapsed; now rewrite Hnone).
  destruct (check_alerts_fires self t1 ok1 r1 level Hr1 Hlevel Hq1 Hc1)
    as (Hf1 & Hm1 & Hcd1).
  fold c1 in Hf1, Hm1, Hcd1.
  assert (Hc2 : ~ cooldown_elapsed c1.2 level t2).
  { unfold cooldown_elapsed. rewrite Hm1, lookup_insert_eq, Hcd1. lra. }
  destruct (check_alerts_holds c1.2 t2 ok2 r2 level Hr2 Hq2 Hc2)
    as (Hf2 & Hm2 & Hcd2).
  fold c2 in Hf2, Hm2, Hcd2.
  assert (Hc3 : cooldown_elapsed c2.2 level t3).
  { unfold cooldown_elapsed.
    rewrite Hm2, Hm1, lookup_insert_eq, Hcd2, Hcd1. exact H13. }
  destruct (check_alerts_fires c2.2 t3 ok3 r3 level Hr3 Hlevel Hq3 Hc3)
    as (Hf3 & _).
  fold c3 in Hf3.
  repeat split; try assumption.
  - intros kind Hkind. rewrite Hm1. now apply lookup_insert_ne.
  - intros other ok r Hother Hne Hr Hq Hnone'.
    apply (check_alerts_fires c1.2 t2 ok r other Hr Hother Hq).
    unfold cooldown_elapsed.
    rewrite Hm1, lookup_insert_ne by (now apply not_eq_sym).
    now rewrite Hnone'.
Qed.

(** The cycle of [test_alert_cooldown]: level 'high', count 75. *)
Lemma cooldown_per_level_witness :
  (last_alert_time init !! "high" = None
   /\ 1030 - 1000 < alert_cooldown init
   /\ alert_cooldown init <= 1060 - 1000)
  /\ alert_triggered
       (check_alerts init 1000 true (create_test_analysis 75 "high")).1 = true
  /\ alert_triggered
       (check_alerts
          (check_alerts init 1000 true (create_test_analysis 75 "high")).2
          1030 true (create_test_analysis 75 "high")).1 = false.
Proof.
  assert (Hq : no_flag (create_test_analysis 75 "high"))
    by (repeat constructor).
  assert (H12 : 1030 - 1000 < alert_cooldown init) by reflexivity.
  assert (H13 : alert_cooldown init <= 1060 - 1000) by discriminate.
  split; [repeat split; assumption |].
  destruct (cooldown_per_level init "high" 1000 1030 1060 true true true
              (create_test_analysis 75 "high")
              (create_test_analysis 75 "high")
              (create_test_analysis 75 "high")
              (or_introl eq_refl) eq_refl Hq eq_refl Hq eq_refl Hq
              eq_refl H12 H13) as (H1 & H2 & _).
  split; assumption.
Defined.

(** *** Logger *)

Section Logger.

Variables strftime isoformat : Q -> string.

(** A call that is due, on an enabled CSV or JSON log whose write goes
    through, appends one record and stamps the time. *)
Lemma log_data_due (self : manager) (now : Q) (results : analysis_results)
    (info : option alert_info) :
  log_enabled self = true ->
  log_format self = "csv" \/ log_format self = "json" ->
  log_interval self <= now - last_log_time self ->
  exists record,
    log_data strftime isoformat self now true results info
    = set_log_file (set_last_log_time self now) (log_file self ++ [record]).
Proof.
  intros Hen Hfmt Hdue. unfold log_data. rewrite Hen. simpl negb.
  apply PyFacts.Qltb_ge in Hdue. rewrite Hdue.
  destruct Hfmt as [Hfmt | Hfmt]; simpl log_format; rewrite Hfmt; simpl;
    eauto.
Qed.

(** A call inside the interval changes nothing. *)
Lemma log_data_not_due (self : manager) (now : Q) (io_ok : bool)
    (results : analysis_results) (info : option alert_info) :
  now - last_log_time self < log_interval self ->
  log_data strftime isoformat self now io_ok results info = self.
Proof.
  intros Hnot. unfold log_data. apply PyFacts.Qltb_lt in Hnot. rewrite Hnot.
  now destruct (negb _).
Qed.

(** With any other configured format a due call stamps the time and writes
    nothing. *)
Lemma log_data_other_format (self : manager) (now : Q) (io_ok : bool)
    (results : analysis_results) (info : option alert_info) :
  log_enabled self = true ->
  log_format self <> "csv" -> log_format self <> "json" ->
  log_interval self <= now - last_log_time self ->
  log_data strftime isoformat self now io_ok results info
  = set_last_log_time self now.
Proof.
  intros Hen Hcsv Hjson Hdue. unfold log_data. rewrite Hen. simpl negb.
  apply PyFacts.Qltb_ge in Hdue. rewrite Hdue. simpl log_format.
  apply String.eqb_neq in Hcsv, Hjson. now rewrite Hcsv, Hjson.
Qed.

(** C10: on an enabled CSV or JSON log, two calls less than [log_interval]
    apart, the first of them due and its write going through, leave exactly
    one more record: the first call appends it and sets [last_log_time] to
    its own time, the second call changes nothing. *)
Theorem log_rate_limit (self : manager) (t1 t2 : Q) (io_ok : bool)
    (r1 r2 : analysis_results) (i1 i2 : option alert_info) :
  log_enabled self = true ->
  log_format self = "csv" \/ log_format self = "json" ->
  log_interval self <= t1 - last_log_time self ->
  t2 - t1 < log_interval self ->
  let s1 := log_data strftime isoformat self t1 true r1 i1 in
  let s2 := log_data strftime isoformat s1 t2 io_ok r2 i2 in
  (exists record, log_file s1 = log_file self ++ [record])
  /\ last_log_time s1 = t1
  /\ s2 = s1
  /\ length (log_file s2) = S (length (log_file self)).
Proof.
  intros Hen Hfmt Hdue Hnear s1 s2.
  destruct (log_data_due self t1 r1 i1 Hen Hfmt Hdue) as [record Hs1].
  fold s1 in Hs1.
  assert (Hs2 : s2 = s1).
  { apply log_data_not_due. rewrite Hs1. simpl. exact Hnear. }
  rewrite Hs2, Hs1. simpl. repeat split.
  - now exists record.
  - rewrite length_app. simpl. lia.
Qed.

End Logger.

(** The call of [test_alert_manager]: a fresh manager (CSV log, interval 5,
    [last_log_time] 0) logs at time 1000 and is called again 2 seconds
    later. *)
Lemma log_rate_limit_witness :
  (log_enabled init = true
   /\ log_interval init <= 1000 - last_log_time init
   /\ 1002 - 1000 < log_interval init)
  /\ length
       (log_file
          (log_data epoch_seconds epoch_seconds
             (log_data epoch_seconds epoch_seconds init 1000 true
                test_analysis None)
             1002 true test_analysis None)) = 1%nat.
Proof.
  assert (H1 : log_interval init <= 1000 - last_log_time init)
    by discriminate.
  assert (H2 : 1002 - 1000 < log_interval init) by reflexivity.
  split; [repeat split; assumption |].
  exact (proj2 (proj2 (proj2
    (log_rate_limit epoch_seconds epoch_seconds init 1000 1002 true
       test_analysis test_analysis None None
       eq_refl (or_introl eq_refl) H1 H2)))).
Defined.

End AlertProofs.

(** ** DensityEngine *)

Module DensityProofs.

Import CrowdAnalyzer.
Local Open Scope Q_scope.

(** Unfolding of the exception monad. *)
Ltac run := unfold mbind, result_mbind, Py.bind; simpl.

(** *** Coverage mask *)

Lemma binary_zeros (h w : nat) : binary w (replicate h (replicate w 0%Z)).
Proof.
  apply Forall_replicate. split.
  - apply length_replicate.
  - apply Forall_replicate. lia.
Qed.

Lemma set_slice_binary (w : nat) (m : list (list Z)) (ya yb xa xb : Z) :
  binary w m -> binary w (set_slice m ya yb xa xb).
Proof.
  unfold binary, set_slice. rewrite !Forall_lookup. intros Hm i row Hrow.
  rewrite list_lookup_imap in Hrow.
  destruct (m !! i) as [row0|] eqn:Hi; [| discriminate].
  injection Hrow as <-. destruct (Hm i row0 Hi) as [Hlen Hbits].
  destruct (_ && _); [| now split].
  split; [now rewrite length_imap |].
  apply Forall_lookup. intros j v Hv. rewrite list_lookup_imap in Hv.
  destruct (row0 !! j) as [v0|] eqn:Hj; [| discriminate].
  injection Hv as <-. destruct (_ && _); [lia |].
  rewrite Forall_lookup in Hbits. exact (Hbits j v0 Hj).
Qed.

Lemma set_slice_length (m : list (list Z)) (ya yb xa xb : Z) :
  length (set_slice m ya yb xa xb) = length m.
Proof. apply length_imap. Qed.

Lemma paint_binary (w : nat) (width height : Z) (m : list (list Z))
    (b : box) :
  binary w m ->
  binary w (paint width height m b)
  /\ length (paint width height m b) = length m.
Proof.
  intros Hm. unfold paint. destruct (_ && _); [| now split].
  split; [now apply set_slice_binary | apply set_slice_length].
Qed.

Lemma paint_all_binary (w : nat) (width height : Z) (boxes : list box)
    (m : list (list Z)) :
  binary w m ->
  binary w (fold_left (paint width height) boxes m)
  /\ length (fold_left (paint width height) boxes m) = length m.
Proof.
  revert m. induction boxes as [|b boxes IH]; intros m Hm; [now split |].
  simpl. destruct (paint_binary w width height m b Hm) as [Hbin Hlen].
  destruct (IH _ Hbin) as [H1 H2]. split; [exact H1 | congruence].
Qed.

Lemma sum_app (l1 l2 : list Z) :
  foldr Z.add 0%Z (l1 ++ l2) = (foldr Z.add 0 l1 + foldr Z.add 0 l2)%Z.
Proof. induction l1 as [|x l1 IH]; simpl; [reflexivity | lia]. Qed.

Lemma sum_bits (row : list Z) :
  Forall (fun v => (0 <= v <= 1)%Z) row ->
  (0 <= foldr Z.add 0 row <= Z.of_nat (length row))%Z.
Proof. induction 1 as [|v row Hv _ IH]; simpl; lia. Qed.

(** A binary mask covers at most as many pixels as it has. *)
Lemma np_sum_bounds (w : nat) (m : list (list Z)) :
  binary w m -> (0 <= np_sum m <= Z.of_nat (length m) * Z.of_nat w)%Z.
Proof.
  unfold np_sum. induction 1 as [|row m [Hlen Hbits] _ IH]; simpl; [lia |].
  rewrite sum_app. pose proof (sum_bits row Hbits). lia.
Qed.

Lemma ratio_bounds (a b : Z) :
  (0 <= a <= b)%Z -> (0 < b)%Z ->
  0 <= inject_Z a / inject_Z b <= 1.
Proof.
  intros Ha Hb.
  assert (Hb' : 0 < inject_Z b) by (unfold Qlt; simpl; lia).
  split.
  - apply Qle_shift_div_l; [exact Hb' |]. unfold Qle; simpl; lia.
  - apply Qle_shift_div_r; [exact Hb' |]. unfold Qle; simpl; lia.
Qed.

Lemma min_unit (d : Q) : 0 <= d -> 0 <= Py.min d 1 <= 1.
Proof. intros Hd. destruct (PyFacts.min_spec d 1) as [[H ->]|[H ->]]; lra. Qed.

Lemma bbox_coverage_bounds (self : analyzer) (boxes : list box) (w h : Z) :
  frame_width self = Some w -> frame_height self = Some h ->
  (0 < w)%Z -> (0 < h)%Z ->
  exists d, _calculate_bbox_coverage_density self boxes = Py.Ok d
            /\ 0 <= d <= 1.
Proof.
  intros Hw Hh Hwpos Hhpos. unfold _calculate_bbox_coverage_density.
  destruct boxes as [|b boxes]; [exists 0; split; [reflexivity | lra] |].
  rewrite Hw, Hh. run. unfold np_zeros_uint8.
  destruct (Z.ltb_spec h 0) as [|_]; [lia |].
  destruct (Z.ltb_spec w 0) as [|_]; [lia |]. simpl.
  eexists. split; [reflexivity |].
  apply min_unit, ratio_bounds; [| lia].
  destruct (paint_binary (Z.to_nat w) w h _ b
              (binary_zeros (Z.to_nat h) (Z.to_nat w))) as [Hbin0 Hlen0].
  destruct (paint_all_binary (Z.to_nat w) w h boxes _ Hbin0) as [Hbin Hlen].
  pose proof (np_sum_bounds _ _ Hbin) as Hsum.
  rewrite Hlen, Hlen0, length_replicate in Hsum. lia.
Qed.

(** *** Nearest-neighbour distances *)

Lemma ext_min_nonneg (a b : ext) :
  ext_nonneg a -> ext_nonneg b -> ext_nonneg (ext_min a b).
Proof.
  destruct a as [x|], b as [y|]; simpl; trivial. intros Hx Hy.
  destruct (PyFacts.min_spec x y) as [[_ ->]|[_ ->]]; assumption.
Qed.

Lemma ext_add_nonneg (a b : ext) :
  ext_nonneg a -> ext_nonneg b -> ext_nonneg (ext_add a b).
Proof. destruct a as [x|], b as [y|]; simpl; trivial. intros; lra. Qed.

Lemma ext_div_nonneg (a : ext) (d : Q) :
  ext_nonneg a -> 0 <= d -> ext_nonneg (ext_div a d).
Proof.
  destruct a as [x|]; simpl; trivial. intros Hx Hd.
  apply Qmult_le_0_compat; [exact Hx | now apply Qinv_le_0_compat].
Qed.

Lemma row_min_nonneg (row : list ext) :
  Forall ext_nonneg row -> ext_nonneg (foldr ext_min Inf row).
Proof.
  induction 1 as [|e row He _ IH]; simpl; [exact I |].
  now apply ext_min_nonneg.
Qed.

Lemma ext_sum_nonneg (l : list ext) :
  Forall ext_nonneg l -> ext_nonneg (foldr ext_add (Fin 0) l).
Proof.
  induction 1 as [|e l He _ IH]; simpl; [lra |]. now apply ext_add_nonneg.
Qed.

Lemma np_mean_ext_nonneg (l : list ext) :
  Forall ext_nonneg l -> ext_nonneg (np_mean_ext l).
Proof.
  intros Hl. apply ext_div_nonneg; [now apply ext_sum_nonneg |].
  unfold Qle; simpl; lia.
Qed.

Lemma fill_diagonal_nonneg (m : list (list Q)) :
  Forall (Forall (fun d => 0 <= d)) m ->
  Forall (Forall ext_nonneg) (fill_diagonal_inf m).
Proof.
  unfold fill_diagonal_inf. rewrite !Forall_lookup. intros Hm i row Hrow.
  rewrite list_lookup_imap in Hrow.
  destruct (m !! i) as [row0|] eqn:Hi; [| discriminate].
  injection Hrow as <-. apply Forall_lookup. intros j e He.
  rewrite list_lookup_imap in He.
  destruct (row0 !! j) as [d|] eqn:Hj; [| discriminate].
  injection He as <-. destruct (i =? j)%nat; [exact I |].
  pose proof (Hm i row0 Hi) as Hrow0. rewrite Forall_lookup in Hrow0.
  exact (Hrow0 j d Hj).
Qed.

Lemma min_one_unit (a : ext) : ext_nonneg a -> 0 <= min_one a <= 1.
Proof. destruct a as [x|]; simpl; [apply min_unit | lra]. Qed.

Section Sqrt.

(** What the properties need of [np.sqrt]: its value is never negative, and
    it is positive on positive numbers, so that a frame diagonal is not 0. *)
Variable sqrt : Q -> Q.
Hypothesis sqrt_nonneg : forall x, 0 <= sqrt x.
Hypothesis sqrt_pos : forall x, 0 < x -> 0 < sqrt x.

Lemma cdist_nonneg (a b : list (Q * Q)) :
  Forall (Forall (fun d => 0 <= d)) (cdist sqrt a b).
Proof using sqrt_nonneg.
  unfold cdist. apply List.Forall_forall. intros row Hrow.
  apply in_map_iff in Hrow as (p & <- & _).
  apply List.Forall_forall. intros d Hd.
  apply in_map_iff in Hd as (q & <- & _). apply sqrt_nonneg.
Qed.

Lemma spatial_distribution_bounds (self : analyzer) (boxes : list box)
    (w h : Z) :
  frame_width self = Some w -> frame_height self = Some h ->
  exists d, _calculate_spatial_distribution_density sqrt self boxes = Py.Ok d
            /\ 0 <= d <= 1.
Proof using sqrt_nonneg.
  intros Hw Hh. unfold _calculate_spatial_distribution_density.
  destruct (Nat.ltb_spec (length boxes) 2) as [Hlen|Hlen].
  - eexists. split; [reflexivity |]. split.
    + apply Qle_shift_div_l; [reflexivity |]. unfold Qle; simpl; lia.
    + apply Qle_shift_div_r; [reflexivity |]. unfold Qle; simpl; lia.
  - rewrite Hw, Hh. run. eexists. split; [reflexivity |].
    match goal with
    | |- _ <= 1 - min_one ?e <= _ =>
        assert (He : ext_nonneg e); [| pose proof (min_one_unit e He); lra]
    end.
    apply ext_div_nonneg; [| apply sqrt_nonneg].
    apply np_mean_ext_nonneg. unfold np_min_axis1.
    apply List.Forall_forall. intros e He.
    apply in_map_iff in He as (row & <- & Hrow). apply row_min_nonneg.
    pose proof (fill_diagonal_nonneg _
                  (cdist_nonneg (map center boxes) (map center boxes))) as Hall.
    rewrite List.Forall_forall in Hall. now apply Hall.
Qed.

(** C8: for every list of boxes and every configured density method the
    density score is between 0 and 1; it is exactly 0.0 when the list is empty
    or a frame dimension is unknown. *)
Theorem density_score_in_unit_interval (self : analyzer) (boxes : list box) :
  frame_sized self ->
  (exists d, calculate_density_score sqrt self boxes = Py.Ok d
             /\ 0 <= d <= 1)
  /\ (boxes = [] \/ frame_width self = None \/ frame_height self = None ->
      calculate_density_score sqrt self boxes = Py.Ok 0).
Proof using sqrt_nonneg sqrt_pos.
  intros [Hwsize Hhsize].
  assert (Hzero : boxes = [] \/ frame_width self = None
                  \/ frame_height self = None ->
                  calculate_density_score sqrt self boxes = Py.Ok 0).
  { unfold calculate_density_score. intros [-> | [-> | ->]]; simpl.
    - reflexivity.
    - now rewrite orb_true_r.
    - now rewrite orb_true_r. }
  split; [| exact Hzero].
  destruct boxes as [|b boxes];
    [exists 0; split; [now apply Hzero; left | lra] |].
  destruct (frame_width self) as [w|] eqn:Hw;
    [| exists 0; split; [now apply Hzero; right; left | lra]].
  destruct (frame_height self) as [h|] eqn:Hh;
    [| exists 0; split; [now apply Hzero; right; right | lra]].
  pose proof (Hwsize w eq_refl). pose proof (Hhsize h eq_refl).
  unfold calculate_density_score. rewrite Hw, Hh. cbn [orb negb Py.truthy].
  destruct (Z.eqb_spec w 0) as [|Hw0];
    [exists 0; split; [reflexivity | lra] |].
  destruct (Z.eqb_spec h 0) as [|Hh0];
    [exists 0; split; [reflexivity | lra] |].
  cbn [orb negb].
  destruct (String.eqb _ "bbox_coverage");
    [apply (bbox_coverage_bounds self _ w h); (assumption || lia) |].
  destruct (String.eqb _ "spatial_distribution");
    [apply (spatial_distribution_bounds self _ w h); assumption |].
  apply (bbox_coverage_bounds self _ w h); (assumption || lia).
Qed.

End Sqrt.

(** *** Heatmap *)

Lemma Qsum_app (l1 l2 : list Q) : Qsum (l1 ++ l2) == Qsum l1 + Qsum l2.
Proof.
  induction l1 as [|x l1 IH]; simpl; [ring |]. rewrite IH. ring.
Qed.

Lemma grid_sum_cons (row : list Q) (m : list (list Q)) :
  grid_sum (row :: m) == Qsum row + grid_sum m.
Proof. unfold grid_sum. simpl. apply Qsum_app. Qed.

Lemma Qsum_zeros (n : nat) : Qsum (replicate n 0) == 0.
Proof. induction n as [|n IH]; simpl; [reflexivity |]. rewrite IH. ring. Qed.

Lemma grid_sum_zeros (h w : nat) :
  grid_sum (replicate h (replicate w 0)) == 0.
Proof.
  induction h as [|h IH]; [reflexivity |].
  change (replicate (S h) (replicate w 0))
    with (replicate w 0 :: replicate h (replicate w 0)).
  rewrite grid_sum_cons, IH, Qsum_zeros. ring.
Qed.

(** [row[j] += 1] raises the sum of the row by one. *)
Lemma Qsum_alter (row : list Q) (j : nat) :
  (j < length row)%nat ->
  Qsum (alter (fun c => c + 1) j row) == Qsum row + 1.
Proof.
  unfold Qsum. revert j.
  induction row as [|x row IH]; intros j Hj; simpl in Hj; [lia |].
  destruct j as [|j]; cbn [alter list_alter foldr].
  - ring.
  - rewrite IH by lia. ring.
Qed.

(** [m[i, j] += 1] raises the sum of the grid by one and keeps its shape. *)
Lemma increment_sum (w : nat) (m : list (list Q)) (i j : Z) :
  rows_of w m ->
  (0 <= i < Z.of_nat (length m))%Z -> (0 <= j < Z.of_nat w)%Z ->
  grid_sum (increment m i j) == grid_sum m + 1.
Proof.
  unfold increment. intros Hm Hi Hj.
  assert (Hi' : (Z.to_nat i < length m)%nat) by lia. clear Hi.
  revert Hi'. generalize (Z.to_nat i) as k.
  induction Hm as [|row m Hrow _ IH]; intros k Hk; simpl in Hk; [lia |].
  destruct k as [|k]; cbn [alter list_alter].
  - rewrite !grid_sum_cons, Qsum_alter by lia. ring.
  - rewrite !grid_sum_cons, IH by lia. ring.
Qed.

Lemma increment_shape (w : nat) (m : list (list Q)) (i j : Z) :
  rows_of w m ->
  rows_of w (increment m i j) /\ length (increment m i j) = length m.
Proof.
  unfold increment, rows_of. intros Hm. split; [| apply length_alter].
  apply Forall_alter; [exact Hm |]. intros row _ Hrow.
  now rewrite length_alter.
Qed.

Lemma clamp_range (v hi : Z) : (0 <= hi)%Z -> (0 <= clamp v hi <= hi)%Z.
Proof. unfold clamp. lia. Qed.

(** Each box lands in exactly one cell. *)
Lemma count_box_sum (gh gw : Z) (cw ch : Q) (m : list (list Q)) (b : box) :
  (0 < gh)%Z -> (0 < gw)%Z ->
  rows_of (Z.to_nat gw) m -> length m = Z.to_nat gh ->
  grid_sum (count_box gh gw cw ch m b) == grid_sum m + 1
  /\ rows_of (Z.to_nat gw) (count_box gh gw cw ch m b)
  /\ length (count_box gh gw cw ch m b) = Z.to_nat gh.
Proof.
  intros Hgh Hgw Hrows Hlen. unfold count_box.
  destruct (center b) as [cx cy].
  pose proof (clamp_range (Py.int (cx / cw)) (gw - 1)).
  pose proof (clamp_range (Py.int (cy / ch)) (gh - 1)).
  split; [apply (increment_sum (Z.to_nat gw)); (assumption || lia) |].
  destruct (increment_shape (Z.to_nat gw) m
              (clamp (Py.int (cy / ch)) (gh - 1))
              (clamp (Py.int (cx / cw)) (gw - 1)) Hrows) as [H1 H2].
  split; [exact H1 | congruence].
Qed.

Lemma count_boxes_sum (gh gw : Z) (cw ch : Q) (boxes : list box)
    (m : list (list Q)) :
  (0 < gh)%Z -> (0 < gw)%Z ->
  rows_of (Z.to_nat gw) m -> length m = Z.to_nat gh ->
  grid_sum (fold_left (count_box gh gw cw ch) boxes m)
  == grid_sum m + inject_Z (Z.of_nat (length boxes))
  /\ length (fold_left (count_box gh gw cw ch) boxes m) = Z.to_nat gh.
Proof.
  intros Hgh Hgw. revert m.
  induction boxes as [|b boxes IH]; intros m Hrows Hlen.
  - split; [simpl; ring | exact Hlen].
  - destruct (count_box_sum gh gw cw ch m b Hgh Hgw Hrows Hlen)
      as (Hsum & Hrows' & Hlen').
    destruct (IH _ Hrows' Hlen') as [IHsum IHlen].
    split; [| exact IHlen].
    cbn [fold_left length]. rewrite IHsum, Hsum.
    rewrite Nat2Z.inj_succ, <- Z.add_1_l, inject_Z_plus. ring.
Qed.

(** *** Maximum of a grid *)

Lemma fold_max_upper (cs : list Q) (c : Q) :
  c <= fold_left Py.max cs c
  /\ Forall (fun x => x <= fold_left Py.max cs c) cs.
Proof.
  revert c. induction cs as [|x cs IH]; intros c; simpl.
  - split; [lra | constructor].
  - destruct (IH (Py.max c x)) as [H1 H2].
    pose proof (PyFacts.max_l c x). pose proof (PyFacts.max_r c x).
    split; [lra |]. constructor; [lra | exact H2].
Qed.

Lemma fold_max_map (f : Q -> Q) (cs : list Q) (c : Q) :
  (forall a b, Py.Qltb (f a) (f b) = Py.Qltb a b) ->
  fold_left Py.max (map f cs) (f c) = f (fold_left Py.max cs c).
Proof.
  intros Hf. revert c. induction cs as [|x cs IH]; intros c; simpl;
    [reflexivity |].
  rewrite <- IH. f_equal. unfold Py.max. rewrite Hf. now destruct (Py.Qltb c x).
Qed.

Lemma Qsum_nonpos (l : list Q) : Forall (fun x => x <= 0) l -> Qsum l <= 0.
Proof. induction 1 as [|x l Hx _ IH]; simpl; lra. Qed.

Lemma scale_ltb (top a b : Q) :
  0 < top -> Py.Qltb (a / top) (b / top) = Py.Qltb a b.
Proof.
  intros Htop. apply eq_true_iff_eq. rewrite !PyFacts.Qltb_lt.
  unfold Qdiv. assert (0 < / top) by now apply Qinv_lt_0_compat.
  split; intros Hlt.
  - apply Qmult_lt_r in Hlt; assumption.
  - apply Qmult_lt_r; assumption.
Qed.

(** The maximum of a grid with a positive sum is positive, and dividing the
    grid by it brings the maximum to 1. *)
Lemma normalised_max (counts : list (list Q)) :
  0 < grid_sum counts ->
  exists top,
    np_max counts = Py.Ok top /\ 0 < top
    /\ exists m, np_max (map (map (fun c => c / top)) counts) = Py.Ok m
                 /\ m == 1.
Proof.
  unfold grid_sum. intros Hsum.
  destruct (concat counts) as [|c cs] eqn:Hcat; [simpl in Hsum; lra |].
  set (top := fold_left Py.max cs c).
  assert (Htop : 0 < top).
  { destruct (Qlt_le_dec 0 top) as [|Hle]; [assumption | exfalso].
    destruct (fold_max_upper cs c) as [Hc Hcs]. fold top in Hc, Hcs.
    assert (Hall : Forall (fun x => x <= 0) (c :: cs)).
    { constructor; [lra |]. eapply Forall_impl; [exact Hcs |].
      simpl. intros x Hx. lra. }
    pose proof (Qsum_nonpos _ Hall). lra. }
  exists top. split; [unfold np_max; now rewrite Hcat |].
  split; [exact Htop |].
  exists (top / top). split.
  - unfold np_max. rewrite <- concat_map, Hcat. simpl. f_equal.
    apply (fold_max_map (fun c => c / top)). intros a b. now apply scale_ltb.
  - field. lra.
Qed.

(** C9: with the frame dimensions known and a grid of at least one row and
    one column, the cells of the heatmap before normalisation sum to the
    number of boxes (each box adds one to one cell, its cell index clamped to
    the last row and column); when there are boxes the returned heatmap is
    that grid divided by its positive maximum, and its maximum is 1; when
    there are none the returned grid is all zero. *)
Theorem heatmap_counts_then_normalised (self : analyzer) (boxes : list box)
    (w h gh gw : Z) :
  frame_width self = Some w -> w <> 0%Z ->
  frame_height self = Some h -> h <> 0%Z ->
  grid_size self = (gh, gw) -> (0 < gh)%Z -> (0 < gw)%Z ->
  exists counts heatmap,
    heatmap_counts self boxes = Py.Ok counts
    /\ grid_sum counts == inject_Z (Z.of_nat (length boxes))
    /\ generate_density_heatmap self boxes = Py.Ok heatmap
    /\ (boxes <> [] ->
        exists top,
          np_max counts = Py.Ok top /\ 0 < top
          /\ heatmap = map (map (fun c => c / top)) counts
          /\ exists m, np_max heatmap = Py.Ok m /\ m == 1)
    /\ (boxes = [] ->
        heatmap = replicate (Z.to_nat gh) (replicate (Z.to_nat gw) 0)).
Proof.
  intros Hw Hw0 Hh Hh0 Hgrid Hgh Hgw.
  unfold heatmap_counts, generate_density_heatmap.
  rewrite Hgrid, Hw, Hh. cbn [Py.truthy Py.number].
  destruct (Z.eqb_spec w 0) as [|_]; [contradiction |].
  destruct (Z.eqb_spec h 0) as [|_]; [contradiction |].
  cbn [negb orb]. unfold np_zeros, Py.truediv.
  destruct (Z.ltb_spec gh 0) as [|_]; [lia |].
  destruct (Z.ltb_spec gw 0) as [|_]; [lia |].
  destruct (Z.eqb_spec gw 0) as [|_]; [lia |].
  destruct (Z.eqb_spec gh 0) as [|_]; [lia |].
  cbn [orb]. unfold mbind, result_mbind. cbn [Py.bind].
  set (zeros := replicate (Z.to_nat gh) (replicate (Z.to_nat gw) 0)).
  set (cw := inject_Z w / inject_Z gw). set (ch := inject_Z h / inject_Z gh).
  set (counts := fold_left (count_box gh gw cw ch) boxes zeros).
  assert (Hzeros : rows_of (Z.to_nat gw) zeros)
    by (apply Forall_replicate, length_replicate).
  destruct (count_boxes_sum gh gw cw ch boxes zeros Hgh Hgw Hzeros
              (length_replicate _ _)) as [Hsum _].
  fold counts in Hsum. unfold zeros at 1 in Hsum.
  rewrite grid_sum_zeros, Qplus_0_l in Hsum.
  destruct boxes as [|b boxes].
  - exists counts, zeros. repeat split; trivial. intros Hne. now destruct Hne.
  - assert (Hpos : 0 < grid_sum counts).
    { rewrite Hsum. unfold Qlt. simpl. lia. }
    destruct (normalised_max counts Hpos) as (top & Htop & Htop0 & Hmax).
    exists counts, (map (map (fun c => c / top)) counts).
    split; [reflexivity |]. split; [exact Hsum |]. split.
    + fold counts. rewrite Htop. cbn [Py.bind].
      apply PyFacts.Qltb_lt in Htop0. now rewrite Htop0.
    + split; [| discriminate]. intros _. exists top. repeat split; trivial.
Qed.

(** Before the frame size is known the heatmap is the zero grid, boxes or
    not. *)
Lemma heatmap_unknown_frame (self : analyzer) (boxes : list box) :
  frame_width self = None \/ frame_height self = None ->
  generate_density_heatmap self boxes
  = np_zeros (grid_size self).1 (grid_size self).2.
Proof.
  intros H. unfold generate_density_heatmap.
  destruct (grid_size self) as [gh gw].
  destruct H as [-> | ->]; simpl; [reflexivity |].
  now rewrite orb_true_r.
Qed.

(** *** The computable square root meets the contract *)

Lemma sqrt_milli_nonneg (x : Q) : 0 <= sqrt_milli x.
Proof.
  unfold sqrt_milli. apply Qle_shift_div_l; [reflexivity |].
  pose proof (Z.sqrt_up_nonneg (Qceiling (x * 1000000))).
  unfold Qle; simpl; lia.
Qed.

Lemma sqrt_milli_pos (x : Q) : 0 < x -> 0 < sqrt_milli x.
Proof.
  intros Hx. unfold sqrt_milli. apply Qlt_shift_div_l; [reflexivity |].
  assert (Hc : (0 < Qceiling (x * 1000000))%Z).
  { pose proof (Qle_ceiling (x * 1000000)) as Hle.
    assert (Hlt : 0 < inject_Z (Qceiling (x * 1000000))) by lra.
    unfold Qlt in Hlt; simpl in Hlt; lia. }
  apply Z.sqrt_up_pos in Hc. unfold Qlt; simpl; lia.
Qed.

Lemma framed_sized : frame_sized framed.
Proof. split; intros d Hd; injection Hd as <-; lia. Qed.

Lemma density_score_in_unit_interval_witness :
  frame_sized framed
  /\ (exists d, calculate_density_score sqrt_milli framed test_boxes = Py.Ok d
                /\ 0 <= d <= 1)
  /\ calculate_density_score sqrt_milli framed [] = Py.Ok 0.
Proof.
  split; [exact framed_sized |].
  split.
  - exact (proj1 (density_score_in_unit_interval sqrt_milli sqrt_milli_nonneg
                    sqrt_milli_pos framed test_boxes framed_sized)).
  - exact (proj2 (density_score_in_unit_interval sqrt_milli sqrt_milli_nonneg
                    sqrt_milli_pos framed [] framed_sized)
                 (or_introl eq_refl)).
Defined.

(** The three test boxes under the nearest-neighbour method: each centre is
    111.804 away from its neighbour, the diagonal is 800. *)
Example spatial_density_test_boxes :
  exists d, calculate_density_score sqrt_milli framed_spatial test_boxes
            = Py.Ok d
            /\ d == 1 - (111804 # 1000) / 800.
Proof. eexists. split; [vm_compute; reflexivity | reflexivity]. Qed.

(** Two overlapping boxes and one outside an 8 x 6 frame: 13 of 48 pixels. *)
Example bbox_density_small_frame :
  calculate_density_score sqrt_milli (update_frame_dimensions init 8 6)
    [Box 1 1 3 4; Box 2 2 5 5; Box 100 100 200 200]
  = Py.Ok (13 # 48).
Proof. vm_compute. reflexivity. Qed.

Lemma heatmap_counts_then_normalised_witness :
  (frame_width framed = Some 640%Z /\ frame_height framed = Some 480%Z
   /\ grid_size framed = (10, 10)%Z)
  /\ exists counts heatmap,
       heatmap_counts framed test_boxes = Py.Ok counts
       /\ grid_sum counts == 3
       /\ generate_density_heatmap framed test_boxes = Py.Ok heatmap
       /\ exists m, np_max heatmap = Py.Ok m /\ m == 1.
Proof.
  split; [repeat split |].
  assert (Hw : 640%Z <> 0%Z) by discriminate.
  assert (Hh : 480%Z <> 0%Z) by discriminate.
  destruct (heatmap_counts_then_normalised framed test_boxes 640 480 10 10
              eq_refl Hw eq_refl Hh eq_refl eq_refl eq_refl)
    as (counts & heatmap & Hc & Hsum & Hg & Hne & _).
  exists counts, heatmap.
  split; [exact Hc |]. split; [exact Hsum |]. split; [exact Hg |].
  destruct Hne as (top & _ & _ & _ & Hmax); [discriminate | exact Hmax].
Defined.

(** A negative frame size makes [np.zeros] raise under the coverage method. *)
Example bbox_negative_frame_raises :
  calculate_density_score sqrt_milli (update_frame_dimensions init (-8) 6)
    test_boxes
  = Py.Raise Py.ValueError.
Proof. reflexivity. Qed.

(** Three boxes whose centres fall in the first cell, one of them left of the
    frame, and one box beyond the far corner: the counts are 3 and 1 and the
    normalised cells are 1 and 1/3. *)
Example heatmap_clamped_boxes :
  exists counts heatmap,
    heatmap_counts framed
      [Box 0 0 10 10; Box 2 2 20 20; Box 600 400 900 700;
       Box (-50) (-50) (-10) (-10)] = Py.Ok counts
    /\ generate_density_heatmap framed
         [Box 0 0 10 10; Box 2 2 20 20; Box 600 400 900 700;
          Box (-50) (-50) (-10) (-10)] = Py.Ok heatmap
    /\ counts !! 0%nat ≫= (.!! 0%nat) = Some 3
    /\ counts !! 9%nat ≫= (.!! 9%nat) = Some 1
    /\ heatmap !! 0%nat ≫= (.!! 0%nat) = Some (3 # 3)
    /\ heatmap !! 9%nat ≫= (.!! 9%nat) = Some (1 # 3).
Proof. do 2 eexists. vm_compute. repeat split. Qed.

End DensityProofs.

(** ** The smoother on binary64 numbers *)

Module Binary64Proofs.

Import Binary64.
Local Open Scope float_scope.

(** The numbers of C4 in Python's own arithmetic: 0.3 * 20 rounds to 6.0 and,
    by the tie going to the even neighbour, (1 - 0.3) * 10 rounds to 7.0, so
    the second smoothed count is 13.0 exactly. *)
Lemma ema_example_binary64 (d1 d2 : float) :
  smoothed_count
    (_update_smoothed_values default_smoothing_factor (Smoothed 0 0) 10 d1)
  = 10
  /\ smoothed_count
       (_update_smoothed_values default_smoothing_factor
          (_update_smoothed_values default_smoothing_factor (Smoothed 0 0)
             10 d1) 20 d2)
     = 13.
Proof. split; vm_compute; reflexivity. Qed.

End Binary64Proofs.

(** ** AlertEngine over a run of frames *)

Module AlertRunProofs.

Import AlertManager.
Local Open Scope Q_scope.

(** What one call of [check_alerts] does to the cooldown state: the cooldown
    length stays; an entry of [last_alert_time] stays, or becomes the current
    time when the cooldown of its kind had elapsed; a reported alert stamps
    the entry of the level it reports. *)
Lemma check_alerts_effect (self : manager) (now : Q) (ok : bool)
    (results : analysis_results) :
  alert_cooldown (check_alerts self now ok results).2 = alert_cooldown self
  /\ (forall kind,
        last_alert_time (check_alerts self now ok results).2 !! kind
        = last_alert_time self !! kind
        \/ (last_alert_time (check_alerts self now ok results).2 !! kind
            = Some now
            /\ cooldown_elapsed self kind now))
  /\ (alert_triggered (check_alerts self now ok results).1 = true ->
      last_alert_time (check_alerts self now ok results).2
        !! alert_level (check_alerts self now ok results).1 = Some now
      /\ cooldown_elapsed self
           (alert_level (check_alerts self now ok results).1) now).
Proof.
  unfold check_alerts, _check_threshold_alerts, _check_anomaly_alerts.
  set (level := default "low" (crowd_level results)).
  set (flags := default [] (anomalies results)).
  set (detected := negb (bool_decide (_ = []))).
  destruct (bool_decide (level ∈ ["high"; "critical"])) eqn:Hlevel;
    [destruct (_check_alert_cooldown self level now) eqn:Hcool |].
  - (* the threshold candidate fires *)
    apply bool_decide_eq_true in Hlevel.
    assert (Hne : level <> "anomaly").
    { intros Heq. rewrite Heq in Hlevel.
      repeat (apply elem_of_cons in Hlevel as [Hlevel|Hlevel];
              [discriminate |]).
      inversion Hlevel. }
    apply AlertProofs.cooldown_check in Hcool.
    assert (Hsame : _check_alert_cooldown
                      (set_last_alert_time self
                         (<[level := now]> (last_alert_time self)))
                      "anomaly" now
                    = _check_alert_cooldown self "anomaly" now).
    { unfold _check_alert_cooldown. simpl.
      now rewrite lookup_insert_ne by exact Hne. }
    rewrite Hsame.
    destruct detected;
      [destruct (_check_alert_cooldown self "anomaly" now) eqn:Hacool |];
      simpl; (split; [reflexivity |]); split.
    + apply AlertProofs.cooldown_check in Hacool.
      intros kind. rewrite !lookup_insert.
      repeat case_decide; subst; auto.
    + intros _. split; [| exact Hcool].
      rewrite lookup_insert_ne by congruence. apply lookup_insert_eq.
    + intros kind. rewrite lookup_insert. case_decide; subst; auto.
    + intros _. split; [apply lookup_insert_eq | exact Hcool].
    + intros kind. rewrite lookup_insert. case_decide; subst; auto.
    + intros _. split; [apply lookup_insert_eq | exact Hcool].
  - (* the threshold candidate is cooling down *)
    destruct detected;
      [destruct (_check_alert_cooldown self "anomaly" now) eqn:Hacool |];
      simpl; (split; [reflexivity |]); split; auto; try discriminate.
    + apply AlertProofs.cooldown_check in Hacool.
      intros kind. rewrite lookup_insert.
      destruct (decide ("anomaly" = kind)) as [<-|]; auto.
    + apply AlertProofs.cooldown_check in Hacool.
      intros _. split; [apply lookup_insert_eq | exact Hacool].
  - (* the level is not high or critical *)
    destruct detected;
      [destruct (_check_alert_cooldown self "anomaly" now) eqn:Hacool |];
      simpl; (split; [reflexivity |]); split; auto; try discriminate.
    + apply AlertProofs.cooldown_check in Hacool.
      intros kind. rewrite lookup_insert.
      destruct (decide ("anomaly" = kind)) as [<-|]; auto.
    + apply AlertProofs.cooldown_check in Hacool.
      intros _. split; [apply lookup_insert_eq | exact Hacool].
Qed.

Lemma run_cons (self : manager) (c : cycle) (cycles : list cycle) :
  check_alerts_run self (c :: cycles)
  = ((check_alerts self (cycle_time c) (cycle_smtp_ok c)
        (cycle_results c)).1
     :: (check_alerts_run
           (check_alerts self (cycle_time c) (cycle_smtp_ok c)
              (cycle_results c)).2 cycles).1,
     (check_alerts_run
        (check_alerts self (cycle_time c) (cycle_smtp_ok c)
           (cycle_results c)).2 cycles).2).
Proof.
  simpl. destruct (check_alerts _ _ _ _) as [info s1]. simpl.
  destruct (check_alerts_run s1 cycles) as [infos s2]. reflexivity.
Qed.

(** Once the entry of a kind is at least [t], every later alert of that kind
    comes at least a cooldown after [t]. *)
Lemma alerts_after_stamp (cycles : list cycle) (self : manager)
    (kind : string) (t last : Q) (j : nat) (cj : cycle) (aj : alert_info) :
  0 <= alert_cooldown self ->
  last_alert_time self !! kind = Some last -> t <= last ->
  cycles !! j = Some cj ->
  (check_alerts_run self cycles).1 !! j = Some aj ->
  alert_triggered aj = true -> alert_level aj = kind ->
  alert_cooldown self <= cycle_time cj - t.
Proof.
  revert self last j.
  induction cycles as [|c cycles IH]; intros self last j Hcd Hlast Hle Hcj Haj
    Htrig Hkind; [discriminate |].
  rewrite run_cons in Haj.
  destruct (check_alerts_effect self (cycle_time c) (cycle_smtp_ok c)
              (cycle_results c)) as (Hcd' & Hkeys & Hrep).
  destruct j as [|j]; simpl in Hcj, Haj.
  - injection Hcj as <-. injection Haj as <-.
    destruct (Hrep Htrig) as [_ Hel]. rewrite Hkind in Hel.
    unfold cooldown_elapsed in Hel. rewrite Hlast in Hel. lra.
  - rewrite <- Hcd'.
    destruct (Hkeys kind) as [Hsame | [Hnow Hel]].
    + apply (IH _ last j); try assumption; [now rewrite Hcd' | congruence].
    + apply (IH _ (cycle_time c) j); try assumption; [now rewrite Hcd' |].
      unfold cooldown_elapsed in Hel. rewrite Hlast in Hel. lra.
Qed.

(** X1: over any run of [check_alerts] calls with a cooldown that is not
    negative, two reported alerts of the same level are at least the cooldown
    apart. *)
Theorem alerts_of_one_level_are_spaced (self : manager) (cycles : list cycle)
    (i j : nat) (ci cj : cycle) (ai aj : alert_info) :
  0 <= alert_cooldown self ->
  (i < j)%nat ->
  cycles !! i = Some ci -> cycles !! j = Some cj ->
  (check_alerts_run self cycles).1 !! i = Some ai ->
  (check_alerts_run self cycles).1 !! j = Some aj ->
  alert_triggered ai = true -> alert_triggered aj = true ->
  alert_level ai = alert_level aj ->
  alert_cooldown self <= cycle_time cj - cycle_time ci.
Proof.
  revert self i j.
  induction cycles as [|c cycles IH];
    intros self i j Hcd Hij Hci Hcj Hai Haj Hti Htj Hlev; [discriminate |].
  rewrite run_cons in Hai, Haj.
  destruct (check_alerts_effect self (cycle_time c) (cycle_smtp_ok c)
              (cycle_results c)) as (Hcd' & _ & Hrep).
  destruct j as [|j]; [lia |]. simpl in Hcj, Haj.
  destruct i as [|i]; simpl in Hci, Hai.
  - injection Hci as <-. injection Hai as <-.
    destruct (Hrep Hti) as [Hstamp _]. rewrite <- Hcd'.
    apply (alerts_after_stamp cycles _ (alert_level aj) (cycle_time c)
             (cycle_time c) j cj aj); try assumption;
      [now rewrite Hcd' | congruence | lra | reflexivity].
  - rewrite <- Hcd'.
    apply (IH _ i j); try assumption; [now rewrite Hcd' | lia].
Qed.

(** The run of [test_alert_cooldown] continued past the cooldown: alerts at
    1000 and 1060, none at 1030. *)
Lemma alerts_of_one_level_are_spaced_witness :
  (0 <= alert_cooldown init
   /\ (check_alerts_run init
         [Cycle 1000 true (create_test_analysis 75 "high");
          Cycle 1030 true (create_test_analysis 75 "high");
          Cycle 1060 true (create_test_analysis 75 "high")]).1
      = [AlertInfo true "high" "threshold"
           "High crowd density detected: 75.0 people" ["console_output"];
         AlertInfo false "none" "none" "" [];
         AlertInfo true "high" "threshold"
           "High crowd density detected: 75.0 people" ["console_output"]])
  /\ alert_cooldown init <= 1060 - 1000.
Proof.
  assert (Hcd : 0 <= alert_cooldown init) by discriminate.
  split; [split; [exact Hcd | vm_compute; reflexivity] |].
  exact (alerts_of_one_level_are_spaced init
           [Cycle 1000 true (create_test_analysis 75 "high");
            Cycle 1030 true (create_test_analysis 75 "high");
            Cycle 1060 true (create_test_analysis 75 "high")]
           0 2
           (Cycle 1000 true (create_test_analysis 75 "high"))
           (Cycle 1060 true (create_test_analysis 75 "high"))
           (AlertInfo true "high" "threshold"
              "High crowd density detected: 75.0 people" ["console_output"])
           (AlertInfo true "high" "threshold"
              "High crowd density detected: 75.0 people" ["console_output"])
           Hcd (Nat.lt_0_succ 1) eq_refl eq_refl eq_refl eq_refl
           eq_refl eq_refl eq_refl).
Defined.

(** X2: the outcome of the mail transport is recorded in [actions_taken] and
    nowhere else: the decision and the new state are the same. *)
Theorem alert_decision_ignores_mail_outcome (self : manager) (now : Q)
    (ok1 ok2 : bool) (results : analysis_results) :
  (check_alerts self now ok1 results).2 = (check_alerts self now ok2 results).2
  /\ alert_triggered (check_alerts self now ok1 results).1
     = alert_triggered (check_alerts self now ok2 results).1
  /\ alert_level (check_alerts self now ok1 results).1
     = alert_level (check_alerts self now ok2 results).1
  /\ alert_type (check_alerts self now ok1 results).1
     = alert_type (check_alerts self now ok2 results).1
  /\ message (check_alerts self now ok1 results).1
     = message (check_alerts self now ok2 results).1.
Proof.
  unfold check_alerts.
  destruct (_check_threshold_alerts _ _ _ _) as [threshold_alert s1].
  destruct (_check_anomaly_alerts _ _ _) as [anomaly_alert s2].
  destruct (alert_triggered threshold_alert || alert_triggered anomaly_alert);
    simpl; repeat split.
Qed.

(** X3: a reported alert lists the console when console output is on, and lists
    a failed mail as 'email_failed'; the mail failing does not keep the console
    entry out. *)
Theorem failed_mail_is_recorded (self : manager) (now : Q)
    (results : analysis_results) :
  alert_triggered (check_alerts self now false results).1 = true ->
  console_output self = true -> email_enabled self = true ->
  "console_output" ∈ actions_taken (check_alerts self now false results).1
  /\ "email_failed" ∈ actions_taken (check_alerts self now false results).1
  /\ "email_sent" ∉ actions_taken (check_alerts self now false results).1.
Proof.
  unfold check_alerts.
  destruct (_check_threshold_alerts _ _ _ _) as [threshold_alert s1] eqn:Ht.
  destruct (_check_anomaly_alerts _ _ _) as [anomaly_alert s2] eqn:Ha.
  assert (Hflags : console_output s2 = console_output self
                   /\ email_enabled s2 = email_enabled self).
  { unfold _check_threshold_alerts in Ht. unfold _check_anomaly_alerts in Ha.
    repeat match type of Ht with
           | context [if ?b then _ else _] => destruct b
           end;
    repeat match type of Ha with
           | context [if ?b then _ else _] => destruct b
           end;
    injection Ht as _ <-; injection Ha as _ <-; split; reflexivity. }
  destruct Hflags as [Hc He].
  destruct (alert_triggered threshold_alert || alert_triggered anomaly_alert);
    simpl; [| discriminate].
  intros _ Hcon Hmail. unfold _execute_alert_actions, _send_email_alert.
  rewrite Hc, He, Hcon, Hmail.
  assert (Hsend : (if bool_decide (default "" (smtp_server s2) = "")
                      || bool_decide (recipients s2 = [])
                   then false else false) = false)
    by now destruct (_ || _).
  rewrite Hsend.
  destruct (sound_alerts s2); simpl; unfold not;
    rewrite ?elem_of_cons, ?elem_of_nil; intuition discriminate.
Qed.

Lemma failed_mail_is_recorded_witness :
  (alert_triggered (check_alerts mailing 100 false test_analysis).1 = true
   /\ console_output mailing = true /\ email_enabled mailing = true)
  /\ actions_taken (check_alerts mailing 100 false test_analysis).1
     = ["console_output"; "email_failed"]
  /\ "email_failed"
     ∈ actions_taken (check_alerts mailing 100 false test_analysis).1.
Proof.
  split; [repeat split |]. split; [reflexivity |].
  exact (proj1 (proj2 (failed_mail_is_recorded mailing 100 test_analysis
                         eq_refl eq_refl eq_refl))).
Defined.

(** X4: a cycle that reports nothing changes no cooldown timer: its alert dict
    is the 'none' one and [last_alert_time] is as before. *)
Theorem silent_cycle_keeps_timers (self : manager) (now : Q) (ok : bool)
    (results : analysis_results) :
  alert_triggered (check_alerts self now ok results).1 = false ->
  (check_alerts self now ok results).1 = AlertInfo false "none" "none" "" []
  /\ last_alert_time (check_alerts self now ok results).2
     = last_alert_time self
  /\ current_alert_level (check_alerts self now ok results).2 = "none".
Proof.
  unfold check_alerts, _check_threshold_alerts, _check_anomaly_alerts.
  destruct (bool_decide (_ ∈ _));
    [destruct (_check_alert_cooldown self _ now) |];
    match goal with
    | |- context [negb ?a && ?b] => destruct (negb a && b)
    end; simpl; intros H; try discriminate; repeat split.
Qed.

(** The low-level case of [test_threshold_alerts]. *)
Lemma silent_cycle_keeps_timers_witness :
  alert_triggered
    (check_alerts after_anomaly 100 true (create_test_analysis 10 "low")).1
  = false
  /\ last_alert_time
       (check_alerts after_anomaly 100 true (create_test_analysis 10 "low")).2
     = last_alert_time after_anomaly.
Proof.
  split; [reflexivity |].
  exact (proj1 (proj2 (silent_cycle_keeps_timers after_anomaly 100 true
                         (create_test_analysis 10 "low") eq_refl))).
Defined.

(** X5: when the threshold candidate does not qualify (the level is not high or
    critical, or its cooldown has not elapsed), a flagged anomaly whose cooldown
    has elapsed is reported with level and type 'anomaly', and only the
    'anomaly' entry is stamped. *)
Theorem anomaly_alone_is_reported (self : manager) (now : Q) (ok : bool)
    (results : analysis_results) :
  (default "low" (crowd_level results) ∉ ["high"; "critical"])
  \/ ~ cooldown_elapsed self (default "low" (crowd_level results)) now ->
  some_flag results ->
  cooldown_elapsed self "anomaly" now ->
  alert_triggered (check_alerts self now ok results).1 = true
  /\ alert_type (check_alerts self now ok results).1 = "anomaly"
  /\ alert_level (check_alerts self now ok results).1 = "anomaly"
  /\ last_alert_time (check_alerts self now ok results).2
     = <["anomaly" := now]> (last_alert_time self)
  /\ current_alert_level (check_alerts self now ok results).2 = "anomaly".
Proof.
  intros Hthr Hflag Hcool. unfold check_alerts.
  assert (Ht : _check_threshold_alerts self
                 (default 0 (smoothed_count results))
                 (default "low" (crowd_level results)) now
               = (AlertInfo false "none" "threshold" "" [], self)).
  { destruct Hthr as [Hlevel | Hcd].
    - unfold _check_threshold_alerts.
      now rewrite bool_decide_eq_false_2.
    - now apply AlertProofs.threshold_holds. }
  rewrite Ht.
  destruct (AlertProofs.anomaly_fires self _ now Hflag Hcool) as [msg ->].
  simpl. repeat split.
Qed.

(** [test_anomaly_alerts]: level 'medium' with anomalies flagged. *)
Lemma anomaly_alone_is_reported_witness :
  (("medium" ∉ ["high"; "critical"])
   /\ cooldown_elapsed init "anomaly" 100)
  /\ (check_alerts init 100 true flagged_analysis).1
     = AlertInfo true "anomaly" "anomaly"
         "Anomaly detected: count anomaly, sudden change" ["console_output"]
  /\ alert_type (check_alerts init 100 true flagged_analysis).1 = "anomaly".
Proof.
  assert (Hlevel : "medium" ∉ ["high"; "critical"]).
  { unfold not. rewrite ?elem_of_cons, ?elem_of_nil. intuition discriminate. }
  assert (Hflag : some_flag flagged_analysis)
    by (apply Exists_cons_hd; reflexivity).
  split; [split; [exact Hlevel | exact I] |].
  split; [reflexivity |].
  exact (proj1 (proj2 (anomaly_alone_is_reported init 100 true
                         flagged_analysis (or_introl Hlevel) Hflag I))).
Defined.

(** X6: after [reset_alert_state] an evaluation at level high or critical is
    reported whatever was stamped before. *)
Theorem reset_reopens_alerts (self : manager) (now : Q) (ok : bool)
    (results : analysis_results) (level : string) :
  crowd_level results = Some level ->
  level = "high" \/ level = "critical" ->
  alert_triggered (check_alerts (reset_alert_state self) now ok results).1
  = true
  /\ alert_level (check_alerts (reset_alert_state self) now ok results).1
     = level
  /\ last_alert_time (check_alerts (reset_alert_state self) now ok results).2
       !! level = Some now.
Proof.
  intros Hres Hlevel. unfold check_alerts. rewrite Hres. simpl default.
  destruct (AlertProofs.threshold_fires (reset_alert_state self)
              (default 0 (smoothed_count results)) level now Hlevel)
    as [msg ->]; [exact I |].
  assert (Hne : level <> "anomaly") by now apply AlertProofs.level_not_anomaly.
  unfold _check_anomaly_alerts.
  match goal with
  | |- context [negb ?a && ?b] => destruct (negb a && b)
  end; simpl; repeat split.
  - rewrite lookup_insert_ne by congruence. apply lookup_insert_eq.
  - apply lookup_insert_eq.
Qed.

Lemma reset_reopens_alerts_witness :
  crowd_level test_analysis = Some "high"
  /\ alert_triggered
       (check_alerts (check_alerts init 100 true test_analysis).2 101 true
          test_analysis).1 = false
  /\ alert_triggered
       (check_alerts
          (reset_alert_state (check_alerts init 100 true test_analysis).2)
          101 true test_analysis).1 = true.
Proof.
  split; [reflexivity |]. split; [reflexivity |].
  exact (proj1 (reset_reopens_alerts
                  (check_alerts init 100 true test_analysis).2 101 true
                  test_analysis "high" eq_refl (or_introl eq_refl))).
Defined.

(** *** Alert images *)

Lemma save_image_failed (self : imaging) (now : Q) (stamp : string)
    (info : option alert_info) :
  save_alert_image self now stamp false info = self.
Proof.
  unfold save_alert_image.
  destruct (negb _); [reflexivity |]. now destruct (Py.Qltb _ _).
Qed.

Lemma save_image_done (self : imaging) (now : Q) (stamp : string)
    (info : option alert_info) :
  save_images self = true ->
  image_interval self <= now - last_image_save self ->
  save_alert_image self now stamp true info
  = {| save_images := true;
       image_interval := image_interval self;
       last_image_save := now;
       images := images self
                 ++ ["alert_" +:+ from_option alert_level "unknown" info
                       +:+ "_" +:+ stamp +:+ ".jpg"] |}.
Proof.
  intros Hon Hdue. unfold save_alert_image. rewrite Hon. simpl negb.
  apply PyFacts.Qltb_ge in Hdue. now rewrite Hdue.
Qed.

Lemma save_image_not_due (self : imaging) (now : Q) (stamp : string)
    (ok : bool) (info : option alert_info) :
  now - last_image_save self < image_interval self ->
  save_alert_image self now stamp ok info = self.
Proof.
  intros Hnear. unfold save_alert_image. apply PyFacts.Qltb_lt in Hnear.
  rewrite Hnear. now destruct (negb _).
Qed.

(** X7: an image save that fails leaves the imaging state as it was, so a later
    call is still due and saves; a save that succeeds stamps the time, and a
    call less than [image_interval] after it does nothing. *)
Theorem image_interval_counts_saved_images (self : imaging) (t1 t2 : Q)
    (stamp1 stamp2 : string) (ok2 : bool) (info1 info2 : option alert_info) :
  save_images self = true ->
  image_interval self <= t1 - last_image_save self ->
  (save_alert_image self t1 stamp1 false info1 = self
   /\ (t1 <= t2 ->
       images (save_alert_image
                 (save_alert_image self t1 stamp1 false info1)
                 t2 stamp2 true info2)
       = images self
         ++ ["alert_" +:+ from_option alert_level "unknown" info2 +:+ "_"
               +:+ stamp2 +:+ ".jpg"]))
  /\ (images (save_alert_image self t1 stamp1 true info1)
      = images self
        ++ ["alert_" +:+ from_option alert_level "unknown" info1 +:+ "_"
              +:+ stamp1 +:+ ".jpg"]
      /\ last_image_save (save_alert_image self t1 stamp1 true info1) = t1
      /\ (t2 - t1 < image_interval self ->
          save_alert_image (save_alert_image self t1 stamp1 true info1)
            t2 stamp2 ok2 info2
          = save_alert_image self t1 stamp1 true info1)).
Proof.
  intros Hon Hdue. rewrite save_image_failed.
  split; [split; [reflexivity |] |].
  - intros Hle. rewrite save_image_done; [reflexivity | exact Hon | lra].
  - rewrite (save_image_done self t1 stamp1 info1 Hon Hdue).
    split; [reflexivity |]. split; [reflexivity |].
    intros Hnear. now apply save_image_not_due.
Qed.

Lemma image_interval_counts_saved_images_witness :
  (save_images imaging_on = true
   /\ image_interval imaging_on <= 100 - last_image_save imaging_on)
  /\ images
       (save_alert_image
          (save_alert_image imaging_on 100 "20240101_000140" false None)
          101 "20240101_000141" true
          (Some (AlertInfo true "high" "threshold" "" [])))
     = ["alert_high_20240101_000141.jpg"].
Proof.
  assert (Hdue : image_interval imaging_on <= 100 - last_image_save imaging_on)
    by discriminate.
  assert (Hle : 100 <= 101) by discriminate.
  split; [split; [reflexivity | exact Hdue] |].
  exact (proj2 (proj1 (image_interval_counts_saved_images imaging_on 100 101
                         "20240101_000140" "20240101_000141" true None
                         (Some (AlertInfo true "high" "threshold" "" []))
                         eq_refl Hdue)) Hle).
Defined.

(** *** Logger over a run of calls *)

Section LoggerRun.

Variables strftime isoformat : Q -> string.

(** X8: [last_log_time] is stamped before the write is tried: a due call whose
    write fails appends nothing, and a call less than [log_interval] later is
    skipped as well. *)
Theorem failed_log_write_still_stamps (self : manager) (t1 t2 : Q)
    (io_ok : bool) (r1 r2 : analysis_results) (i1 i2 : option alert_info) :
  log_enabled self = true ->
  log_interval self <= t1 - last_log_time self ->
  t2 - t1 < log_interval self ->
  log_file (log_data strftime isoformat self t1 false r1 i1) = log_file self
  /\ last_log_time (log_data strftime isoformat self t1 false r1 i1) = t1
  /\ log_data strftime isoformat
       (log_data strftime isoformat self t1 false r1 i1) t2 io_ok r2 i2
     = log_data strftime isoformat self t1 false r1 i1.
Proof.
  intros Hen Hdue Hnear.
  assert (Hs1 : log_data strftime isoformat self t1 false r1 i1
                = set_last_log_time self t1).
  { unfold log_data. rewrite Hen. simpl negb.
    apply PyFacts.Qltb_ge in Hdue. rewrite Hdue. simpl.
    now repeat destruct (String.eqb _ _). }
  rewrite Hs1. split; [reflexivity |]. split; [reflexivity |].
  now apply AlertProofs.log_data_not_due.
Qed.

(** One call of [log_data] either changes nothing, or it was due, stamps its
    time and appends at most one record, which carries that time. *)
Lemma log_data_step (self : manager) (now : Q) (io_ok : bool)
    (results : analysis_results) (info : option alert_info) :
  log_data strftime isoformat self now io_ok results info = self
  \/ (log_interval self <= now - last_log_time self
      /\ last_log_time (log_data strftime isoformat self now io_ok results info)
         = now
      /\ log_interval (log_data strftime isoformat self now io_ok results info)
         = log_interval self
      /\ (log_file (log_data strftime isoformat self now io_ok results info)
          = log_file self
          \/ exists record,
               log_file
                 (log_data strftime isoformat self now io_ok results info)
               = log_file self ++ [record]
               /\ record_time record = now)).
Proof.
  unfold log_data. destruct (negb _); [now left |].
  destruct (PyFacts.Qltb_reflect (now - last_log_time self)
              (log_interval self)) as [|Hdue]; [now left |].
  right. apply Qnot_lt_le in Hdue. split; [exact Hdue |].
  unfold _log_csv, _log_json. simpl log_format.
  destruct (String.eqb _ "csv"); [| destruct (String.eqb _ "json")];
    destruct io_ok; simpl; repeat split; eauto.
Qed.

(** X9: two records appended during a run of [log_data] calls carry timestamps
    at least [log_interval] apart, provided the interval is not negative. *)
Theorem log_records_are_spaced (self : manager) (calls : list log_call)
    (i j : nat) (ri rj : log_record) :
  0 <= log_interval self ->
  (i < j)%nat ->
  drop (length (log_file self))
    (log_file (log_data_run strftime isoformat self calls)) !! i = Some ri ->
  drop (length (log_file self))
    (log_file (log_data_run strftime isoformat self calls)) !! j = Some rj ->
  log_interval self <= record_time rj - record_time ri.
Proof.
  intros Hint.
  set (base := log_file self).
  assert (Hinv : exists new,
             log_file self = base ++ new
             /\ Forall (fun r => record_time r <= last_log_time self) new
             /\ (forall i j ri rj, (i < j)%nat ->
                   new !! i = Some ri -> new !! j = Some rj ->
                   log_interval self <= record_time rj - record_time ri)).
  { exists []. split; [now rewrite app_nil_r |]. split; [constructor |].
    intros ? ? ? ? _ H. discriminate H. }
  assert (Hgoal : exists new,
             log_file (log_data_run strftime isoformat self calls)
             = base ++ new
             /\ (forall i j ri rj, (i < j)%nat ->
                   new !! i = Some ri -> new !! j = Some rj ->
                   log_interval self <= record_time rj - record_time ri)).
  { unfold log_data_run. clearbody base.
    revert self Hint Hinv.
    induction calls as [|c calls IH]; intros self Hint Hinv.
    - destruct Hinv as (new & Hfile & _ & Hsp). exists new. now split.
    - simpl.
      destruct (log_data_step self (call_time c) (call_io_ok c)
                  (call_results c) (call_info c))
        as [-> | (Hdue & Hstamp & Hkeep & Hfile)]; [now apply IH |].
      destruct Hinv as (new & Hbase & Hold & Hsp).
      rewrite <- Hkeep. apply IH; [now rewrite Hkeep |].
      rewrite Hstamp, Hkeep.
      assert (Hold' : Forall (fun r => record_time r <= call_time c) new).
      { eapply Forall_impl; [exact Hold |]. simpl. intros r Hr. lra. }
      destruct Hfile as [-> | (record & -> & Htime)].
      + exists new. split; [exact Hbase |]. split; [exact Hold' | exact Hsp].
      + exists (new ++ [record]).
        split; [rewrite Hbase; now rewrite app_assoc |].
        split; [apply Forall_app; split;
                [exact Hold' |
                 constructor; [rewrite Htime; apply Qle_refl | constructor]] |].
        intros i0 j0 r0 r1 Hlt H0 H1.
        destruct (decide (j0 < length new)%nat) as [Hj|Hj].
        * rewrite lookup_app_l in H0, H1 by lia. now apply (Hsp i0 j0).
        * rewrite lookup_app_r in H1 by lia.
          destruct (j0 - length new)%nat eqn:Hk; [| discriminate].
          injection H1 as <-. rewrite Htime.
          rewrite lookup_app_l in H0 by lia.
          rewrite Forall_lookup in Hold. specialize (Hold _ _ H0). lra. }
  destruct Hgoal as (new & Hfile & Hsp). intros Hij Hi Hj.
  rewrite Hfile in Hi, Hj. unfold base in Hi, Hj.
  rewrite drop_app_length in Hi, Hj. now apply (Hsp i j).
Qed.

End LoggerRun.

Lemma failed_log_write_still_stamps_witness :
  (log_enabled init = true
   /\ log_interval init <= 1000 - last_log_time init
   /\ 1002 - 1000 < log_interval init)
  /\ log_file
       (log_data epoch_seconds epoch_seconds
          (log_data epoch_seconds epoch_seconds init 1000 false
             test_analysis None)
          1002 true test_analysis None) = [].
Proof.
  assert (H1 : log_interval init <= 1000 - last_log_time init)
    by discriminate.
  assert (H2 : 1002 - 1000 < log_interval init) by reflexivity.
  split; [repeat split; assumption |].
  destruct (failed_log_write_still_stamps epoch_seconds epoch_seconds init
              1000 1002 true test_analysis test_analysis None None
              eq_refl H1 H2) as (Hfile & _ & ->).
  exact Hfile.
Defined.

(** Calls at 1000, 1002 and 1006 on a fresh manager: records at 1000 and
    1006. *)
Lemma log_records_are_spaced_witness :
  0 <= log_interval init
  /\ exists ri rj,
       log_file
         (log_data_run epoch_seconds epoch_seconds init
            [LogCall 1000 true test_analysis None;
             LogCall 1002 true test_analysis None;
             LogCall 1006 true test_analysis None]) = [ri; rj]
       /\ record_time ri = 1000 /\ record_time rj = 1006
       /\ log_interval init <= record_time rj - record_time ri.
Proof.
  assert (Hint : 0 <= log_interval init) by discriminate.
  split; [exact Hint |].
  eexists. eexists. split; [vm_compute; reflexivity |].
  split; [reflexivity |]. split; [reflexivity |].
  apply (log_records_are_spaced epoch_seconds epoch_seconds init
           [LogCall 1000 true test_analysis None;
            LogCall 1002 true test_analysis None;
            LogCall 1006 true test_analysis None] 0 1);
    [exact Hint | apply Nat.lt_0_1 | reflexivity | reflexivity].
Defined.

End AlertRunProofs.


(** ** Smoother over a run of frames *)

Module SmootherRunProofs.

Import CrowdAnalyzer.
Local Open Scope Q_scope.

(** A weighted mean of two numbers of an interval stays in the interval. *)
Lemma blend_range (alpha x y lo hi : Q) :
  0 <= alpha <= 1 -> lo <= x <= hi -> lo <= y <= hi ->
  lo <= alpha * x + (1 - alpha) * y <= hi.
Proof.
  intros Ha Hx Hy. split; nra.
Qed.

(** One update brings, or keeps, both smoothed values inside the ranges of
    the raw inputs. *)
Lemma update_in_range (self : analyzer) (c : Z) (d lo hi dlo dhi : Q) :
  0 <= smoothing_factor self <= 1 ->
  smoothed_count self == 0
  \/ (lo <= smoothed_count self <= hi /\ dlo <= smoothed_density self <= dhi) ->
  lo <= inject_Z c <= hi -> dlo <= d <= dhi ->
  lo <= smoothed_count (_update_smoothed_values self c d) <= hi
  /\ dlo <= smoothed_density (_update_smoothed_values self c d) <= dhi.
Proof.
  intros Ha Hstate Hc Hd. unfold _update_smoothed_values.
  destruct (Qeq_bool (smoothed_count self) 0) eqn:E; simpl.
  - split; assumption.
  - destruct Hstate as [H0 | [Hsc Hsd]].
    + apply Qeq_bool_iff in H0. congruence.
    + split; apply blend_range; assumption.
Qed.

Lemma update_keeps_factor (self : analyzer) (c : Z) (d : Q) :
  smoothing_factor (_update_smoothed_values self c d) = smoothing_factor self.
Proof.
  unfold _update_smoothed_values. now destruct (Qeq_bool _ _).
Qed.

(** X10: with a smoothing factor between 0 and 1, after any non-empty run of
    frames on a fresh analyzer the smoothed count lies between the smallest and
    the largest raw count of the run, and the smoothed density between the
    smallest and the largest raw density. *)
Theorem smoothed_values_stay_in_raw_range (self : analyzer)
    (frames : list (Z * Q)) (lo hi dlo dhi : Q) :
  0 <= smoothing_factor self <= 1 ->
  smoothed_count self == 0 ->
  frames <> [] ->
  Forall (fun f => lo <= inject_Z (fst f) <= hi /\ dlo <= snd f <= dhi)
    frames ->
  lo <= smoothed_count (smooth_frames self frames) <= hi
  /\ dlo <= smoothed_density (smooth_frames self frames) <= dhi.
Proof.
  intros Ha H0 Hne Hall.
  assert (Hgen : forall fs s,
             0 <= smoothing_factor s <= 1 ->
             lo <= smoothed_count s <= hi /\ dlo <= smoothed_density s <= dhi ->
             Forall (fun f => lo <= inject_Z (fst f) <= hi
                              /\ dlo <= snd f <= dhi) fs ->
             lo <= smoothed_count (smooth_frames s fs) <= hi
             /\ dlo <= smoothed_density (smooth_frames s fs) <= dhi).
  { induction fs as [|f fs IH]; intros s Hs Hin Hfs; [exact Hin |].
    inversion Hfs as [|? ? [Hc Hd] Hrest]; subst.
    unfold smooth_frames. simpl. apply IH; [| | exact Hrest].
    - now rewrite update_keeps_factor.
    - apply update_in_range; auto. }
  destruct frames as [|f frames]; [contradiction |].
  inversion Hall as [|? ? [Hc Hd] Hrest]; subst.
  unfold smooth_frames. simpl. apply Hgen; [| | exact Hrest].
  - now rewrite update_keeps_factor.
  - apply update_in_range; auto.
Qed.

(** Raw counts 0, 12, 4 with densities between 1/10 and 1/2. *)
Lemma smoothed_values_stay_in_raw_range_witness :
  (0 <= smoothing_factor init <= 1 /\ smoothed_count init == 0)
  /\ 0 <= smoothed_count
            (smooth_frames init [(0%Z, 1 # 2); (12%Z, 1 # 10); (4%Z, 3 # 10)])
     <= 12
  /\ 1 # 10 <= smoothed_density
                 (smooth_frames init
                    [(0%Z, 1 # 2); (12%Z, 1 # 10); (4%Z, 3 # 10)])
     <= 1 # 2.
Proof.
  assert (Ha : 0 <= smoothing_factor init <= 1) by (split; discriminate).
  assert (H0 : smoothed_count init == 0) by reflexivity.
  split; [split; assumption |].
  apply (smoothed_values_stay_in_raw_range init
           [(0%Z, 1 # 2); (12%Z, 1 # 10); (4%Z, 3 # 10)] 0 12 (1 # 10) (1 # 2)
           Ha H0); [discriminate |].
  repeat constructor; discriminate.
Defined.

End SmootherRunProofs.

(** ** Heatmap: shape, range and order of the boxes *)

Module HeatmapProofs.

Import CrowdAnalyzer.
Local Open Scope Q_scope.

Lemma zeros_shape (h w : nat) :
  length (replicate h (replicate w 0)) = h
  /\ rows_of w (replicate h (replicate w 0))
  /\ Forall (Forall (fun c => 0 <= c)) (replicate h (replicate w 0)).
Proof.
  split; [apply length_replicate |]. split.
  - apply Forall_replicate, length_replicate.
  - apply Forall_replicate, Forall_replicate. lra.
Qed.

Lemma increment_nonneg (m : list (list Q)) (i j : Z) :
  Forall (Forall (fun c => 0 <= c)) m ->
  Forall (Forall (fun c => 0 <= c)) (increment m i j).
Proof.
  intros Hm. unfold increment. apply Forall_alter; [exact Hm |].
  intros row _ Hrow. apply Forall_alter; [exact Hrow |].
  intros c _ Hc. lra.
Qed.

Lemma count_boxes_shape (gh gw : Z) (cw ch : Q) (boxes : list box)
    (m : list (list Q)) :
  rows_of (Z.to_nat gw) m -> Forall (Forall (fun c => 0 <= c)) m ->
  rows_of (Z.to_nat gw) (fold_left (count_box gh gw cw ch) boxes m)
  /\ Forall (Forall (fun c => 0 <= c))
       (fold_left (count_box gh gw cw ch) boxes m)
  /\ length (fold_left (count_box gh gw cw ch) boxes m) = length m.
Proof.
  revert m. induction boxes as [|b boxes IH]; intros m Hrows Hpos;
    [now repeat split |].
  simpl.
  assert (Hstep : rows_of (Z.to_nat gw) (count_box gh gw cw ch m b)
                  /\ Forall (Forall (fun c => 0 <= c))
                       (count_box gh gw cw ch m b)
                  /\ length (count_box gh gw cw ch m b) = length m).
  { unfold count_box. destruct (center b) as [cx cy].
    split; [now apply DensityProofs.increment_shape |].
    split; [now apply increment_nonneg |].
    now apply DensityProofs.increment_shape with (w := Z.to_nat gw). }
  destruct Hstep as (H1 & H2 & H3).
  destruct (IH _ H1 H2) as (H4 & H5 & H6). repeat split; congruence.
Qed.

Lemma divide_cells (top : Q) (m : list (list Q)) (w : nat) :
  0 < top ->
  rows_of w m -> Forall (Forall (fun c => 0 <= c <= top)) m ->
  length (map (map (fun c => c / top)) m) = length m
  /\ rows_of w (map (map (fun c => c / top)) m)
  /\ Forall (Forall (fun c => 0 <= c <= 1)) (map (map (fun c => c / top)) m).
Proof.
  intros Htop Hrows Hcells. split; [apply length_map |]. split.
  - unfold rows_of in *. apply List.Forall_map.
    eapply Forall_impl; [exact Hrows |]. simpl. intros row <-.
    apply length_map.
  - apply List.Forall_map. eapply Forall_impl; [exact Hcells |].
    simpl. intros row Hrow. apply List.Forall_map.
    eapply Forall_impl; [exact Hrow |]. simpl. intros c [Hc0 Hc1]. split.
    + apply Qle_shift_div_l; [exact Htop | lra].
    + apply Qle_shift_div_r; [exact Htop | lra].
Qed.

(** Every cell of a grid is at most its maximum. *)
Lemma np_max_upper (m : list (list Q)) (top : Q) :
  np_max m = Py.Ok top -> Forall (Forall (fun c => c <= top)) m.
Proof.
  unfold np_max. intros Hmax.
  assert (Hall : Forall (fun c => c <= top) (concat m)).
  { destruct (concat m) as [|c cs]; [constructor |].
    injection Hmax as <-.
    destruct (DensityProofs.fold_max_upper cs c) as [H1 H2].
    now constructor. }
  clear Hmax. induction m as [|row m IH]; [constructor |].
  simpl in Hall. apply Forall_app in Hall as [Hrow Hrest].
  constructor; [exact Hrow | now apply IH].
Qed.

Lemma heatmap_grid (self : analyzer) (boxes : list box) (gh gw : Z) :
  grid_size self = (gh, gw) -> (0 < gh)%Z -> (0 < gw)%Z ->
  exists heatmap,
    generate_density_heatmap self boxes = Py.Ok heatmap
    /\ length heatmap = Z.to_nat gh
    /\ rows_of (Z.to_nat gw) heatmap
    /\ Forall (Forall (fun c => 0 <= c <= 1)) heatmap.
Proof.
  intros Hgrid Hgh Hgw.
  destruct (zeros_shape (Z.to_nat gh) (Z.to_nat gw)) as (Hzl & Hzr & Hzp).
  assert (Hzeros : exists heatmap,
             Py.Ok (replicate (Z.to_nat gh) (replicate (Z.to_nat gw) 0))
             = Py.Ok heatmap
             /\ length heatmap = Z.to_nat gh
             /\ rows_of (Z.to_nat gw) heatmap
             /\ Forall (Forall (fun c => 0 <= c <= 1)) heatmap).
  { eexists. split; [reflexivity |]. repeat split; try assumption.
    apply Forall_replicate, Forall_replicate. lra. }
  unfold generate_density_heatmap. rewrite Hgrid. unfold np_zeros.
  destruct (Z.ltb_spec gh 0) as [|_]; [lia |].
  destruct (Z.ltb_spec gw 0) as [|_]; [lia |]. cbn [orb].
  destruct (negb (Py.truthy (frame_width self))
            || negb (Py.truthy (frame_height self))) eqn:Hdims;
    [exact Hzeros |].
  unfold mbind, result_mbind. cbn [Py.bind].
  destruct boxes as [|b boxes]; [exact Hzeros |].
  apply orb_false_iff in Hdims as [Hw Hh].
  destruct (frame_width self) as [w|]; [| discriminate].
  destruct (frame_height self) as [h|]; [| discriminate].
  cbn [Py.number Py.bind]. unfold Py.truediv.
  destruct (Z.eqb_spec gw 0) as [|_]; [lia |].
  destruct (Z.eqb_spec gh 0) as [|_]; [lia |]. cbn [Py.bind].
  set (cw := inject_Z w / inject_Z gw). set (ch := inject_Z h / inject_Z gh).
  set (counts := fold_left (count_box gh gw cw ch) (b :: boxes) _).
  destruct (count_boxes_shape gh gw cw ch (b :: boxes) _ Hzr Hzp)
    as (Hrows & Hpos & Hlen).
  fold counts in Hrows, Hpos, Hlen. rewrite Hzl in Hlen.
  destruct (np_max counts) as [top|e] eqn:Hmax.
  - cbn [Py.bind]. pose proof (np_max_upper counts top Hmax) as Hupper.
    destruct (PyFacts.Qltb_reflect 0 top) as [Htop|Htop].
    + destruct (divide_cells top counts (Z.to_nat gw) Htop Hrows)
        as (H1 & H2 & H3).
      { rewrite Forall_lookup in *. intros i row Hi.
        specialize (Hpos i row Hi). specialize (Hupper i row Hi).
        rewrite Forall_lookup in *. intros j c Hj. split; eauto. }
      eexists. split; [reflexivity |]. repeat split; try assumption.
      congruence.
    + apply Qnot_lt_le in Htop.
      eexists. split; [reflexivity |]. repeat split; try assumption.
      rewrite Forall_lookup in *. intros i row Hi.
      specialize (Hpos i row Hi). specialize (Hupper i row Hi).
      rewrite Forall_lookup in *. intros j c Hj.
      specialize (Hpos j c Hj). specialize (Hupper j c Hj). lra.
  - exfalso. unfold np_max in Hmax.
    destruct counts as [|row counts']; [simpl in Hlen; lia |].
    inversion Hrows as [|? ? Hrow _]; subst.
    destruct row as [|c row]; [simpl in Hrow; lia |]. discriminate Hmax.
Qed.

(** X11: for a grid of at least one row and one column
    [generate_density_heatmap] returns, whatever the boxes and whether or not
    the frame size is known, a grid of [grid_size] rows and columns whose cells
    lie between 0 and 1. *)
Theorem heatmap_shape_and_range (self : analyzer) (boxes : list box)
    (gh gw : Z) :
  grid_size self = (gh, gw) -> (0 < gh)%Z -> (0 < gw)%Z ->
  exists heatmap,
    generate_density_heatmap self boxes = Py.Ok heatmap
    /\ length heatmap = Z.to_nat gh
    /\ rows_of (Z.to_nat gw) heatmap
    /\ Forall (Forall (fun c => 0 <= c <= 1)) heatmap.
Proof. apply heatmap_grid. Qed.

(** The default 10 by 10 grid and the three test boxes of a 640 by 480 frame. *)
Lemma heatmap_shape_and_range_witness :
  (grid_size framed = (10, 10)%Z /\ (0 < 10)%Z)
  /\ exists heatmap,
       generate_density_heatmap framed test_boxes = Py.Ok heatmap
       /\ length heatmap = Z.to_nat 10
       /\ rows_of (Z.to_nat 10) heatmap
       /\ Forall (Forall (fun c => 0 <= c <= 1)) heatmap.
Proof.
  assert (Hgrid : grid_size framed = (10, 10)%Z) by reflexivity.
  assert (Hpos : (0 < 10)%Z) by lia.
  split; [split; assumption |].
  exact (heatmap_shape_and_range framed test_boxes 10 10 Hgrid Hpos Hpos).
Defined.

End HeatmapProofs.

(** ** The per-frame analysis *)

Module AnalysisProofs.

Import CrowdAnalyzer.
Local Open Scope Q_scope.

(** *** HistoryStore *)

Lemma deque_append_length {A} (d : list A) (x : A) :
  (length d <= history_maxlen)%nat ->
  length (deque_append d x) = Nat.min (S (length d)) history_maxlen.
Proof.
  intros Hlen. unfold deque_append.
  destruct (Nat.leb_spec history_maxlen (length d)).
  - rewrite length_app, length_drop. cbn [length].
    unfold history_maxlen in *. lia.
  - rewrite length_app. cbn [length]. lia.
Qed.

Lemma deque_append_last {A} (d : list A) (x : A) :
  last (deque_append d x) = Some x.
Proof. unfold deque_append. destruct (_ <=? _)%nat; apply last_snoc. Qed.

Lemma update_smoothed_history (self : analyzer) (c : Z) (d : Q) :
  count_history (_update_smoothed_values self c d) = count_history self
  /\ density_history (_update_smoothed_values self c d) = density_history self
  /\ time_history (_update_smoothed_values self c d) = time_history self.
Proof.
  unfold _update_smoothed_values. now destruct (Qeq_bool _ _).
Qed.

Section Sqrt.

Variable sqrt : Q -> Q.

(** The histories after a call of [analyze_crowd] whose density computation
    went through: each one got its new sample. *)
Lemma analyze_crowd_history (self : analyzer) (dets : detections)
    (shape : option (Z * Z * Z)) (now : Q) :
  (exists e, analyze_crowd sqrt self dets shape now
             = (match shape with
                | Some (h, w, _) => update_frame_dimensions self w h
                | None => self
                end, Failed (Builtin e)))
  \/ exists d,
       count_history (analyze_crowd sqrt self dets shape now).1
       = deque_append (count_history self) (person_count dets)
       /\ density_history (analyze_crowd sqrt self dets shape now).1
          = deque_append (density_history self) d
       /\ time_history (analyze_crowd sqrt self dets shape now).1
          = deque_append (time_history self) now
       /\ forall a, (analyze_crowd sqrt self dets shape now).2 = Done a ->
                    a_density_score a = d.
Proof.
  unfold analyze_crowd.
  set (self1 := match shape with
                | Some (h, w, _) => update_frame_dimensions self w h
                | None => self
                end).
  assert (Hh : count_history self1 = count_history self
               /\ density_history self1 = density_history self
               /\ time_history self1 = time_history self).
  { unfold self1. destruct shape as [[[h w] c]|]; repeat split. }
  destruct Hh as (Hc & Hd & Ht).
  destruct (calculate_density_score sqrt self1 (boxes dets)) as [d|e];
    [right; exists d | left; now exists e].
  rewrite Hc, Hd, Ht.
  set (self2 := _update_smoothed_values _ _ _).
  assert (H2 : count_history self2
               = deque_append (count_history self) (person_count dets)
               /\ density_history self2
                  = deque_append (density_history self) d
               /\ time_history self2 = deque_append (time_history self) now).
  { unfold self2.
    destruct (update_smoothed_history
                (set_history self1
                   (deque_append (count_history self) (person_count dets))
                   (deque_append (density_history self) d)
                   (deque_append (time_history self) now))
                (person_count dets) d) as (-> & -> & ->).
    repeat split. }
  destruct H2 as (H2c & H2d & H2t).
  destruct (generate_density_heatmap self2 (boxes dets)) as [hm|e]; simpl.
  - destruct (calculate_trends sqrt self2) as [tr|e]; simpl.
    + repeat split; try assumption. intros a Ha. now injection Ha as <-.
    + repeat split; try assumption. discriminate.
  - repeat split; try assumption. discriminate.
Qed.

(** X12: whatever the frame, and whether or not the call raises, [analyze_crowd]
    keeps the three histories index-aligned and at most 100 long; after a call
    that returns, each history ends with the sample of this frame and is one
    longer than before, up to the bound. *)
Theorem histories_stay_aligned (self : analyzer) (dets : detections)
    (shape : option (Z * Z * Z)) (now : Q) :
  history_ok self ->
  history_ok (analyze_crowd sqrt self dets shape now).1
  /\ forall a,
       (analyze_crowd sqrt self dets shape now).2 = Done a ->
       length (count_history (analyze_crowd sqrt self dets shape now).1)
       = Nat.min (S (length (count_history self))) history_maxlen
       /\ last (count_history (analyze_crowd sqrt self dets shape now).1)
          = Some (person_count dets)
       /\ last (density_history (analyze_crowd sqrt self dets shape now).1)
          = Some (a_density_score a)
       /\ last (time_history (analyze_crowd sqrt self dets shape now).1)
          = Some now.
Proof.
  intros (Hd & Ht & Hmax).
  destruct (analyze_crowd_history self dets shape now)
    as [[e He] | (d & Hc' & Hd' & Ht' & Hres)].
  - rewrite He. simpl. split; [| discriminate].
    destruct shape as [[[h w] c]|]; repeat split; assumption.
  - split.
    + unfold history_ok. rewrite Hc', Hd', Ht'.
      rewrite !deque_append_length by lia. rewrite Hd, Ht.
      repeat split. apply Nat.le_min_r.
    + intros a Ha. rewrite Hc', Hd', Ht', (Hres a Ha).
      rewrite deque_append_length by lia. rewrite !deque_append_last.
      repeat split.
Qed.


(** *** The first frames *)

Lemma deque_append_short {A} (d : list A) (x : A) :
  (length d < history_maxlen)%nat -> deque_append d x = d ++ [x].
Proof.
  intros Hlen. unfold deque_append.
  destruct (Nat.leb_spec history_maxlen (length d)); [lia | reflexivity].
Qed.

Lemma warm_up (self : analyzer) (dets : detections)
    (shape : option (Z * Z * Z)) (now : Q) (a : analysis) :
  (analyze_crowd sqrt self dets shape now).2 = Done a ->
  ((length (count_history self) < 9)%nat ->
   a_trends a = Trends "stable" (Some 0) "stable" (Some 0))
  /\ ((length (count_history self) < 19)%nat ->
      a_anomalies a = Anomalies false false false).
Proof.
  unfold analyze_crowd.
  set (self1 := match shape with
                | Some (h, w, _) => update_frame_dimensions self w h
                | None => self
                end).
  assert (Hc : count_history self1 = count_history self).
  { unfold self1. now destruct shape as [[[h w] c]|]. }
  destruct (calculate_density_score sqrt self1 (boxes dets)) as [d|e];
    [| discriminate].
  set (self2 := _update_smoothed_values _ _ _).
  assert (Hc2 : count_history self2
                = deque_append (count_history self) (person_count dets)).
  { unfold self2.
    match goal with
    | |- context [_update_smoothed_values ?s ?c ?x] =>
        destruct (update_smoothed_history s c x) as (-> & _)
    end.
    simpl. now rewrite Hc. }
  destruct (generate_density_heatmap self2 (boxes dets)) as [hm|e];
    [| discriminate].
  destruct (calculate_trends sqrt self2) as [t|e] eqn:Htrends;
    [| discriminate].
  cbn [snd]. intros [= <-]. cbn [a_trends a_anomalies]. split; intros Hlen.
  - unfold calculate_trends in Htrends. rewrite Hc2 in Htrends.
    rewrite deque_append_short in Htrends
      by (unfold history_maxlen; lia).
    rewrite length_app in Htrends. cbn [length] in Htrends.
    destruct (Nat.ltb_spec (length (count_history self) + 1) 10);
      [| lia].
    now injection Htrends as <-.
  - unfold detect_anomalies. rewrite Hc2.
    rewrite deque_append_short by (unfold history_maxlen; lia).
    rewrite length_app. cbn [length].
    destruct (Nat.ltb_spec (length (count_history self) + 1) 20);
      [reflexivity | lia].
Qed.

(** X13: while the analyzer has seen fewer than 9 frames before the call, the
    analysis reports stable trends with rate 0; while it has seen fewer than 19,
    it reports no anomaly, whatever the count and the density. *)
Theorem first_frames_are_quiet (self : analyzer) (dets : detections)
    (shape : option (Z * Z * Z)) (now : Q) (a : analysis) :
  (analyze_crowd sqrt self dets shape now).2 = Done a ->
  ((length (count_history self) < 9)%nat ->
   a_trends a = Trends "stable" (Some 0) "stable" (Some 0))
  /\ ((length (count_history self) < 19)%nat ->
      a_anomalies a = Anomalies false false false).
Proof. apply warm_up. Qed.

(** *** A run of frames *)

Hypothesis sqrt_nonneg : forall x, 0 <= sqrt x.
Hypothesis sqrt_pos : forall x, 0 < x -> 0 < sqrt x.

Lemma density_score_ok (self : analyzer) (boxes : list box) :
  frame_sized self ->
  exists d, calculate_density_score sqrt self boxes = Py.Ok d /\ 0 <= d <= 1.
Proof using sqrt_nonneg.
  intros [Hw Hh]. unfold calculate_density_score.
  destruct boxes as [|b boxes]; [exists 0; split; [reflexivity | lra] |].
  cbn [orb].
  destruct (frame_width self) as [w|] eqn:Ew;
    [| exists 0; split; [reflexivity | lra]].
  destruct (frame_height self) as [h|] eqn:Eh;
    [| exists 0; split; [now destruct (negb _) | lra]].
  unfold Py.truthy.
  destruct (Z.eqb_spec w 0) as [|Hw0];
    [exists 0; split; [reflexivity | lra] |].
  destruct (Z.eqb_spec h 0) as [|Hh0];
    [exists 0; split; [reflexivity | lra] |].
  cbn [negb orb].
  specialize (Hw w eq_refl). specialize (Hh h eq_refl).
  assert (Hbbox : exists d,
             _calculate_bbox_coverage_density self (b :: boxes) = Py.Ok d
             /\ 0 <= d <= 1).
  { apply (DensityProofs.bbox_coverage_bounds self (b :: boxes) w h);
      auto; lia. }
  destruct (String.eqb _ "bbox_coverage"); [exact Hbbox |].
  destruct (String.eqb _ "spatial_distribution"); [| exact Hbbox].
  now apply (DensityProofs.spatial_distribution_bounds sqrt sqrt_nonneg
               self (b :: boxes) w h).
Qed.

Lemma last_n_length {A} (n : nat) (l : list A) :
  length (Py.last_n n l) = Nat.min n (length l).
Proof. unfold Py.last_n. rewrite length_skipn. lia. Qed.

Lemma rate_of_change_done (values times : list Q) :
  length values = length times ->
  exists r, _calculate_rate_of_change sqrt values times = Done r.
Proof.
  intros Hlen. unfold _calculate_rate_of_change.
  destruct (length values <? 2)%nat eqn:Hshort; [eauto |].
  destruct times as [|t0 ts];
    [simpl in Hlen; rewrite Hlen in Hshort; discriminate |].
  destruct (_ && _); [| eauto].
  unfold np_corrcoef. rewrite length_map, Hlen, Nat.eqb_refl. simpl. eauto.
Qed.

Lemma calculate_trends_done (self : analyzer) :
  length (density_history self) = length (count_history self) ->
  length (time_history self) = length (count_history self) ->
  exists t, calculate_trends sqrt self = Done t.
Proof.
  intros Hd Ht. unfold calculate_trends.
  destruct (_ <? 10)%nat; [eauto |].
  destruct (rate_of_change_done
              (map inject_Z (Py.last_n 10 (count_history self)))
              (Py.last_n 10 (time_history self))) as [r1 ->].
  { rewrite length_map, !last_n_length. lia. }
  destruct (rate_of_change_done
              (Py.last_n 10 (density_history self))
              (Py.last_n 10 (time_history self))) as [r2 ->].
  { rewrite !last_n_length. lia. }
  simpl. eauto.
Qed.

Lemma update_smoothed_frame (self : analyzer) (c : Z) (d : Q) :
  grid_size (_update_smoothed_values self c d) = grid_size self
  /\ frame_width (_update_smoothed_values self c d) = frame_width self
  /\ frame_height (_update_smoothed_values self c d) = frame_height self.
Proof.
  unfold _update_smoothed_values. now destruct (Qeq_bool _ _).
Qed.

(** One call on a state that satisfies the invariant of a run. *)
Lemma analyze_crowd_done (self : analyzer) (dets : detections)
    (shape : option (Z * Z * Z)) (now : Q) :
  history_ok self -> frame_sized self -> grid_positive self ->
  shape_sized shape ->
  exists a,
    (analyze_crowd sqrt self dets shape now).2 = Done a
    /\ frame_of (dets, shape, now) a
    /\ 0 <= a_density_score a <= 1
    /\ history_ok (analyze_crowd sqrt self dets shape now).1
    /\ frame_sized (analyze_crowd sqrt self dets shape now).1
    /\ grid_positive (analyze_crowd sqrt self dets shape now).1.
Proof using sqrt_nonneg sqrt_pos.
  intros (Hd & Ht & Hmax) Hsized Hgrid Hshape. unfold analyze_crowd.
  set (self1 := match shape with
                | Some (h, w, _) => update_frame_dimensions self w h
                | None => self
                end).
  assert (H1 : count_history self1 = count_history self
               /\ density_history self1 = density_history self
               /\ time_history self1 = time_history self
               /\ grid_size self1 = grid_size self
               /\ frame_sized self1).
  { unfold self1. destruct shape as [[[h w] c]|];
      (split; [| split; [| split; [| split]]]); auto.
    split; simpl; intros ? [= <-]; apply Hshape. }
  destruct H1 as (Hc1 & Hd1 & Ht1 & Hg1 & Hsized1).
  destruct (density_score_ok self1 (boxes dets) Hsized1) as (d & -> & Hrange).
  rewrite Hc1, Hd1, Ht1.
  set (self2 := _update_smoothed_values _ _ _).
  assert (H2 : count_history self2
               = deque_append (count_history self) (person_count dets)
               /\ density_history self2
                  = deque_append (density_history self) d
               /\ time_history self2 = deque_append (time_history self) now
               /\ grid_size self2 = grid_size self
               /\ frame_sized self2).
  { unfold self2.
    match goal with
    | |- context [_update_smoothed_values ?s ?c ?x] =>
        destruct (update_smoothed_history s c x) as (-> & -> & ->);
        destruct (update_smoothed_frame s c x) as (-> & Hw & Hh)
    end.
    (split; [| split; [| split; [| split]]]); auto.
    unfold frame_sized. rewrite Hw, Hh. exact Hsized1. }
  destruct H2 as (Hc2 & Hd2 & Ht2 & Hg2 & Hsized2).
  assert (Hok2 : history_ok self2).
  { unfold history_ok. rewrite Hc2, Hd2, Ht2.
    rewrite !deque_append_length by lia. rewrite Hd, Ht.
    repeat split. apply Nat.le_min_r. }
  assert (Hgrid2 : grid_positive self2).
  { unfold grid_positive. now rewrite Hg2. }
  destruct (HeatmapProofs.heatmap_grid self2 (boxes dets)
              (grid_size self2).1 (grid_size self2).2)
    as (hm & -> & _); [now destruct (grid_size self2) | apply Hgrid2 ..|].
  destruct (calculate_trends_done self2 (proj1 Hok2) (proj1 (proj2 Hok2)))
    as [t ->].
  eexists. split; [reflexivity |]. cbn [fst snd].
  split; [split; reflexivity |]. split; [exact Hrange |]. auto.
Qed.

(** X14: frames whose shape, when given, holds sizes are analysed one after the
    other without an exception: the run returns one analysis per frame, each
    with the count and the clock reading of its frame and a density score
    between 0 and 1, and leaves the histories aligned and bounded. *)
Theorem run_of_frames_never_raises (self : analyzer)
    (frames : list (detections * option (Z * Z * Z) * Q)) :
  history_ok self -> frame_sized self -> grid_positive self ->
  Forall (fun f => shape_sized f.1.2) frames ->
  exists results,
    (analyze_run sqrt self frames).2 = Done results
    /\ Forall2 frame_of frames results
    /\ Forall (fun a => 0 <= a_density_score a <= 1) results
    /\ history_ok (analyze_run sqrt self frames).1.
Proof using sqrt_nonneg sqrt_pos.
  intros Hok Hsized Hgrid Hframes. revert self Hok Hsized Hgrid.
  induction Hframes as [|[[dets shape] now] frames Hshape _ IH];
    intros self Hok Hsized Hgrid.
  - exists []. split; [reflexivity |]. split; [constructor |].
    split; [constructor | exact Hok].
  - destruct (analyze_crowd_done self dets shape now Hok Hsized Hgrid Hshape)
      as (a & Ha & Hframe & Hrange & Hok' & Hsized' & Hgrid').
    cbn [analyze_run].
    destruct (analyze_crowd sqrt self dets shape now) as [self' r].
    cbn [fst snd] in *. subst r.
    destruct (IH self' Hok' Hsized' Hgrid')
      as (rest & Hrest & Hall & Hranges & Hfinal).
    destruct (analyze_run sqrt self' frames) as [self'' r].
    cbn [fst snd] in *. subst r.
    exists (a :: rest). split; [reflexivity |].
    split; [now constructor |]. split; [now constructor | exact Hfinal].
Qed.

End Sqrt.

(** A fresh analyzer, with empty histories, analysing the three test boxes
    of a 640 by 480 frame at time 1000. *)
Lemma histories_stay_aligned_witness :
  history_ok init
  /\ history_ok
       (analyze_crowd sqrt_milli init (test_detections 3)
          (Some (480, 640, 3)%Z) 1000).1.
Proof.
  assert (H : history_ok init).
  { unfold history_ok, history_maxlen. simpl. lia. }
  split; [exact H |].
  exact (proj1 (histories_stay_aligned sqrt_milli init (test_detections 3)
                  (Some (480, 640, 3)%Z) 1000 H)).
Defined.

(** The second frame of a fresh analyzer, with a count of 30 after a count
    of 3. *)
Lemma first_frames_are_quiet_witness :
  exists a,
    (analyze_crowd sqrt_milli
       (analyze_crowd sqrt_milli init (test_detections 3)
          (Some (120, 160, 3)%Z) 1000).1
       (test_detections 30) None 1001).2 = Done a
    /\ a_trends a = Trends "stable" (Some 0) "stable" (Some 0)
    /\ a_anomalies a = Anomalies false false false.
Proof.
  assert (Hrun : exists a,
             (analyze_crowd sqrt_milli
                (analyze_crowd sqrt_milli init (test_detections 3)
                   (Some (120, 160, 3)%Z) 1000).1
                (test_detections 30) None 1001).2 = Done a).
  { eexists. vm_compute. reflexivity. }
  destruct Hrun as [a Ha]. exists a. split; [exact Ha |].
  destruct (first_frames_are_quiet sqrt_milli _ _ _ _ a Ha) as [H9 H19].
  split; [apply H9 | apply H19]; vm_compute; lia.
Defined.

(** Two frames of the test detections, the second without a shape. *)
Lemma run_of_frames_never_raises_witness :
  (history_ok init /\ frame_sized init /\ grid_positive init
   /\ Forall (fun f => shape_sized f.1.2)
        [(test_detections 3, Some (480, 640, 3)%Z, 1000);
         (test_detections 3, None, 1001)])
  /\ exists results,
       (analyze_run sqrt_milli init
          [(test_detections 3, Some (480, 640, 3)%Z, 1000);
           (test_detections 3, None, 1001)]).2 = Done results
       /\ length results = 2%nat.
Proof.
  assert (Hok : history_ok init).
  { unfold history_ok, history_maxlen. simpl. lia. }
  assert (Hsized : frame_sized init) by (split; discriminate).
  assert (Hgrid : grid_positive init) by (split; reflexivity).
  assert (Hframes : Forall (fun f => shape_sized f.1.2)
                      [(test_detections 3, Some (480, 640, 3)%Z, 1000);
                       (test_detections 3, None, 1001)]).
  { constructor; [unfold shape_sized; simpl; lia |].
    constructor; [exact I | constructor]. }
  split; [auto |].
  destruct (run_of_frames_never_raises sqrt_milli
              DensityProofs.sqrt_milli_nonneg DensityProofs.sqrt_milli_pos
              init _ Hok Hsized Hgrid Hframes)
    as (results & Hrun & Hall & _).
  exists results. split; [exact Hrun |].
  apply Forall2_length in Hall. now rewrite <- Hall.
Defined.

End AnalysisProofs.

(** ** Spatial analysis *)

Module SpatialProofs.

Import CrowdAnalyzer.
Local Open Scope Q_scope.

Lemma Qsum_bounds (l : list Q) (lo hi : Q) :
  Forall (fun x => lo <= x <= hi) l ->
  inject_Z (Z.of_nat (length l)) * lo <= Qsum l
  /\ Qsum l <= inject_Z (Z.of_nat (length l)) * hi.
Proof.
  induction 1 as [|x l [Hlo Hhi] _ [IHlo IHhi]].
  - cbn [length]. change (inject_Z (Z.of_nat 0)) with 0.
    unfold Qsum. cbn [foldr]. split; lra.
  - cbn [length Qsum foldr]. fold (Qsum l).
    rewrite Nat2Z.inj_succ, <- Z.add_1_r, inject_Z_plus.
    change (inject_Z 1) with 1. split; lra.
Qed.

(** The mean of a non-empty array lies between any two bounds of its
    items. *)
Lemma np_mean_bounds (l : list Q) (lo hi : Q) :
  l <> [] -> Forall (fun x => lo <= x <= hi) l ->
  lo <= np_mean l <= hi.
Proof.
  intros Hne Hall. destruct (Qsum_bounds l lo hi Hall) as [Hlo Hhi].
  unfold np_mean.
  assert (Hn : 0 < inject_Z (Z.of_nat (length l))).
  { destruct l; [contradiction |]. unfold Qlt. simpl. lia. }
  split.
  - apply Qle_shift_div_l; [exact Hn | lra].
  - apply Qle_shift_div_r; [exact Hn | lra].
Qed.

Lemma Qsum_nonneg (l : list Q) : Forall (fun x => 0 <= x) l -> 0 <= Qsum l.
Proof.
  induction 1 as [|x l Hx _ IH]; [simpl; lra |].
  cbn [Qsum foldr]. fold (Qsum l). lra.
Qed.

Lemma np_mean_nonneg (l : list Q) :
  Forall (fun x => 0 <= x) l -> 0 <= np_mean l.
Proof.
  intros Hall. unfold np_mean.
  destruct l as [|x l]; [unfold Qdiv; simpl; lra |].
  apply Qle_shift_div_l.
  - unfold Qlt. simpl. lia.
  - pose proof (Qsum_nonneg _ Hall). lra.
Qed.

Lemma off_diagonal_all (P : Q -> Prop) (m : list (list Q)) :
  Forall (Forall P) m -> Forall P (off_diagonal m).
Proof.
  intros Hm. unfold off_diagonal. apply Forall_concat.
  apply Forall_forall. intros cells Hcells.
  apply elem_of_lookup_imap in Hcells as (i & row & -> & Hrow).
  apply Forall_forall. intros d Hd.
  apply list_elem_of_omap in Hd as (o & Ho & Hsome).
  apply elem_of_lookup_imap in Ho as (j & c & -> & Hc).
  destruct (i =? j)%nat; [discriminate |]. injection Hsome as <-.
  rewrite Forall_lookup in Hm. specialize (Hm i row Hrow).
  rewrite Forall_lookup in Hm. exact (Hm j c Hc).
Qed.

Lemma edge_density_range (self : analyzer) (centers : list (Q * Q)) :
  0 <= _calculate_edge_density self centers <= 1.
Proof.
  unfold _calculate_edge_density.
  destruct centers as [|c centers]; [simpl; split; lra |].
  cbn [orb]. destruct (_ || _); [split; lra |].
  apply DensityProofs.ratio_bounds.
  - split; [lia |]. apply inj_le, length_filter.
  - simpl. lia.
Qed.

Lemma center_inside (w h : Z) (b : box) :
  box_inside w h b ->
  0 <= (center b).1 <= inject_Z w /\ 0 <= (center b).2 <= inject_Z h.
Proof.
  intros (Hx1 & Hx2 & Hy1 & Hy2). unfold center. cbn [fst snd].
  assert (Hhalf : forall a c : Z,
             (0 <= a <= c + c)%Z ->
             0 <= inject_Z a / 2 <= inject_Z c).
  { intros a c Hac.
    assert (H0 : inject_Z 0 <= inject_Z a) by (rewrite <- Zle_Qle; lia).
    assert (H1 : inject_Z a <= inject_Z (c + c))
      by (rewrite <- Zle_Qle; lia).
    rewrite inject_Z_plus in H1. change (inject_Z 0) with 0 in H0.
    split.
    - apply Qle_shift_div_l; [reflexivity | lra].
    - apply Qle_shift_div_r; [reflexivity | lra]. }
  split; apply Hhalf; lia.
Qed.

(** X15: the centre of mass of boxes that lie inside a frame lies inside the
    frame; with no boxes it is the origin. *)
Theorem center_of_mass_inside_frame (sqrt : Q -> Q) (self : analyzer)
    (boxes : list box) (w h : Z) :
  (0 <= w)%Z -> (0 <= h)%Z ->
  Forall (box_inside w h) boxes ->
  0 <= (center_of_mass (analyze_spatial_distribution sqrt self boxes)).1
    <= inject_Z w
  /\ 0 <= (center_of_mass (analyze_spatial_distribution sqrt self boxes)).2
       <= inject_Z h.
Proof.
  intros Hw Hh Hall. unfold analyze_spatial_distribution.
  destruct boxes as [|b boxes].
  - cbn [center_of_mass fst snd].
    assert (Hw' : inject_Z 0 <= inject_Z w) by (rewrite <- Zle_Qle; lia).
    assert (Hh' : inject_Z 0 <= inject_Z h) by (rewrite <- Zle_Qle; lia).
    change (inject_Z 0) with 0 in Hw', Hh'. lra.
  - cbn [center_of_mass fst snd]. split.
    + apply np_mean_bounds; [discriminate |].
      rewrite !Forall_map. eapply Forall_impl; [exact Hall |].
      intros b' Hb'. apply (center_inside w h b' Hb').
    + apply np_mean_bounds; [discriminate |].
      rewrite !Forall_map. eapply Forall_impl; [exact Hall |].
      intros b' Hb'. apply (center_inside w h b' Hb').
Qed.

Section Sqrt.

Variable sqrt : Q -> Q.
Hypothesis sqrt_nonneg : forall x, 0 <= sqrt x.
Hypothesis sqrt_pos : forall x, 0 < x -> 0 < sqrt x.

Lemma clustering_score_range (self : analyzer) (centers : list (Q * Q)) :
  0 <= _calculate_clustering_score sqrt self centers <= 1.
Proof using sqrt_nonneg.
  unfold _calculate_clustering_score.
  destruct (_ <? 2)%nat; [split; lra |].
  destruct (_ && _); [| split; lra].
  match goal with
  | |- 0 <= 1 - Py.min ?d 1 <= 1 =>
      assert (Hd : 0 <= d); [| pose proof (DensityProofs.min_unit d Hd); lra]
  end.
  assert (Havg : 0 <= np_mean (off_diagonal (cdist sqrt centers centers))).
  { apply np_mean_nonneg, off_diagonal_all.
    apply (DensityProofs.cdist_nonneg sqrt sqrt_nonneg). }
  pose proof (sqrt_nonneg
                (inject_Z (default 0%Z (frame_width self) ^ 2
                           + default 0%Z (frame_height self) ^ 2))) as Hdiag.
  apply Qle_lt_or_eq in Hdiag as [Hpos | Hzero].
  - apply Qle_shift_div_l; [exact Hpos | lra].
  - unfold Qdiv. rewrite <- Hzero. unfold Qinv. simpl. lra.
Qed.

(** X16: for any boxes and any frame state the spatial analysis reports a spread
    that is not negative and a clustering score and an edge density between 0
    and 1. *)
Theorem spatial_metrics_in_range (self : analyzer) (boxes : list box) :
  0 <= spread (analyze_spatial_distribution sqrt self boxes)
  /\ 0 <= clustering_score (analyze_spatial_distribution sqrt self boxes)
       <= 1
  /\ 0 <= edge_density (analyze_spatial_distribution sqrt self boxes) <= 1.
Proof using sqrt_nonneg sqrt_pos.
  unfold analyze_spatial_distribution.
  destruct boxes as [|b boxes];
    [cbn [spread clustering_score edge_density]; repeat split; lra |].
  cbn [spread clustering_score edge_density]. split; [| split].
  - destruct (1 <? _)%nat; [| lra].
    apply np_mean_nonneg. repeat constructor; apply sqrt_nonneg.
  - apply clustering_score_range.
  - apply edge_density_range.
Qed.

End Sqrt.

(** The three test boxes in the 640 by 480 frame. *)
Lemma spatial_metrics_in_range_witness :
  0 <= spread (analyze_spatial_distribution sqrt_milli framed test_boxes)
  /\ 0 <= clustering_score
            (analyze_spatial_distribution sqrt_milli framed test_boxes) <= 1
  /\ 0 <= edge_density
            (analyze_spatial_distribution sqrt_milli framed test_boxes) <= 1.
Proof.
  exact (spatial_metrics_in_range sqrt_milli DensityProofs.sqrt_milli_nonneg
           DensityProofs.sqrt_milli_pos framed test_boxes).
Defined.

Lemma center_of_mass_inside_frame_witness :
  Forall (box_inside 640 480) test_boxes
  /\ 0 <= (center_of_mass
             (analyze_spatial_distribution sqrt_milli framed test_boxes)).1
       <= 640
  /\ 0 <= (center_of_mass
             (analyze_spatial_distribution sqrt_milli framed test_boxes)).2
       <= 480.
Proof.
  assert (Hall : Forall (box_inside 640 480) test_boxes).
  { repeat constructor; simpl; lia. }
  split; [exact Hall |].
  apply (center_of_mass_inside_frame sqrt_milli framed test_boxes 640 480);
    [lia | lia | exact Hall].
Defined.

End SpatialProofs.

(** ** Trends of steady values *)

Module TrendProofs.

Import CrowdAnalyzer.
Local Open Scope Q_scope.

Lemma Qsum_zero (l : list Q) : Forall (fun x => x == 0) l -> Qsum l == 0.
Proof.
  induction 1 as [|x l Hx _ IH]; [reflexivity |].
  cbn [Qsum foldr]. fold (Qsum l). rewrite Hx, IH. reflexivity.
Qed.

Lemma products_zero (dx dy : list Q) :
  Forall (fun x => x == 0) dy ->
  Forall (fun x => x == 0) (zip_with Qmult dx dy).
Proof.
  intros Hdy. revert dx.
  induction Hdy as [|y dy Hy _ IH]; intros [|x dx]; simpl; constructor.
  - rewrite Hy. ring.
  - apply IH.
Qed.

(** The mean of equal values is that value. *)
Lemma np_mean_constant (l : list Q) (v : Q) :
  l <> [] -> Forall (fun x => x == v) l -> np_mean l == v.
Proof.
  intros Hne Hall.
  destruct (SpatialProofs.np_mean_bounds l v v Hne) as [Hlo Hhi].
  - eapply Forall_impl; [exact Hall |]. simpl. intros x ->. split; lra.
  - now apply Qle_antisym.
Qed.

Lemma deviations_zero (l : list Q) (v : Q) :
  l <> [] -> Forall (fun x => x == v) l ->
  Forall (fun x => x == 0) (map (fun x => x - np_mean l) l).
Proof.
  intros Hne Hall. pose proof (np_mean_constant l v Hne Hall) as Hmean.
  apply List.Forall_map. eapply Forall_impl; [exact Hall |].
  simpl. intros x ->. rewrite Hmean. ring.
Qed.

Lemma Qeq_bool_true (x y : Q) : x == y -> Qeq_bool x y = true.
Proof. apply Qeq_bool_iff. Qed.

Section Sqrt.

Variable sqrt : Q -> Q.
Hypothesis sqrt_zero : forall x, x == 0 -> sqrt x == 0.

(** The correlation of anything with equal values is [nan]. *)
Lemma corrcoef_constant (x y : list Q) (v : Q) :
  length x = length y -> y <> [] -> Forall (fun c => c == v) y ->
  np_corrcoef sqrt x y = Py.Ok None.
Proof using sqrt_zero.
  intros Hlen Hne Hall. unfold np_corrcoef.
  rewrite Hlen, Nat.eqb_refl. cbn [negb]. f_equal.
  pose proof (deviations_zero y v Hne Hall) as Hdy.
  set (dy := map (fun c => c - np_mean y) y) in *.
  set (dx := map (fun c => c - np_mean x) x).
  set (fact := inject_Z (Z.of_nat (length y) - 1)).
  assert (H01 : Qsum (zip_with Qmult dx dy) * (1 / fact) == 0).
  { rewrite (Qsum_zero _ (products_zero dx dy Hdy)). ring. }
  assert (H11 : Qsum (map (fun c => c * c) dy) * (1 / fact) == 0).
  { rewrite Qsum_zero; [ring |].
    apply List.Forall_map. eapply Forall_impl; [exact Hdy |].
    simpl. intros c ->. ring. }
  set (c00 := Qsum (map (fun c => c * c) dx) * (1 / fact)).
  set (c01 := Qsum (zip_with Qmult dx dy) * (1 / fact)) in *.
  set (c11 := Qsum (map (fun c => c * c) dy) * (1 / fact)) in *.
  unfold wide_div at 2.
  destruct (Qeq_bool (sqrt c00) 0) eqn:H00.
  - now rewrite (Qeq_bool_true c01 0 H01).
  - unfold wide_div.
    rewrite (Qeq_bool_true (sqrt c11) 0 (sqrt_zero c11 H11)).
    rewrite (Qeq_bool_true (c01 / sqrt c00) 0); [reflexivity |].
    rewrite H01. unfold Qdiv. ring.
Qed.

Lemma rate_of_constant (values times : list Q) (v : Q) :
  length values = length times ->
  Forall (fun c => c == v) values ->
  exists r,
    _calculate_rate_of_change sqrt values times = Done r
    /\ _classify_trend r = "stable"
    /\ ((2 <= length values)%nat ->
        0 < np_std sqrt (elapsed times) -> r = None).
Proof using sqrt_zero.
  intros Hlen Hall. unfold _calculate_rate_of_change.
  destruct (Nat.ltb_spec (length values) 2) as [Hshort|Hlong].
  - exists (Some 0). split; [reflexivity |]. split; [reflexivity |]. lia.
  - destruct times as [|t0 ts]; [simpl in Hlen; lia |].
    change (map (fun t => t - t0) (t0 :: ts)) with (elapsed (t0 :: ts)).
    destruct ((1 <? length (elapsed (t0 :: ts)))%nat
              && Py.Qltb 0 (np_std sqrt (elapsed (t0 :: ts)))) eqn:Hguard.
    + rewrite (corrcoef_constant (elapsed (t0 :: ts)) values v).
      * exists None. repeat split; reflexivity.
      * unfold elapsed. now rewrite length_map.
      * destruct values; [simpl in Hlong; lia | discriminate].
      * exact Hall.
    + exists (Some 0). split; [reflexivity |]. split; [reflexivity |].
      intros _ Hspread. exfalso.
      apply andb_false_iff in Hguard as [Hone | Hstd].
      * apply Nat.ltb_ge in Hone. unfold elapsed in Hone.
        rewrite length_map in Hone. lia.
      * destruct (PyFacts.Qltb_reflect 0 (np_std sqrt (elapsed (t0 :: ts))));
          [discriminate | contradiction].
Qed.

(** X17: when the last ten counts are equal, [calculate_trends] classifies the
    count trend as 'stable'; its rate is then not 0.0 but [nan] as soon as the
    timestamps of the window have a positive standard deviation. *)
Theorem steady_count_has_nan_rate (self : analyzer) (c : Z) :
  length (density_history self) = length (count_history self) ->
  length (time_history self) = length (count_history self) ->
  (10 <= length (count_history self))%nat ->
  Forall (fun x => x = c) (Py.last_n 10 (count_history self)) ->
  exists t,
    calculate_trends sqrt self = Done t
    /\ count_trend t = "stable"
    /\ (0 < np_std sqrt (elapsed (Py.last_n 10 (time_history self))) ->
        count_rate t = None).
Proof using sqrt_zero.
  intros Hd Ht Hlen Hall. unfold calculate_trends.
  destruct (Nat.ltb_spec (length (count_history self)) 10); [lia |].
  assert (Hlast : forall A (l : list A),
             length (Py.last_n 10 l) = Nat.min 10 (length l)).
  { intros A l. unfold Py.last_n. rewrite length_skipn. lia. }
  destruct (rate_of_constant
              (map inject_Z (Py.last_n 10 (count_history self)))
              (Py.last_n 10 (time_history self)) (inject_Z c))
    as (r1 & -> & Hstable & Hnan).
  { rewrite length_map, !Hlast. lia. }
  { apply List.Forall_map. eapply Forall_impl; [exact Hall |].
    simpl. now intros x ->. }
  assert (Hdone : exists r2,
             _calculate_rate_of_change sqrt
               (Py.last_n 10 (density_history self))
               (Py.last_n 10 (time_history self)) = Done r2).
  { unfold _calculate_rate_of_change.
    destruct (_ <? 2)%nat eqn:Hshort; [eauto |].
    destruct (Py.last_n 10 (time_history self)) as [|t0 ts] eqn:Htimes.
    - pose proof (Hlast Q (time_history self)) as Hl.
      rewrite Htimes in Hl. cbn [length] in Hl. lia.
    - destruct (_ && _); [| eauto].
      unfold np_corrcoef. rewrite length_map, <- Htimes, !Hlast.
      rewrite Hd, Ht, Nat.eqb_refl. simpl. eauto. }
  destruct Hdone as [r2 ->]. cbn [mbind outcome_mbind].
  eexists. split; [reflexivity |]. cbn [count_trend count_rate].
  split; [exact Hstable |]. apply Hnan.
  rewrite length_map, Hlast. lia.
Qed.

End Sqrt.

Lemma sqrt_milli_zero (x : Q) : x == 0 -> sqrt_milli x == 0.
Proof.
  intros Hx. unfold sqrt_milli.
  assert (Hc : Qceiling (x * 1000000) = 0%Z).
  { assert (H : x * 1000000 == 0) by (rewrite Hx; ring).
    rewrite (Qceiling_comp _ _ H). reflexivity. }
  rewrite Hc. reflexivity.
Qed.

(** Ten frames of 5 persons, one second apart. *)
Lemma steady_count_has_nan_rate_witness :
  (Forall (fun x => x = 5%Z) (Py.last_n 10 (count_history (with_history 10)))
   /\ 0 < np_std sqrt_milli
            (elapsed (Py.last_n 10 (time_history (with_history 10)))))
  /\ exists t,
       calculate_trends sqrt_milli (with_history 10) = Done t
       /\ count_trend t = "stable" /\ count_rate t = None.
Proof.
  assert (Hall : Forall (fun x => x = 5%Z)
                   (Py.last_n 10 (count_history (with_history 10)))).
  { repeat constructor. }
  assert (Hspread : 0 < np_std sqrt_milli
                          (elapsed
                             (Py.last_n 10 (time_history (with_history 10))))).
  { vm_compute. reflexivity. }
  split; [split; assumption |].
  destruct (steady_count_has_nan_rate sqrt_milli sqrt_milli_zero
              (with_history 10) 5 eq_refl eq_refl (le_n 10) Hall)
    as (t & Hdone & Hstable & Hnan).
  exists t. repeat split; auto.
Defined.

End TrendProofs.

(** ** Statistics *)

Module StatisticsProofs.

Import CrowdAnalyzer.
Local Open Scope Q_scope.







End StatisticsProofs.

(** ** Coverage density and the set of boxes *)

Module CoverageProofs.

Import CrowdAnalyzer.
Local Open Scope Q_scope.

Lemma imap_imap {A B C} (f : nat -> B -> C) (g : nat -> A -> B)
    (l : list A) :
  imap f (imap g l) = imap (fun i x => f i (g i x)) l.
Proof.
  apply list_eq. intros i. rewrite !list_lookup_imap.
  now destruct (l !! i).
Qed.

Lemma imap_same {A} (f : nat -> A -> A) (l : list A) :
  (forall i x, f i x = x) -> imap f l = l.
Proof.
  intros Hf. apply list_eq. intros i. rewrite list_lookup_imap.
  destruct (l !! i); simpl; [now rewrite Hf | reflexivity].
Qed.

(** Painting one box sets exactly the cells the box covers. *)
Lemma paint_covers (width height : Z) (m : list (list Z)) (b : box) :
  paint width height m b = covered width height [b] m.
Proof.
  unfold paint, covered, covers, set_slice. cbn [existsb].
  destruct (_ <? _)%Z; [destruct (_ <? _)%Z |]; cbn [andb].
  - apply imap_ext. intros i row _. cbn [andb].
    destruct (_ && _).
    + apply imap_ext. intros j v _. cbn [andb]. now rewrite orb_false_r.
    + symmetry. apply imap_same. intros j v. reflexivity.
  - symmetry. apply imap_same. intros i row.
    apply imap_same. reflexivity.
  - symmetry. apply imap_same. intros i row.
    apply imap_same. reflexivity.
Qed.

(** Painting the boxes one after the other sets exactly the cells that some
    box covers. *)
Lemma paint_all_covers (width height : Z) (boxes : list box)
    (m : list (list Z)) :
  fold_left (paint width height) boxes m = covered width height boxes m.
Proof.
  revert m. induction boxes as [|b boxes IH]; intros m.
  - simpl. unfold covered. symmetry. apply imap_same. intros i row.
    apply imap_same. reflexivity.
  - cbn [fold_left]. rewrite IH, paint_covers. unfold covered.
    rewrite imap_imap. apply imap_ext. intros i row _. cbn beta.
    rewrite imap_imap. apply imap_ext. intros j v _. cbn [existsb].
    rewrite orb_false_r.
    destruct (covers width height b i j); cbn [orb]; [| reflexivity].
    now destruct (existsb _ boxes).
Qed.

Lemma existsb_subset {A} (f : A -> bool) (l1 l2 : list A) :
  (forall x, In x l1 -> In x l2) ->
  existsb f l1 = true -> existsb f l2 = true.
Proof.
  intros Hsub H. apply existsb_exists in H as (x & Hin & Hx).
  apply existsb_exists. eauto.
Qed.

Lemma existsb_same_set {A} (f : A -> bool) (l1 l2 : list A) :
  (forall x, In x l1 <-> In x l2) -> existsb f l1 = existsb f l2.
Proof.
  intros Hset.
  destruct (existsb f l1) eqn:H1, (existsb f l2) eqn:H2; trivial.
  - apply (existsb_subset f l1 l2) in H1; [congruence |].
    intros x. apply Hset.
  - apply (existsb_subset f l2 l1) in H2; [congruence |].
    intros x. apply Hset.
Qed.

Lemma covered_same_set (width height : Z) (boxes1 boxes2 : list box)
    (m : list (list Z)) :
  (forall b, In b boxes1 <-> In b boxes2) ->
  covered width height boxes1 m = covered width height boxes2 m.
Proof.
  intros Hset. unfold covered. apply imap_ext. intros i row _.
  apply imap_ext. intros j v _. cbn beta.
  now rewrite (existsb_same_set _ boxes1 boxes2 Hset).
Qed.

Lemma row_sum_le (P : Z -> Prop) (f g : nat -> Z -> Z) (row : list Z) :
  (forall j v, P v -> (f j v <= g j v)%Z) -> Forall P row ->
  (foldr Z.add 0 (imap f row) <= foldr Z.add 0 (imap g row))%Z.
Proof.
  intros Hfg Hrow. revert f g Hfg.
  induction Hrow as [|v row Hv _ IH]; intros f g Hfg; [simpl; lia |].
  rewrite !imap_cons. cbn [foldr].
  specialize (IH (f ∘ S) (g ∘ S) (fun j v => Hfg (S j) v)).
  specialize (Hfg 0%nat v Hv). lia.
Qed.

Lemma mask_sum_le (P : Z -> Prop) (f g : nat -> nat -> Z -> Z)
    (m : list (list Z)) :
  (forall i j v, P v -> (f i j v <= g i j v)%Z) -> Forall (Forall P) m ->
  (np_sum (imap (fun i row => imap (f i) row) m)
   <= np_sum (imap (fun i row => imap (g i) row) m))%Z.
Proof.
  unfold np_sum. intros Hfg Hm. revert f g Hfg.
  induction Hm as [|row m Hrow _ IH]; intros f g Hfg; [simpl; lia |].
  rewrite !imap_cons. cbn [concat]. rewrite !DensityProofs.sum_app.
  pose proof (row_sum_le P (f 0%nat) (g 0%nat) row (Hfg 0%nat) Hrow).
  specialize (IH (fun i => f (S i)) (fun i => g (S i))
                (fun i j v => Hfg (S i) j v)).
  unfold compose. cbv beta in *. lia.
Qed.

(** More boxes cover at least as many cells. *)
Lemma covered_subset (width height : Z) (boxes1 boxes2 : list box)
    (h w : nat) :
  (forall b, In b boxes1 -> In b boxes2) ->
  (np_sum (covered width height boxes1 (replicate h (replicate w 0%Z)))
   <= np_sum (covered width height boxes2 (replicate h (replicate w 0%Z))))%Z.
Proof.
  intros Hsub. unfold covered.
  apply (mask_sum_le (fun v => v = 0%Z)
           (fun i j v => if existsb (fun b => covers width height b i j) boxes1
                         then 1%Z else v)
           (fun i j v => if existsb (fun b => covers width height b i j) boxes2
                         then 1%Z else v)).
  - intros i j v ->.
    destruct (existsb _ boxes1) eqn:H1.
    + now rewrite (existsb_subset _ boxes1 boxes2 Hsub H1).
    + destruct (existsb _ boxes2); lia.
  - apply Forall_replicate, Forall_replicate. reflexivity.
Qed.

Lemma same_set_nil {A} (l : list A) : (forall x, In x [] <-> In x l) -> l = [].
Proof.
  intros Hset. destruct l as [|x l]; [reflexivity |].
  destruct (proj2 (Hset x)). now left.
Qed.

Lemma bbox_same_set (self : analyzer) (boxes1 boxes2 : list box) :
  (forall b, In b boxes1 <-> In b boxes2) ->
  _calculate_bbox_coverage_density self boxes1
  = _calculate_bbox_coverage_density self boxes2.
Proof.
  intros Hset. unfold _calculate_bbox_coverage_density.
  destruct boxes1 as [|b1 boxes1].
  { now rewrite (same_set_nil boxes2 Hset). }
  destruct boxes2 as [|b2 boxes2].
  { discriminate (same_set_nil (b1 :: boxes1) (fun x => iff_sym (Hset x))). }
  unfold mbind, result_mbind.
  destruct (frame_width self) as [w|]; [| reflexivity].
  destruct (frame_height self) as [h|]; [| reflexivity].
  cbn [Py.number Py.bind].
  destruct (np_zeros_uint8 h w) as [mask|e]; [| reflexivity].
  cbn [Py.bind]. rewrite !paint_all_covers.
  now rewrite (covered_same_set w h _ _ mask Hset).
Qed.

(** X19: with the coverage method the density score depends only on the set of
    boxes: neither their order nor a repeated box changes it. *)
Theorem coverage_density_of_box_set (sqrt : Q -> Q) (self : analyzer)
    (boxes1 boxes2 : list box) :
  density_method self <> "spatial_distribution" ->
  (forall b, In b boxes1 <-> In b boxes2) ->
  calculate_density_score sqrt self boxes1
  = calculate_density_score sqrt self boxes2.
Proof.
  intros Hmethod Hset. unfold calculate_density_score.
  rewrite (bbox_same_set self boxes1 boxes2 Hset).
  assert (Hempty : match boxes1 with [] => true | _ => false end
                   = match boxes2 with [] => true | _ => false end).
  { destruct boxes1 as [|b1 boxes1].
    - now rewrite (same_set_nil boxes2 Hset).
    - destruct boxes2 as [|b2 boxes2]; [| reflexivity].
      discriminate (same_set_nil (b1 :: boxes1)
                      (fun x => iff_sym (Hset x))). }
  rewrite Hempty. destruct (_ || _); [reflexivity |].
  destruct (String.eqb _ "bbox_coverage"); [reflexivity |].
  destruct (String.eqb_spec (density_method self) "spatial_distribution");
    [contradiction | reflexivity].
Qed.

(** X20: with the coverage method and a frame whose dimensions are sizes, adding
    boxes never lowers the density score. *)
Theorem coverage_density_is_monotone (sqrt : Q -> Q) (self : analyzer)
    (boxes1 boxes2 : list box) :
  density_method self <> "spatial_distribution" ->
  frame_sized self ->
  (forall b, In b boxes1 -> In b boxes2) ->
  exists d1 d2,
    calculate_density_score sqrt self boxes1 = Py.Ok d1
    /\ calculate_density_score sqrt self boxes2 = Py.Ok d2
    /\ 0 <= d1 <= d2.
Proof.
  intros Hmethod [Hwsize Hhsize] Hsub. unfold calculate_density_score.
  assert (Hdispatch : forall boxes,
             (if String.eqb (density_method self) "bbox_coverage"
              then _calculate_bbox_coverage_density self boxes
              else if String.eqb (density_method self) "spatial_distribution"
                   then _calculate_spatial_distribution_density sqrt self boxes
                   else _calculate_bbox_coverage_density self boxes)
             = _calculate_bbox_coverage_density self boxes).
  { intros boxes. destruct (String.eqb _ "bbox_coverage"); [reflexivity |].
    destruct (String.eqb_spec (density_method self) "spatial_distribution");
      [contradiction | reflexivity]. }
  rewrite !Hdispatch.
  destruct (frame_width self) as [w|] eqn:Ew; cycle 1.
  { exists 0, 0. rewrite !orb_true_r. cbn [orb]. repeat split; lra. }
  destruct (frame_height self) as [h|] eqn:Eh; cycle 1.
  { exists 0, 0. rewrite !orb_true_r. repeat split; lra. }
  unfold Py.truthy.
  destruct (Z.eqb_spec w 0) as [|Hw0].
  { exists 0, 0. cbn [negb]. rewrite !orb_true_r. cbn [orb].
    repeat split; lra. }
  destruct (Z.eqb_spec h 0) as [|Hh0].
  { exists 0, 0. cbn [negb]. rewrite !orb_true_r. repeat split; lra. }
  cbn [negb]. rewrite !orb_false_r.
  specialize (Hwsize w eq_refl). specialize (Hhsize h eq_refl).
  destruct (DensityProofs.bbox_coverage_bounds self boxes2 w h Ew Eh)
    as (d2 & Hd2 & Hrange2); [lia | lia |].
  destruct boxes1 as [|b1 boxes1].
  { exists 0, d2. split; [reflexivity |]. split; [| lra].
    destruct boxes2; exact Hd2. }
  destruct boxes2 as [|b2 boxes2]; [destruct (Hsub b1); now left |].
  destruct (DensityProofs.bbox_coverage_bounds self (b1 :: boxes1) w h Ew Eh)
    as (d1 & Hd1 & Hrange1); [lia | lia |].
  exists d1, d2. split; [exact Hd1 |]. split; [exact Hd2 |].
  split; [lra |].
  revert Hd1 Hd2. unfold _calculate_bbox_coverage_density.
  rewrite Ew, Eh. unfold mbind, result_mbind. cbn [Py.number Py.bind].
  unfold np_zeros_uint8.
  destruct (Z.ltb_spec h 0) as [|_]; [lia |].
  destruct (Z.ltb_spec w 0) as [|_]; [lia |].
  cbn [orb Py.bind]. rewrite !paint_all_covers.
  intros [= <-] [= <-].
  pose proof (covered_subset w h (b1 :: boxes1) (b2 :: boxes2)
                (Z.to_nat h) (Z.to_nat w) Hsub) as Hsum.
  set (s1 := np_sum (covered w h (b1 :: boxes1) _)) in *.
  set (s2 := np_sum (covered w h (b2 :: boxes2) _)) in *.
  assert (Hle : inject_Z s1 / inject_Z (w * h)
                <= inject_Z s2 / inject_Z (w * h)).
  { assert (Htotal : 0 < inject_Z (w * h)).
    { change 0 with (inject_Z 0). rewrite <- Zlt_Qlt. nia. }
    apply Qle_shift_div_l; [exact Htotal |].
    unfold Qdiv.
    rewrite <- Qmult_assoc, (Qmult_comm (/ _)), Qmult_inv_r, Qmult_1_r;
      [| lra].
    now rewrite <- Zle_Qle. }
  destruct (PyFacts.min_spec (inject_Z s1 / inject_Z (w * h)) 1)
    as [[H1 ->]|[H1 ->]];
  destruct (PyFacts.min_spec (inject_Z s2 / inject_Z (w * h)) 1)
    as [[H2 ->]|[H2 ->]]; lra.
Qed.

(** The test boxes in another order and with one of them repeated. *)
Lemma coverage_density_of_box_set_witness :
  density_method framed <> "spatial_distribution"
  /\ calculate_density_score sqrt_milli framed test_boxes
     = calculate_density_score sqrt_milli framed
         [Box 300 100 350 200; Box 100 100 150 200; Box 200 150 250 250;
          Box 300 100 350 200].
Proof.
  assert (Hmethod : density_method framed <> "spatial_distribution")
    by discriminate.
  split; [exact Hmethod |].
  apply (coverage_density_of_box_set sqrt_milli framed _ _ Hmethod).
  intros b. unfold test_boxes. simpl. tauto.
Defined.

(** The first test box alone and the three test boxes. *)
Lemma coverage_density_is_monotone_witness :
  (density_method framed <> "spatial_distribution" /\ frame_sized framed)
  /\ exists d1 d2,
       calculate_density_score sqrt_milli framed [Box 100 100 150 200]
       = Py.Ok d1
       /\ calculate_density_score sqrt_milli framed test_boxes = Py.Ok d2
       /\ 0 <= d1 <= d2.
Proof.
  assert (Hmethod : density_method framed <> "spatial_distribution")
    by discriminate.
  split; [split; [exact Hmethod | exact DensityProofs.framed_sized] |].
  apply (coverage_density_is_monotone sqrt_milli framed _ _ Hmethod
           DensityProofs.framed_sized).
  intros b. unfold test_boxes. simpl. tauto.
Defined.

End CoverageProofs.

(** ** The heatmap and the order of the boxes *)

Module HeatmapOrderProofs.

Import CrowdAnalyzer.
Local Open Scope Q_scope.

Lemma alter_comm {A} (f : A -> A) (l : list A) (i j : nat) :
  alter f i (alter f j l) = alter f j (alter f i l).
Proof.
  destruct (decide (i = j)) as [-> | Hne]; [reflexivity |].
  now apply list_alter_alter_ne.
Qed.

Lemma increment_comm (m : list (list Q)) (i j i' j' : Z) :
  increment (increment m i j) i' j' = increment (increment m i' j') i j.
Proof.
  unfold increment.
  destruct (decide (Z.to_nat i' = Z.to_nat i)) as [-> | Hne].
  - rewrite !list_alter_alter_eq. apply list_alter_ext; [| reflexivity].
    intros row _. unfold compose. apply alter_comm.
  - now apply list_alter_alter_ne.
Qed.

Lemma count_box_comm (gh gw : Z) (cw ch : Q) (m : list (list Q))
    (b1 b2 : box) :
  count_box gh gw cw ch (count_box gh gw cw ch m b1) b2
  = count_box gh gw cw ch (count_box gh gw cw ch m b2) b1.
Proof.
  unfold count_box. destruct (center b1), (center b2).
  apply increment_comm.
Qed.

Lemma fold_left_permutation {A B} (f : A -> B -> A) (l1 l2 : list B) :
  (forall a x y, f (f a x) y = f (f a y) x) ->
  l1 ≡ₚ l2 -> forall a, fold_left f l1 a = fold_left f l2 a.
Proof.
  intros Hf. induction 1 as [|x l1 l2 _ IH|x y l|l1 l2 l3 _ IH1 _ IH2];
    intros a; simpl.
  - reflexivity.
  - apply IH.
  - now rewrite Hf.
  - now rewrite IH1.
Qed.

(** X21: the heatmap does not depend on the order in which the boxes are given.
    *)
Theorem heatmap_ignores_box_order (self : analyzer)
    (boxes1 boxes2 : list box) :
  boxes1 ≡ₚ boxes2 ->
  generate_density_heatmap self boxes1 = generate_density_heatmap self boxes2.
Proof.
  intros Hperm. unfold generate_density_heatmap.
  destruct (grid_size self) as [gh gw].
  destruct (negb _ || negb _); [reflexivity |].
  unfold mbind, result_mbind.
  destruct (np_zeros gh gw) as [zeros|e]; [| reflexivity]. cbn [Py.bind].
  destruct boxes1 as [|b1 boxes1].
  { apply Permutation.Permutation_nil in Hperm. now subst. }
  destruct boxes2 as [|b2 boxes2].
  { symmetry in Hperm. apply Permutation.Permutation_nil in Hperm.
    discriminate. }
  destruct (Py.number (frame_width self)) as [w|e]; [| reflexivity].
  destruct (Py.number (frame_height self)) as [h|e]; [| reflexivity].
  cbn [Py.bind].
  destruct (Py.truediv w gw) as [cw|e]; [| reflexivity].
  destruct (Py.truediv h gh) as [ch|e]; [| reflexivity].
  cbn [Py.bind].
  now rewrite (fold_left_permutation (count_box gh gw cw ch) _ _
                 (count_box_comm gh gw cw ch) Hperm zeros).
Qed.

(** The test boxes in reverse order. *)
Lemma heatmap_ignores_box_order_witness :
  test_boxes ≡ₚ reverse test_boxes
  /\ generate_density_heatmap framed test_boxes
     = generate_density_heatmap framed (reverse test_boxes).
Proof.
  assert (Hperm : test_boxes ≡ₚ reverse test_boxes).
  { symmetry. apply reverse_Permutation. }
  split; [exact Hperm |].
  exact (heatmap_ignores_box_order framed _ _ Hperm).
Defined.

End HeatmapOrderProofs.

(** ** The detector's boxes *)

Module DetectionProofs.

Import CrowdAnalyzer ModelUtils.
Local Open Scope Q_scope.

Lemma process_box_kept (w h : Z) (rc : bool) (n : nat)
    (acc : list box * list Q * option (list box)) (rb : raw_box) :
  kept w h rc n acc -> kept w h rc (S n) (process_box w h rc acc rb).
Proof.
  destruct acc as [[bs ss] cs]. intros (Hvalid & Hlen & Hn & Hcrops).
  cbn [fst snd] in *. unfold process_box.
  set (xa := Z.max 0 (Z.min (Py.int (raw_x1 rb)) (w - 1))).
  set (ya := Z.max 0 (Z.min (Py.int (raw_y1 rb)) (h - 1))).
  set (xb := Z.max 0 (Z.min (Py.int (raw_x2 rb)) (w - 1))).
  set (yb := Z.max 0 (Z.min (Py.int (raw_y2 rb)) (h - 1))).
  destruct (Z.leb_spec xb xa) as [|Hx]; cbn [orb].
  { unfold kept. cbn [fst snd]. auto. }
  destruct (Z.leb_spec yb ya) as [|Hy].
  { unfold kept. cbn [fst snd]. auto. }
  unfold kept. cbn [fst snd]. repeat split.
  - apply Forall_app. split; [exact Hvalid |].
    constructor; [| constructor].
    unfold box_valid. cbn [x1 x2 y1 y2]. lia.
  - rewrite !length_app, Hlen. reflexivity.
  - rewrite length_app. cbn [length]. lia.
  - rewrite Hcrops. now destruct rc.
Qed.

Lemma process_boxes_kept (w h : Z) (rc : bool) (raw : list raw_box) (n : nat)
    (acc : list box * list Q * option (list box)) :
  kept w h rc n acc ->
  kept w h rc (n + length raw) (fold_left (process_box w h rc) raw acc).
Proof.
  revert n acc. induction raw as [|rb raw IH]; intros n acc Hacc.
  - simpl. now rewrite Nat.add_0_r.
  - cbn [fold_left length]. rewrite <- Nat.add_succ_comm.
    apply IH. now apply process_box_kept.
Qed.

Lemma process_results_kept (result_boxes : option (list raw_box))
    (h w : Z) (return_crops : bool) :
  Forall (box_valid w h)
    (ModelUtils.boxes (_process_results result_boxes h w return_crops))
  /\ length (ModelUtils.scores
               (_process_results result_boxes h w return_crops))
     = length (ModelUtils.boxes
                 (_process_results result_boxes h w return_crops))
  /\ ModelUtils.person_count (_process_results result_boxes h w return_crops)
     = Z.of_nat
         (length (ModelUtils.boxes
                    (_process_results result_boxes h w return_crops)))
  /\ (length (ModelUtils.boxes
                (_process_results result_boxes h w return_crops))
      <= length (default [] result_boxes))%nat
  /\ crops (_process_results result_boxes h w return_crops)
     = (if return_crops
        then Some (ModelUtils.boxes
                     (_process_results result_boxes h w return_crops))
        else None).
Proof.
  assert (Hstart : kept w h return_crops 0
                     ([], [], if return_crops then Some [] else None)).
  { unfold kept. cbn [fst snd]. repeat split; auto. }
  unfold _process_results.
  destruct result_boxes as [[|rb raw]|].
  - destruct Hstart as (H1 & H2 & H3 & H4). cbn [fst snd] in *.
    cbn. repeat split; auto.
  - pose proof (process_boxes_kept w h return_crops (rb :: raw) 0 _ Hstart)
      as Hend.
    destruct (fold_left _ (rb :: raw) _) as [[bs ss] cs].
    destruct Hend as (H1 & H2 & H3 & H4). cbn [fst snd] in *.
    cbn [ModelUtils.boxes ModelUtils.scores ModelUtils.person_count crops
         default].
    repeat split; auto.
  - destruct Hstart as (H1 & H2 & H3 & H4). cbn [fst snd] in *.
    cbn. repeat split; auto.
Qed.

(** X22: every box that [_process_results] returns has a positive width and
    height and corners that are pixel indices of the frame; there is one score,
    and when crops are asked for one crop, per returned box; [person_count] is
    the number of returned boxes, at most the number of raw detections. *)
Theorem processed_boxes_are_valid (result_boxes : option (list raw_box))
    (h w : Z) (return_crops : bool) :
  Forall (box_valid w h)
    (ModelUtils.boxes (_process_results result_boxes h w return_crops))
  /\ length (ModelUtils.scores
               (_process_results result_boxes h w return_crops))
     = length (ModelUtils.boxes
                 (_process_results result_boxes h w return_crops))
  /\ ModelUtils.person_count (_process_results result_boxes h w return_crops)
     = Z.of_nat
         (length (ModelUtils.boxes
                    (_process_results result_boxes h w return_crops)))
  /\ (length (ModelUtils.boxes
                (_process_results result_boxes h w return_crops))
      <= length (default [] result_boxes))%nat
  /\ crops (_process_results result_boxes h w return_crops)
     = (if return_crops
        then Some (ModelUtils.boxes
                     (_process_results result_boxes h w return_crops))
        else None).
Proof. apply process_results_kept. Qed.

(** *** The detector's boxes in the analyzer *)

Lemma row_sum_nonneg (P : Z -> Prop) (f : nat -> Z -> Z) (row : list Z) :
  (forall j v, P v -> (0 <= f j v)%Z) -> Forall P row ->
  (0 <= foldr Z.add 0 (imap f row))%Z.
Proof.
  intros Hf Hrow. revert f Hf.
  induction Hrow as [|v row Hv _ IH]; intros f Hf; [simpl; lia |].
  rewrite imap_cons. cbn [foldr].
  specialize (IH (f ∘ S) (fun j v => Hf (S j) v)).
  specialize (Hf 0%nat v Hv). lia.
Qed.

Lemma row_sum_pos (P : Z -> Prop) (f : nat -> Z -> Z) (row : list Z)
    (j0 : nat) (v0 : Z) :
  (forall j v, P v -> (0 <= f j v)%Z) -> Forall P row ->
  row !! j0 = Some v0 -> (1 <= f j0 v0)%Z ->
  (1 <= foldr Z.add 0 (imap f row))%Z.
Proof.
  intros Hf Hrow. revert f j0 Hf.
  induction Hrow as [|v row Hv Hrow IH]; intros f j0 Hf Hj0 Hone;
    [discriminate |].
  rewrite imap_cons. cbn [foldr]. destruct j0 as [|j0].
  - injection Hj0 as ->.
    pose proof (row_sum_nonneg P (f ∘ S) row (fun j v => Hf (S j) v) Hrow).
    lia.
  - specialize (IH (f ∘ S) j0 (fun j v => Hf (S j) v) Hj0 Hone).
    specialize (Hf 0%nat v Hv). lia.
Qed.

Lemma mask_sum_nonneg (P : Z -> Prop) (f : nat -> nat -> Z -> Z)
    (m : list (list Z)) :
  (forall i j v, P v -> (0 <= f i j v)%Z) -> Forall (Forall P) m ->
  (0 <= np_sum (imap (fun i row => imap (f i) row) m))%Z.
Proof.
  unfold np_sum. intros Hf Hm. revert f Hf.
  induction Hm as [|row m Hrow _ IH]; intros f Hf; [simpl; lia |].
  rewrite imap_cons. cbn [concat]. rewrite DensityProofs.sum_app.
  pose proof (row_sum_nonneg P (f 0%nat) row (Hf 0%nat) Hrow).
  specialize (IH (fun i => f (S i)) (fun i j v => Hf (S i) j v)).
  unfold compose. cbv beta in *. lia.
Qed.

Lemma mask_sum_pos (P : Z -> Prop) (f : nat -> nat -> Z -> Z)
    (m : list (list Z)) (i0 j0 : nat) (row0 : list Z) (v0 : Z) :
  (forall i j v, P v -> (0 <= f i j v)%Z) -> Forall (Forall P) m ->
  m !! i0 = Some row0 -> row0 !! j0 = Some v0 -> (1 <= f i0 j0 v0)%Z ->
  (1 <= np_sum (imap (fun i row => imap (f i) row) m))%Z.
Proof.
  unfold np_sum. intros Hf Hm. revert f i0 Hf.
  induction Hm as [|row m Hrow Hm IH]; intros f i0 Hf Hi0 Hj0 Hone;
    [discriminate |].
  rewrite imap_cons. cbn [concat]. rewrite DensityProofs.sum_app.
  destruct i0 as [|i0].
  - injection Hi0 as ->.
    pose proof (row_sum_pos P (f 0%nat) row0 j0 v0 (Hf 0%nat) Hrow Hj0 Hone).
    pose proof (mask_sum_nonneg P (fun i => f (S i)) m
                  (fun i j v => Hf (S i) j v) Hm) as Hrest.
    unfold np_sum in Hrest. unfold compose. cbv beta in *. lia.
  - pose proof (row_sum_nonneg P (f 0%nat) row (Hf 0%nat) Hrow).
    specialize (IH (fun i => f (S i)) i0 (fun i j v => Hf (S i) j v)
                  Hi0 Hj0 Hone).
    unfold compose. cbv beta in *. lia.
Qed.

(** A valid box covers the cell of its upper left corner. *)
Lemma valid_box_covers (w h : Z) (b : box) :
  box_valid w h b ->
  covers w h b (Z.to_nat (y1 b)) (Z.to_nat (x1 b)) = true.
Proof.
  intros (Hx & Hxw & Hy & Hyh). unfold covers, clamp.
  rewrite !Z2Nat.id by lia.
  repeat (apply andb_true_intro; split);
    try apply Z.ltb_lt; try apply Z.leb_le; lia.
Qed.

Lemma coverage_positive (self : analyzer) (bs : list box) (w h : Z)
    (b : box) :
  frame_width self = Some w -> frame_height self = Some h ->
  In b bs -> box_valid w h b ->
  exists d, _calculate_bbox_coverage_density self bs = Py.Ok d /\ 0 < d.
Proof.
  intros Ew Eh Hin Hvalid. pose proof Hvalid as (Hx & Hxw & Hy & Hyh).
  unfold _calculate_bbox_coverage_density.
  destruct bs as [|b0 bs]; [destruct Hin |].
  rewrite Ew, Eh. unfold mbind, result_mbind. cbn [Py.number Py.bind].
  unfold np_zeros_uint8.
  destruct (Z.ltb_spec h 0) as [|_]; [lia |].
  destruct (Z.ltb_spec w 0) as [|_]; [lia |].
  cbn [orb Py.bind]. rewrite CoverageProofs.paint_all_covers.
  eexists. split; [reflexivity |].
  assert (Hsum : (1 <= np_sum (covered w h (b0 :: bs)
                                 (replicate (Z.to_nat h)
                                    (replicate (Z.to_nat w) 0%Z))))%Z).
  { unfold covered.
    apply (mask_sum_pos (fun v => v = 0%Z)
             (fun i j v =>
                if existsb (fun b => covers w h b i j) (b0 :: bs)
                then 1%Z else v)
             _ (Z.to_nat (y1 b)) (Z.to_nat (x1 b))
             (replicate (Z.to_nat w) 0%Z) 0%Z).
    - intros i j v ->. destruct (existsb _ _); lia.
    - apply Forall_replicate, Forall_replicate. reflexivity.
    - apply lookup_replicate_2. lia.
    - apply lookup_replicate_2. lia.
    - assert (Hex : existsb (fun b' => covers w h b' (Z.to_nat (y1 b))
                                         (Z.to_nat (x1 b))) (b0 :: bs)
                    = true).
      { apply existsb_exists. exists b. split; [exact Hin |].
        now apply valid_box_covers. }
      rewrite Hex. lia. }
  set (s := np_sum _) in *.
  assert (Htotal : 0 < inject_Z (w * h)).
  { change 0 with (inject_Z 0). rewrite <- Zlt_Qlt. nia. }
  assert (Hs : 0 < inject_Z s).
  { change 0 with (inject_Z 0). rewrite <- Zlt_Qlt. lia. }
  assert (Hratio : 0 < inject_Z s / inject_Z (w * h)).
  { apply Qlt_shift_div_l; [exact Htotal | lra]. }
  destruct (PyFacts.min_spec (inject_Z s / inject_Z (w * h)) 1)
    as [[_ ->]|[_ ->]]; [reflexivity | exact Hratio].
Qed.



Section Sqrt.

Variable sqrt : Q -> Q.

(** The score and the count that a returning [analyze_crowd] reports. *)
Lemma analyze_crowd_score (self : analyzer) (dets : detections)
    (shape : option (Z * Z * Z)) (now : Q) (a : analysis) :
  (analyze_crowd sqrt self dets shape now).2 = Done a ->
  calculate_density_score sqrt
    (match shape with
     | Some (h, w, _) => update_frame_dimensions self w h
     | None => self
     end) (CrowdAnalyzer.boxes dets) = Py.Ok (a_density_score a)
  /\ a_person_count a = CrowdAnalyzer.person_count dets.
Proof.
  unfold analyze_crowd.
  destruct (calculate_density_score sqrt _ (CrowdAnalyzer.boxes dets))
    as [d|e]; [| discriminate].
  destruct (generate_density_heatmap _ _); [| discriminate].
  destruct (calculate_trends sqrt _); [| discriminate].
  cbn [snd]. intros [= <-]. split; reflexivity.
Qed.

(** X23: when the boxes that [_process_results] kept of a frame are analysed
    with the shape of that frame and the coverage method, the analysis reports
    their number as person count, and its density score is positive exactly when
    at least one box was kept. *)
Theorem density_is_positive_iff_detected (self : analyzer)
    (result_boxes : option (list raw_box)) (h w c : Z) (return_crops : bool)
    (now : Q) (a : analysis) :
  density_method self <> "spatial_distribution" ->
  (analyze_crowd sqrt self
     (to_detections (_process_results result_boxes h w return_crops))
     (Some (h, w, c)) now).2 = Done a ->
  a_person_count a
  = Z.of_nat
      (length (ModelUtils.boxes
                 (_process_results result_boxes h w return_crops)))
  /\ ((0 < a_person_count a)%Z <-> 0 < a_density_score a).
Proof.
  intros Hmethod Hdone.
  apply analyze_crowd_score in Hdone as [Hscore Hcount].
  destruct (process_results_kept result_boxes h w return_crops)
    as (Hvalid & _ & Hperson & _).
  set (p := _process_results result_boxes h w return_crops) in *.
  change (CrowdAnalyzer.person_count (to_detections p))
    with (ModelUtils.person_count p) in Hcount.
  change (CrowdAnalyzer.boxes (to_detections p))
    with (ModelUtils.boxes p) in Hscore.
  rewrite Hcount, Hperson. split; [reflexivity |].
  destruct (ModelUtils.boxes p) as [|b bs].
  - cbn in Hscore. injection Hscore as <-. cbn [length].
    split; [lia | intros H; discriminate H].
  - inversion Hvalid as [|? ? Hb _]; subst.
    pose proof Hb as (Hx & Hxw & Hy & Hyh).
    destruct (coverage_positive (update_frame_dimensions self w h)
                (b :: bs) w h b eq_refl eq_refl (or_introl eq_refl) Hb)
      as (d & Hd & Hpos).
    unfold calculate_density_score in Hscore.
    cbn [frame_width frame_height update_frame_dimensions Py.truthy orb]
      in Hscore.
    destruct (Z.eqb_spec w 0) as [|_]; [lia |].
    destruct (Z.eqb_spec h 0) as [|_]; [lia |].
    cbn [negb orb] in Hscore.
    assert (Hbbox : _calculate_bbox_coverage_density
                      (update_frame_dimensions self w h) (b :: bs)
                    = Py.Ok (a_density_score a)).
    { cbn [density_method update_frame_dimensions] in Hscore.
      destruct (String.eqb _ "bbox_coverage"); [exact Hscore |].
      destruct (String.eqb_spec (density_method self)
                  "spatial_distribution");
        [contradiction | exact Hscore]. }
    rewrite Hd in Hbbox. injection Hbbox as <-.
    split; [intros _; exact Hpos | intros _; cbn [length]; lia].
Qed.

End Sqrt.

(** Three raw detections on a 160 by 120 frame, of which one box is kept. *)
Lemma density_is_positive_iff_detected_witness :
  density_method init <> "spatial_distribution"
  /\ exists a,
       (analyze_crowd sqrt_milli init
          (to_detections (_process_results (Some test_raw) 120 160 false))
          (Some (120, 160, 3)%Z) 1000).2 = Done a
       /\ a_person_count a = 1%Z /\ 0 < a_density_score a.
Proof.
  assert (Hmethod : density_method init <> "spatial_distribution")
    by discriminate.
  assert (Hrun : exists a,
             (analyze_crowd sqrt_milli init
                (to_detections
                   (_process_results (Some test_raw) 120 160 false))
                (Some (120, 160, 3)%Z) 1000).2 = Done a).
  { eexists. vm_compute. reflexivity. }
  split; [exact Hmethod |]. destruct Hrun as [a Ha]. exists a.
  split; [exact Ha |].
  destruct (density_is_positive_iff_detected sqrt_milli init (Some test_raw)
              120 160 3 false 1000 a Hmethod Ha) as [Hcount Hiff].
  assert (Hone : a_person_count a = 1%Z) by (rewrite Hcount; reflexivity).
  split; [exact Hone |]. apply Hiff. rewrite Hone. reflexivity.
Defined.

End DetectionProofs.

(** ** Configuration paths *)

Module ConfigProofs.

Import Config.

Lemma split_nonempty (sep : ascii) (s : string) : split sep s <> [].
Proof.
  destruct s as [|c s]; [discriminate |]. simpl.
  destruct (Ascii.eqb c sep); [discriminate |].
  destruct (split sep s); discriminate.
Qed.

Lemma split_keys (sep : ascii) (s : string) :
  split sep s
  = removelast (split sep s) ++ [List.last (split sep s) EmptyString].
Proof. apply app_removelast_last, split_nonempty. Qed.

(** After the assignment the path leads to the value. *)
Lemma assign_descend (keys : list string) (last : string) (v : value)
    (config config' : gmap string value) :
  assign config keys last v = Py.Ok config' ->
  descend (Dict config') (keys ++ [last]) = inr v.
Proof.
  revert config config'. induction keys as [|key keys IH];
    intros config config'; cbn [assign app descend].
  - intros [= <-]. now rewrite lookup_insert_eq.
  - unfold mbind, result_mbind.
    destruct (config !! key) as [[| | | | |d]|]; try discriminate.
    + destruct (assign d keys last v) as [sub|] eqn:Hsub; [| discriminate].
      cbn [Py.bind]. intros [= <-]. rewrite lookup_insert_eq.
      exact (IH _ _ Hsub).
    + destruct (assign ∅ keys last v) as [sub|] eqn:Hsub; [| discriminate].
      cbn [Py.bind]. intros [= <-]. rewrite lookup_insert_eq.
      exact (IH _ _ Hsub).
Qed.

(** The assignment leaves every path that branches off the assigned one as
    it was. *)
Lemma assign_frame (common : list string) (a b : string)
    (rest1 rest2 keys : list string) (last : string) (v : value)
    (config config' : gmap string value) :
  a <> b ->
  keys ++ [last] = common ++ a :: rest1 ->
  assign config keys last v = Py.Ok config' ->
  descend (Dict config') (common ++ b :: rest2)
  = descend (Dict config) (common ++ b :: rest2).
Proof.
  intros Hab. revert keys config config'.
  induction common as [|key common IH]; intros keys config config' Hpath.
  - cbn [app] in *. destruct keys as [|key keys]; cbn [assign app] in *.
    + injection Hpath as -> _. intros [= <-]. cbn [descend].
      now rewrite lookup_insert_ne.
    + injection Hpath as -> _. unfold mbind, result_mbind.
      destruct (config !! a) as [[| | | | |d]|]; try discriminate.
      * destruct (assign d keys last v); [| discriminate].
        cbn [Py.bind]. intros [= <-]. cbn [descend].
        now rewrite lookup_insert_ne.
      * destruct (assign ∅ keys last v); [| discriminate].
        cbn [Py.bind]. intros [= <-]. cbn [descend].
        now rewrite lookup_insert_ne.
  - destruct keys as [|key' keys]; cbn [app] in Hpath.
    { injection Hpath as _ Hnil. destruct common; discriminate. }
    injection Hpath as -> Hpath. cbn [assign app descend].
    unfold mbind, result_mbind.
    destruct (config !! key) as [[| | | | |d]|] eqn:Hkey; try discriminate.
    + destruct (assign d keys last v) as [sub|] eqn:Hsub; [| discriminate].
      cbn [Py.bind]. intros [= <-]. rewrite lookup_insert_eq.
      exact (IH _ _ _ Hpath Hsub).
    + destruct (assign ∅ keys last v) as [sub|] eqn:Hsub; [| discriminate].
      cbn [Py.bind]. intros [= <-]. rewrite lookup_insert_eq.
      rewrite (IH _ _ _ Hpath Hsub).
      destruct common; cbn [app descend]; now rewrite lookup_empty.
Qed.

(** X24: a [set] that returns is read back by [get] with the same key path,
    whatever the default. *)
Theorem set_then_get (config config' : gmap string value)
    (key_path : string) (v default : value) :
  set config key_path v = Py.Ok config' ->
  get config' key_path default = v.
Proof.
  unfold set, get. intros Hset.
  rewrite (split_keys "." key_path).
  now rewrite (assign_descend _ _ _ _ _ Hset).
Qed.

(** X25: a [set] that returns leaves what [get] answers for any key path that
    branches off the assigned one: the two paths share their first keys and then
    go on with different keys. *)
Theorem set_keeps_other_paths (config config' : gmap string value)
    (key_path other : string) (v default : value)
    (common rest1 rest2 : list string) (a b : string) :
  split "." key_path = common ++ a :: rest1 ->
  split "." other = common ++ b :: rest2 ->
  a <> b ->
  set config key_path v = Py.Ok config' ->
  get config' other default = get config other default.
Proof.
  unfold set, get. intros Hpath Hother Hab Hset.
  rewrite Hother.
  rewrite (assign_frame common a b rest1 rest2 _ _ v config config' Hab
             (eq_trans (eq_sym (split_keys "." key_path)) Hpath) Hset).
  reflexivity.
Qed.

(** Setting the confidence threshold of the default configuration. *)
Lemma set_then_get_witness :
  exists config',
    set default_config "model.confidence_threshold" (Num (7 # 10))
    = Py.Ok config'
    /\ get config' "model.confidence_threshold" NoneV = Num (7 # 10).
Proof.
  destruct (set default_config "model.confidence_threshold" (Num (7 # 10)))
    as [config'|e] eqn:Hset.
  - exists config'. split; [reflexivity |].
    exact (set_then_get default_config config' _ _ NoneV Hset).
  - exfalso. vm_compute in Hset. discriminate Hset.
Defined.

(** The device entry of the default configuration is kept. *)
Lemma set_keeps_other_paths_witness :
  exists config',
    set default_config "model.confidence_threshold" (Num (7 # 10))
    = Py.Ok config'
    /\ get config' "model.device" NoneV
       = get default_config "model.device" NoneV.
Proof.
  destruct (set default_config "model.confidence_threshold" (Num (7 # 10)))
    as [config'|e] eqn:Hset.
  - exists config'. split; [reflexivity |].
    apply (set_keeps_other_paths default_config config'
             "model.confidence_threshold" "model.device" (Num (7 # 10)) NoneV
             ["model"] [] [] "confidence_threshold" "device");
      [reflexivity | reflexivity | discriminate | exact Hset].
  - exfalso. vm_compute in Hset. discriminate Hset.
Defined.

End ConfigProofs.

(** ** The pipeline of one frame *)

Module PipelineProofs.

Import CrowdDetector.
Local Open Scope Q_scope.

(** [check_alerts] reports a threshold alert exactly when the level is high
    or critical and its cooldown has elapsed; the alert then carries that
    level. *)
Lemma check_alerts_threshold (self : AlertManager.manager) (now : Q)
    (ok : bool) (results : AlertManager.analysis_results) :
  let info := (AlertManager.check_alerts self now ok results).1 in
  let level := default "low" (AlertManager.crowd_level results) in
  (AlertManager.alert_triggered info = true
   /\ AlertManager.alert_type info = "threshold"
   <-> (level = "high" \/ level = "critical")
       /\ AlertManager.cooldown_elapsed self level now)
  /\ (AlertManager.alert_triggered info = true ->
      AlertManager.alert_type info = "threshold" ->
      AlertManager.alert_level info = level).
Proof.
  cbn zeta. unfold AlertManager.check_alerts.
  set (level := default "low" (AlertManager.crowd_level results)).
  set (count := default 0 (AlertManager.smoothed_count results)).
  destruct (decide (level = "high" \/ level = "critical")) as [Hlevel|Hlevel].
  - destruct (AlertManager._check_alert_cooldown self level now) eqn:Hcool.
    + apply AlertProofs.cooldown_check in Hcool.
      destruct (AlertProofs.threshold_fires self count level now Hlevel Hcool)
        as [msg ->].
      destruct (AlertManager._check_anomaly_alerts _ _ _) as [anomaly self2].
      cbn. tauto.
    + assert (Hnot : ~ AlertManager.cooldown_elapsed self level now).
      { intros H. apply AlertProofs.cooldown_check in H. congruence. }
      rewrite (AlertProofs.threshold_holds self count level now Hnot).
      unfold AlertManager._check_anomaly_alerts.
      destruct (negb _ && _); cbn; split;
        try (split; [intros [_ H]; discriminate H | tauto]);
        try (split; [intros [H _]; discriminate H | tauto]);
        intros; discriminate.
  - unfold AlertManager._check_threshold_alerts.
    rewrite bool_decide_eq_false_2.
    2: { intros Hin. apply Hlevel.
         apply elem_of_cons in Hin as [Hin|Hin]; [now left |].
         apply elem_of_cons in Hin as [Hin|Hin]; [now right |].
         inversion Hin. }
    unfold AlertManager._check_anomaly_alerts.
    destruct (negb _ && _); cbn; split;
      try (split; [intros [_ H]; discriminate H | tauto]);
      try (split; [intros [H _]; discriminate H | tauto]);
      intros; discriminate.
Qed.

Section Pipeline.

Variable sqrt : Q -> Q.
Variables strftime isoformat : Q -> string.

(** The level that a returning [analyze_crowd] reports is the class of the
    smoothed count it reports, for the thresholds of the analyzer. *)
Lemma analyze_crowd_level (self : CrowdAnalyzer.analyzer)
    (dets : CrowdAnalyzer.detections) (shape : option (Z * Z * Z)) (now : Q)
    (a : CrowdAnalyzer.analysis) :
  (CrowdAnalyzer.analyze_crowd sqrt self dets shape now).2
  = CrowdAnalyzer.Done a ->
  CrowdAnalyzer.a_crowd_level a
  = CrowdAnalyzer.classify_crowd_level self
      (CrowdAnalyzer.a_smoothed_count a).
Proof.
  unfold CrowdAnalyzer.analyze_crowd.
  destruct (CrowdAnalyzer.calculate_density_score sqrt _ _) as [d|e];
    [| discriminate].
  destruct (CrowdAnalyzer.generate_density_heatmap _ _); [| discriminate].
  destruct (CrowdAnalyzer.calculate_trends sqrt _); [| discriminate].
  cbn [snd]. intros [= <-].
  cbn [CrowdAnalyzer.a_crowd_level CrowdAnalyzer.a_smoothed_count].
  unfold CrowdAnalyzer.classify_crowd_level.
  unfold CrowdAnalyzer._update_smoothed_values.
  destruct shape as [[[h w] c]|]; now destruct (Qeq_bool _ _).
Qed.

(** What [process_frame] computes when the analysis returns. *)
Lemma process_frame_done (self self' : system) (io : frame_io)
    (r : frame_result) :
  process_frame sqrt strftime isoformat self io
  = (self', CrowdAnalyzer.Done r) ->
  (CrowdAnalyzer.analyze_crowd sqrt (crowd_analyzer self) (io_detections io)
     (Some (io_shape io)) (analysis_time io)).2
  = CrowdAnalyzer.Done (analysis r)
  /\ alerts r
     = (AlertManager.check_alerts (alert_manager self) (alert_time io)
          (io_smtp_ok io) (to_results (analysis r))).1.
Proof.
  unfold process_frame.
  destruct (CrowdAnalyzer.analyze_crowd sqrt _ _ _ _) as [an [a|e]];
    [| discriminate].
  destruct (AlertManager.check_alerts _ _ _ _) as [info mgr] eqn:Hcheck.
  intros [= _ <-]. cbn [analysis alerts]. rewrite Hcheck.
  split; reflexivity.
Qed.

(** X26: a threshold alert of [process_frame] carries the level that the
    analysis of the frame reports, and is raised only when the smoothed count is
    at least the 'low' and the 'medium' threshold of the analyzer; conversely
    such a smoothed count raises a threshold alert of that level as soon as the
    cooldown of the level has elapsed. *)
Theorem threshold_alert_follows_smoothed_count (self self' : system)
    (io : frame_io) (r : frame_result) :
  process_frame sqrt strftime isoformat self io
  = (self', CrowdAnalyzer.Done r) ->
  let count := CrowdAnalyzer.a_smoothed_count (analysis r) in
  let level :=
    CrowdAnalyzer.level_name (CrowdAnalyzer.a_crowd_level (analysis r)) in
  let thresholds := CrowdAnalyzer.alert_thresholds (crowd_analyzer self) in
  (AlertManager.alert_triggered (alerts r) = true ->
   AlertManager.alert_type (alerts r) = "threshold" ->
   AlertManager.alert_level (alerts r) = level
   /\ CrowdAnalyzer.low thresholds <= count
   /\ CrowdAnalyzer.medium thresholds <= count)
  /\ (CrowdAnalyzer.low thresholds <= count ->
      CrowdAnalyzer.medium thresholds <= count ->
      AlertManager.cooldown_elapsed (alert_manager self) level
        (alert_time io) ->
      AlertManager.alert_triggered (alerts r) = true
      /\ AlertManager.alert_type (alerts r) = "threshold"
      /\ AlertManager.alert_level (alerts r) = level).
Proof.
  intros Hrun. cbn zeta.
  destruct (process_frame_done self self' io r Hrun) as [Hdone ->].
  pose proof (analyze_crowd_level _ _ _ _ _ Hdone) as Hlevel.
  pose proof (check_alerts_threshold (alert_manager self) (alert_time io)
                (io_smtp_ok io) (to_results (analysis r))) as Hcheck.
  cbn zeta in Hcheck. cbn [to_results AlertManager.crowd_level default]
    in Hcheck.
  destruct Hcheck as [Hiff Hcarries].
  set (count := CrowdAnalyzer.a_smoothed_count (analysis r)) in *.
  set (th := CrowdAnalyzer.alert_thresholds (crowd_analyzer self)) in *.
  assert (Hclass :
            (CrowdAnalyzer.level_name
               (CrowdAnalyzer.a_crowd_level (analysis r)) = "high"
             \/ CrowdAnalyzer.level_name
                  (CrowdAnalyzer.a_crowd_level (analysis r)) = "critical")
            <-> CrowdAnalyzer.low th <= count
                /\ CrowdAnalyzer.medium th <= count).
  { rewrite Hlevel. unfold CrowdAnalyzer.classify_crowd_level. fold th.
    destruct (PyFacts.Qltb_reflect count (CrowdAnalyzer.low th)) as [H1|H1].
    { cbn. split; [intros [H|H]; discriminate H | intros [H _]; lra]. }
    destruct (PyFacts.Qltb_reflect count (CrowdAnalyzer.medium th))
      as [H2|H2].
    { cbn. split; [intros [H|H]; discriminate H | intros [_ H]; lra]. }
    apply Qnot_lt_le in H1, H2.
    destruct (Py.Qltb count (CrowdAnalyzer.high th)); cbn; tauto. }
  split.
  - intros Htrig Htype. split; [now apply Hcarries |].
    apply Hclass. apply Hiff. now split.
  - intros Hlow Hmedium Hcool.
    assert (Hfire : AlertManager.alert_triggered
                      (AlertManager.check_alerts (alert_manager self)
                         (alert_time io) (io_smtp_ok io)
                         (to_results (analysis r))).1 = true
                    /\ AlertManager.alert_type
                         (AlertManager.check_alerts (alert_manager self)
                            (alert_time io) (io_smtp_ok io)
                            (to_results (analysis r))).1 = "threshold").
    { apply Hiff. split; [apply Hclass; now split | exact Hcool]. }
    destruct Hfire as [Htrig Htype]. repeat split; auto.
Qed.

(** X27: while the analyzer has seen fewer than 19 frames, an alert that
    [process_frame] reports is a threshold alert: no anomaly alert is raised
    during the warm-up. *)
Theorem no_anomaly_alert_during_warm_up (self self' : system) (io : frame_io)
    (r : frame_result) :
  (length (CrowdAnalyzer.count_history (crowd_analyzer self)) < 19)%nat ->
  process_frame sqrt strftime isoformat self io
  = (self', CrowdAnalyzer.Done r) ->
  AlertManager.alert_triggered (alerts r) = true ->
  AlertManager.alert_type (alerts r) = "threshold".
Proof.
  intros Hlen Hrun.
  destruct (process_frame_done self self' io r Hrun) as [Hdone ->].
  destruct (AnalysisProofs.warm_up sqrt _ _ _ _ _ Hdone) as [_ Hquiet].
  specialize (Hquiet Hlen).
  unfold AlertManager.check_alerts.
  destruct (AlertManager._check_threshold_alerts _ _ _ _)
    as [threshold mgr] eqn:Hthreshold.
  rewrite AlertProofs.anomaly_quiet.
  2: { cbn [to_results AlertManager.anomalies default]. rewrite Hquiet.
       repeat constructor. }
  assert (Htype : AlertManager.alert_type threshold = "threshold").
  { unfold AlertManager._check_threshold_alerts in Hthreshold.
    destruct (bool_decide _);
      [destruct (AlertManager._check_alert_cooldown _ _ _) |];
      injection Hthreshold as <- _; reflexivity. }
  cbn [fst snd AlertManager.alert_triggered].
  destruct (AlertManager.alert_triggered threshold); cbn; [| discriminate].
  intros _. exact Htype.
Qed.

End Pipeline.

(** The first frame of a fresh system with a count of 75. *)
Lemma threshold_alert_follows_smoothed_count_witness :
  exists self' r,
    process_frame CrowdAnalyzer.sqrt_milli AlertManager.epoch_seconds
      AlertManager.epoch_seconds init (test_frame 75 1000)
    = (self', CrowdAnalyzer.Done r)
    /\ CrowdAnalyzer.a_smoothed_count (analysis r) == 75
    /\ AlertManager.alert_triggered (alerts r) = true
    /\ AlertManager.alert_type (alerts r) = "threshold"
    /\ AlertManager.alert_level (alerts r) = "high".
Proof.
  assert (Hrun : exists self' r,
             process_frame CrowdAnalyzer.sqrt_milli AlertManager.epoch_seconds
               AlertManager.epoch_seconds init (test_frame 75 1000)
             = (self', CrowdAnalyzer.Done r)).
  { eexists. eexists. vm_compute. reflexivity. }
  destruct Hrun as (self' & r & Hrun). exists self', r.
  split; [exact Hrun |].
  pose proof (threshold_alert_follows_smoothed_count CrowdAnalyzer.sqrt_milli
                AlertManager.epoch_seconds AlertManager.epoch_seconds
                init self' (test_frame 75 1000) r Hrun) as [_ Hfires].
  vm_compute in Hrun. injection Hrun as _ <-.
  split; [reflexivity |]. apply Hfires.
  - vm_compute. discriminate.
  - vm_compute. discriminate.
  - vm_compute. exact I.
Defined.

(** The same frame: the alert of the first frame is a threshold alert. *)
Lemma no_anomaly_alert_during_warm_up_witness :
  exists self' r,
    process_frame CrowdAnalyzer.sqrt_milli AlertManager.epoch_seconds
      AlertManager.epoch_seconds init (test_frame 75 1000)
    = (self', CrowdAnalyzer.Done r)
    /\ AlertManager.alert_triggered (alerts r) = true
    /\ AlertManager.alert_type (alerts r) = "threshold".
Proof.
  assert (Hrun : exists self' r,
             process_frame CrowdAnalyzer.sqrt_milli AlertManager.epoch_seconds
               AlertManager.epoch_seconds init (test_frame 75 1000)
             = (self', CrowdAnalyzer.Done r)).
  { eexists. eexists. vm_compute. reflexivity. }
  destruct Hrun as (self' & r & Hrun). exists self', r.
  split; [exact Hrun |].
  assert (Hlen : (length (CrowdAnalyzer.count_history (crowd_analyzer init))
                  < 19)%nat) by (vm_compute; lia).
  pose proof (no_anomaly_alert_during_warm_up CrowdAnalyzer.sqrt_milli
                AlertManager.epoch_seconds AlertManager.epoch_seconds
                init self' (test_frame 75 1000) r Hlen Hrun) as Htype.
  vm_compute in Hrun. injection Hrun as _ <-.
  split; [reflexivity | exact (Htype eq_refl)].
Defined.

End PipelineProofs.

(** ** The pipeline over a run of frames *)

Module PipelineRunProofs.

Import CrowdDetector.
Local Open Scope Q_scope.

Section Pipeline.

Variable sqrt : Q -> Q.
Variables strftime isoformat : Q -> string.
Hypothesis sqrt_nonneg : forall x, 0 <= sqrt x.
Hypothesis sqrt_pos : forall x, 0 < x -> 0 < sqrt x.

(** One frame on a system that satisfies the invariant of a run. *)
Lemma process_frame_returns (self : system) (io : frame_io) :
  CrowdAnalyzer.history_ok (crowd_analyzer self) ->
  CrowdAnalyzer.frame_sized (crowd_analyzer self) ->
  CrowdAnalyzer.grid_positive (crowd_analyzer self) ->
  CrowdAnalyzer.shape_sized (Some (io_shape io)) ->
  (length (processing_times self) <= 100)%nat ->
  exists r,
    (process_frame sqrt strftime isoformat self io).2 = CrowdAnalyzer.Done r
    /\ detections r = io_detections io
    /\ processing_time r = frame_end_time io - frame_start_time io
    /\ CrowdAnalyzer.history_ok
         (crowd_analyzer (process_frame sqrt strftime isoformat self io).1)
    /\ CrowdAnalyzer.frame_sized
         (crowd_analyzer (process_frame sqrt strftime isoformat self io).1)
    /\ CrowdAnalyzer.grid_positive
         (crowd_analyzer (process_frame sqrt strftime isoformat self io).1)
    /\ (length (processing_times
                  (process_frame sqrt strftime isoformat self io).1)
        <= 100)%nat
    /\ last (processing_times
               (process_frame sqrt strftime isoformat self io).1)
       = Some (processing_time r).
Proof using sqrt_nonneg sqrt_pos.
  intros Hok Hsized Hgrid Hshape Htimes.
  destruct (AnalysisProofs.analyze_crowd_done sqrt sqrt_nonneg sqrt_pos
              (crowd_analyzer self) (io_detections io) (Some (io_shape io))
              (analysis_time io) Hok Hsized Hgrid Hshape)
    as (a & Ha & _ & _ & Hok' & Hsized' & Hgrid').
  unfold process_frame.
  destruct (CrowdAnalyzer.analyze_crowd sqrt _ _ _ _) as [an res].
  cbn [fst snd] in *. subst res.
  destruct (AlertManager.check_alerts _ _ _ _) as [info mgr].
  cbn [fst snd crowd_analyzer processing_times].
  eexists. split; [reflexivity |].
  cbn [detections processing_time].
  split; [reflexivity |]. split; [reflexivity |].
  split; [exact Hok' |]. split; [exact Hsized' |]. split; [exact Hgrid' |].
  set (times := processing_times self ++ _).
  assert (Hlast : last times
                  = Some (frame_end_time io - frame_start_time io))
    by apply last_snoc.
  assert (Hlen : length times = S (length (processing_times self))).
  { unfold times. rewrite length_app. cbn [length]. lia. }
  destruct (Nat.ltb_spec 100 (length times)) as [Hlong|Hshort].
  - split.
    + rewrite AnalysisProofs.last_n_length. lia.
    + unfold Py.last_n, times. rewrite drop_app_le.
      * apply last_snoc.
      * rewrite length_app. cbn [length]. lia.
  - split; [lia | exact Hlast].
Qed.

(** X28: frames of known size are processed one after the other without an
    exception: the run returns one result per frame, each with the detections of
    its frame and the time the frame took, and it leaves the histories of the
    analyzer aligned and at most 100 processing times. *)
Theorem pipeline_never_raises (self : system) (frames : list frame_io) :
  CrowdAnalyzer.history_ok (crowd_analyzer self) ->
  CrowdAnalyzer.frame_sized (crowd_analyzer self) ->
  CrowdAnalyzer.grid_positive (crowd_analyzer self) ->
  (length (processing_times self) <= 100)%nat ->
  Forall (fun io => CrowdAnalyzer.shape_sized (Some (io_shape io))) frames ->
  exists results,
    (process_frames sqrt strftime isoformat self frames).2
    = CrowdAnalyzer.Done results
    /\ Forall2 (fun io r =>
                  detections r = io_detections io
                  /\ processing_time r
                     = frame_end_time io - frame_start_time io)
         frames results
    /\ CrowdAnalyzer.history_ok
         (crowd_analyzer
            (process_frames sqrt strftime isoformat self frames).1)
    /\ (length (processing_times
                  (process_frames sqrt strftime isoformat self frames).1)
        <= 100)%nat.
Proof using sqrt_nonneg sqrt_pos.
  intros Hok Hsized Hgrid Htimes Hframes.
  revert self Hok Hsized Hgrid Htimes.
  induction Hframes as [|io frames Hshape _ IH];
    intros self Hok Hsized Hgrid Htimes.
  - exists []. split; [reflexivity |]. split; [constructor |].
    split; [exact Hok | exact Htimes].
  - destruct (process_frame_returns self io Hok Hsized Hgrid Hshape Htimes)
      as (r & Hr & Hdets & Htime & Hok' & Hsized' & Hgrid' & Htimes' & _).
    cbn [process_frames].
    destruct (process_frame sqrt strftime isoformat self io) as [self' res].
    cbn [fst snd] in *. subst res.
    destruct (IH self' Hok' Hsized' Hgrid' Htimes')
      as (rest & Hrest & Hall & Hfinal & Hbound).
    destruct (process_frames sqrt strftime isoformat self' frames)
      as [self'' res].
    cbn [fst snd] in *. subst res.
    exists (r :: rest). split; [reflexivity |].
    split; [constructor; [split; assumption | exact Hall] |].
    split; [exact Hfinal | exact Hbound].
Qed.

End Pipeline.

(** Two frames on a fresh system. *)
Lemma pipeline_never_raises_witness :
  (CrowdAnalyzer.history_ok (crowd_analyzer init)
   /\ CrowdAnalyzer.frame_sized (crowd_analyzer init)
   /\ CrowdAnalyzer.grid_positive (crowd_analyzer init)
   /\ (length (processing_times init) <= 100)%nat
   /\ Forall (fun io => CrowdAnalyzer.shape_sized (Some (io_shape io)))
        [test_frame 3 1000; test_frame 75 1001])
  /\ exists results,
       (process_frames CrowdAnalyzer.sqrt_milli AlertManager.epoch_seconds
          AlertManager.epoch_seconds init
          [test_frame 3 1000; test_frame 75 1001]).2
       = CrowdAnalyzer.Done results
       /\ length results = 2%nat.
Proof.
  assert (Hok : CrowdAnalyzer.history_ok (crowd_analyzer init)).
  { unfold CrowdAnalyzer.history_ok, CrowdAnalyzer.history_maxlen.
    simpl. lia. }
  assert (Hsized : CrowdAnalyzer.frame_sized (crowd_analyzer init))
    by (split; discriminate).
  assert (Hgrid : CrowdAnalyzer.grid_positive (crowd_analyzer init))
    by (split; reflexivity).
  assert (Htimes : (length (processing_times init) <= 100)%nat)
    by (simpl; lia).
  assert (Hframes : Forall (fun io => CrowdAnalyzer.shape_sized
                                        (Some (io_shape io)))
                      [test_frame 3 1000; test_frame 75 1001]).
  { repeat constructor; unfold CrowdAnalyzer.shape_sized; simpl; lia. }
  split; [auto |].
  destruct (pipeline_never_raises CrowdAnalyzer.sqrt_milli
              AlertManager.epoch_seconds AlertManager.epoch_seconds
              DensityProofs.sqrt_milli_nonneg DensityProofs.sqrt_milli_pos
              init _ Hok Hsized Hgrid Htimes Hframes)
    as (results & Hrun & Hall & _).
  exists results. split; [exact Hrun |].
  apply Forall2_length in Hall. now rewrite <- Hall.
Defined.

End PipelineRunProofs.

(** ** Configuration paths through scalars *)

Module ConfigSetProofs.

Import Config.

(** Below a dict created on the way the assignment goes through. *)
Lemma assign_empty (keys : list string) (last : string) (v : value) :
  exists config', assign ∅ keys last v = Py.Ok config'.
Proof.
  induction keys as [|key keys [sub IH]]; cbn [assign]; [eauto |].
  rewrite lookup_empty, IH. cbn. eauto.
Qed.

Lemma assign_raises (keys : list string) (last : string) (v : value)
    (config : gmap string value) (e : Py.exn) :
  assign config keys last v = Py.Raise e
  <-> e = Py.TypeError
      /\ exists prefix key rest x,
           keys ++ [last] = prefix ++ key :: rest
           /\ prefix <> []
           /\ descend (Dict config) prefix = inr x
           /\ forall d, x <> Dict d.
Proof.
  revert config. induction keys as [|k keys IH]; intros config.
  - cbn [assign app]. split; [discriminate |].
    intros (_ & prefix & key & rest & x & Hpath & Hne & _).
    destruct prefix as [|p [|p' prefix]]; [contradiction | |];
      discriminate Hpath.
  - cbn [assign app]. unfold mbind, result_mbind.
    assert (Hscalar : forall x, config !! k = Some x ->
                      (forall d, x <> Dict d) ->
                      @Py.Raise (gmap string value) Py.TypeError = Py.Raise e
                      <-> e = Py.TypeError
                          /\ exists prefix key rest x,
                               k :: keys ++ [last] = prefix ++ key :: rest
                               /\ prefix <> []
                               /\ descend (Dict config) prefix = inr x
                               /\ forall d, x <> Dict d).
    { intros x Hx Hnot. split.
      - intros [= <-]. split; [reflexivity |].
        destruct (keys ++ [last]) as [|key rest] eqn:Hrest;
          [destruct keys; discriminate |].
        exists [k], key, rest, x. cbn [app descend]. rewrite Hx. auto.
      - intros [-> _]. reflexivity. }
    destruct (config !! k) as [x|] eqn:Hk.
    + destruct x as [| b | q | s | l | d];
        try (apply (Hscalar _ eq_refl); intros d; discriminate).
      clear Hscalar. specialize (IH d).
      destruct (assign d keys last v) as [sub|e'] eqn:Hsub; cbn [Py.bind].
      * split; [discriminate |].
        intros (-> & prefix & key & rest & x & Hpath & Hne & Hx & Hnot).
        destruct prefix as [|p prefix]; [contradiction |].
        injection Hpath as <- Hpath. cbn [descend] in Hx. rewrite Hk in Hx.
        destruct prefix as [|p' prefix].
        { injection Hx as <-. now destruct (Hnot d). }
        assert (H : @Py.Ok (gmap string value) sub = Py.Raise Py.TypeError);
          [| discriminate H].
        apply IH. split; [reflexivity |].
        exists (p' :: prefix), key, rest, x. auto.
      * split.
        -- intros [= <-]. destruct (proj1 IH eq_refl)
             as (-> & prefix & key & rest & x & Hpath & Hne & Hx & Hnot).
           split; [reflexivity |].
           exists (k :: prefix), key, rest, x. cbn [app descend].
           rewrite Hk, Hpath. auto.
        -- intros (-> & prefix & key & rest & x & Hpath & Hne & Hx & Hnot).
           destruct prefix as [|p prefix]; [contradiction |].
           injection Hpath as <- Hpath. cbn [descend] in Hx.
           rewrite Hk in Hx.
           destruct prefix as [|p' prefix].
           { injection Hx as <-. now destruct (Hnot d). }
           apply IH. split; [reflexivity |].
           exists (p' :: prefix), key, rest, x. auto.
    + clear Hscalar. destruct (assign_empty keys last v) as [sub ->].
      cbn [Py.bind]. split; [discriminate |].
      intros (_ & prefix & key & rest & x & Hpath & Hne & Hx & _).
      destruct prefix as [|p prefix]; [contradiction |].
      injection Hpath as <- _. cbn [descend] in Hx. rewrite Hk in Hx.
      discriminate Hx.
Qed.

(** X29: [set] raises exactly when a proper, non-empty prefix of the key path
    leads to a value that is not a dict, and the exception is then [TypeError]:
    a path through absent keys never raises. *)
Theorem set_raises_through_scalar (config : gmap string value)
    (key_path : string) (v : value) (e : Py.exn) :
  set config key_path v = Py.Raise e
  <-> e = Py.TypeError
      /\ exists prefix key rest x,
           split "." key_path = prefix ++ key :: rest
           /\ prefix <> []
           /\ descend (Dict config) prefix = inr x
           /\ forall d, x <> Dict d.
Proof.
  unfold set. rewrite assign_raises.
  now rewrite <- (ConfigProofs.split_keys "." key_path).
Qed.

(** The device entry of the default configuration is a string, so nothing
    can be set below it. *)
Example set_below_scalar_raises :
  set default_config "model.device.name" (Str "cpu") = Py.Raise Py.TypeError.
Proof. vm_compute. reflexivity. Qed.

End ConfigSetProofs.
